(** * HR-Management-Backend: derived metrics and record lifecycle

    A shallow embedding of the Mongoose models [Attendance], [Leave] and
    [CallData] (their schemas, validators and [pre("save")] hooks) and of
    the Express routes that persist, list and summarise them, followed
    by the properties of the derived fields, of the lifecycle guards and
    of the listings and statistics.

    Conventions of the embedding:
    - a JavaScript [Date] is its [getTime()] value, an integer number of
      milliseconds ([Z]); an absent (null) timestamp is [None];
    - a JavaScript [Number] holding a derived quantity is an exact
      rational ([Q]); the documented numeric examples are evaluated in
      binary64 as well ([Binary64]);
    - a collection is the list of its documents in natural order, and
      [findOne] returns the first document matching the query;
    - a document in memory carries the schema paths, which [save]
      writes, next to whatever else a route assigns on the object, which
      [save] leaves out;
    - the host keeps one UTC offset, so a local midnight is a multiple
      of a day minus that offset;
    - a sort keeps documents with equal keys in their natural order, and
      the [page] and [limit] of a listing are positive integers. *)

From Stdlib Require Import ZArith QArith Qround Qminmax List String Bool Lia Lqa.
From Stdlib Require Import Uint63 Floats Ascii Permutation Sorted.
Import ListNotations.
Open Scope Z_scope.

(** ** JavaScript primitives used by the hooks and routes *)

Module JS.

(** [Math.max(a, b)]. *)
Definition Math_max (a b : Q) : Q := if Qle_bool a b then b else a.

(** [Math.ceil(x)]. *)
Definition Math_ceil (x : Q) : Z := Qceiling x.

(** [Math.round(x)]: the nearest integer, ties towards +infinity. *)
Definition Math_round (x : Q) : Z := Qfloor (x + (1 # 2)).

(** [a >= b] and [a > b] on numbers. *)
Definition geq (a b : Q) : bool := Qle_bool b a.
Definition gt (a b : Q) : bool := negb (Qle_bool a b).

(** Truthiness of a value that is either an object or null. *)
Definition truthy {A : Type} (o : option A) : bool :=
  match o with Some _ => true | None => false end.

(** Numeric value of a date operand of [-]: null converts to 0. *)
Definition toNumber (o : option Z) : Z :=
  match o with Some t => t | None => 0 end.

Definition msPerHour : positive := 3600000.  (* 1000 * 60 * 60 *)
Definition msPerDay : positive := 86400000.  (* 1000 * 3600 * 24 *)

(** [d.setHours(0, 0, 0, 0)] on a host whose local time is UTC plus
    [tz] milliseconds: the local midnight at or before [t]. *)
Definition setHours0 (tz t : Z) : Z := t - ((t + tz) mod Zpos msPerDay).

End JS.

(** ** Shared request context *)

Definition Id := nat.

(** [role] of the employee schema: "admin", "employee" or "manager". *)
Module Role.
Inductive t := admin | employee | manager.
End Role.

(** [role === "admin"]. *)
Definition isAdmin (r : Role.t) : bool :=
  match r with Role.admin => true | _ => false end.

(** [req.employee], as decoded from the token by the [auth] middleware. *)
Record Actor := mkActor { actorId : Id; role : Role.t }.
Arguments mkActor actorId%_nat role.

(** The clock collaborator: [new Date()] and the host's UTC offset. *)
Record Clock := mkClock { now : Z; tz : Z }.

Record Response := mkResponse { statusCode : nat; message : string }.

Definition isError (r : Response) : bool := (400 <=? statusCode r)%nat.

(** Outcome of [doc.save()]. *)
Inductive SaveError :=
| ValidationError (path : string)
| HookError (msg : string)
| DuplicateKey.

Inductive Result (A : Type) :=
| Ok (a : A)
| Err (e : SaveError).
Arguments Ok {A} a.
Arguments Err {A} e.

(** ** Collections *)

Section Collection.
Context {A : Type} (key : A -> Id).

Definition findOne (q : A -> bool) (db : list A) : option A := find q db.

Definition findById (i : Id) (db : list A) : option A :=
  findOne (fun x => (key x =? i)%nat) db.

(** Write a document back: replace the stored one with the same [_id],
    or append it when there is none. *)
Fixpoint store (r : A) (db : list A) : list A :=
  match db with
  | [] => [r]
  | x :: xs => if (key x =? key r)%nat then r :: xs else x :: store r xs
  end.

(** A fresh [ObjectId] for [new Model(...)]. *)
Definition freshId (db : list A) : Id := S (list_max (map key db)).
End Collection.
Arguments findById {A} key i%_nat db.

(** ** models/Attendance.js *)

Module Attendance.

Inductive Status := Present | Absent | Late | HalfDay | Holiday.

(** The schema paths the properties depend on ([notes], [location],
    [isManualEntry] and [approvedBy] play no part in the hook and are
    left out). *)
Record t := mk {
  _id : Id;
  employee : Id;
  date : Z;
  clockIn : option Z;
  clockOut : option Z;
  breakStart : option Z;
  breakEnd : option Z;
  totalHours : Q;
  overtimeHours : Q;
  status : Status
}.

Definition set_clockIn (v : option Z) (r : t) : t :=
  mk (_id r) (employee r) (date r) v (clockOut r) (breakStart r)
     (breakEnd r) (totalHours r) (overtimeHours r) (status r).
Definition set_clockOut (v : option Z) (r : t) : t :=
  mk (_id r) (employee r) (date r) (clockIn r) v (breakStart r)
     (breakEnd r) (totalHours r) (overtimeHours r) (status r).
Definition set_totalHours (v : Q) (r : t) : t :=
  mk (_id r) (employee r) (date r) (clockIn r) (clockOut r) (breakStart r)
     (breakEnd r) v (overtimeHours r) (status r).
Definition set_status (v : Status) (r : t) : t :=
  mk (_id r) (employee r) (date r) (clockIn r) (clockOut r) (breakStart r)
     (breakEnd r) (totalHours r) (overtimeHours r) v.

(** Milliseconds worked, as the hook accumulates them in [totalMs]. *)
Definition totalMs (ci co : Z) (bs be : option Z) : Z :=
  let totalMs := co - ci in
  match bs, be with
  | Some bs, Some be => totalMs - (be - bs)
  | _, _ => totalMs
  end.

(** [attendanceSchema.pre("save")]. *)
Definition pre_save (r : t) : t :=
  match clockIn r, clockOut r with
  | Some ci, Some co =>
      let ms := totalMs ci co (breakStart r) (breakEnd r) in
      let totalHours' := JS.Math_max 0 (ms # JS.msPerHour) in
      let overtimeHours' := JS.Math_max 0 (totalHours' - 8) in
      let status' :=
        if JS.geq totalHours' 8 then Present
        else if JS.geq totalHours' 4 then HalfDay
        else if JS.gt totalHours' 0 then Late
        else status r in
      mk (_id r) (employee r) (date r) (clockIn r) (clockOut r)
         (breakStart r) (breakEnd r) totalHours' overtimeHours' status'
  | _, _ => r
  end.

(** The unique index on (employee, date). *)
Definition clashes (r x : t) : bool :=
  negb (_id x =? _id r)%nat && (employee x =? employee r)%nat
  && (date x =? date r).

(** [doc.save()]: the hook, then the write under the unique index. *)
Definition save (db : list t) (r : t) : Result (t * list t) :=
  let r' := pre_save r in
  if existsb (clashes r') db then Err DuplicateKey
  else Ok (r', store _id r' db).

End Attendance.

(** ** routes/attendance.js *)

Module AttendanceRoutes.
Import Attendance.

(** The query every route uses to find an employee's record of a day:
    [{ employee, date: { $gte: day, $lt: day + 24h } }]. *)
Definition ofDay (emp : Id) (day : Z) (a : t) : bool :=
  (employee a =? emp)%nat && (day <=? date a)
  && (date a <? day + 24 * 60 * 60 * 1000).

(** The value the routes assign to [totalHours] before saving:
    [Math.round((timeDiff / (1000 * 60 * 60)) * 100) / 100]. *)
Definition roundedHours (timeDiff : Z) : Q :=
  inject_Z (JS.Math_round ((timeDiff # JS.msPerHour) * 100)) / 100.

(** [router.post("/clock-out")]. *)
Definition clockOutRoute (connected : bool) (clk : Clock) (actor : Actor)
    (db : list t) : Response * list t :=
  let mock := (mkResponse 200 "Clocked out successfully", db) in
  if connected then
    let today := JS.setHours0 (tz clk) (now clk) in
    match findOne (ofDay (actorId actor) today) db with
    | None => (mkResponse 404 "No clock-in record found for today", db)
    | Some attendance =>
        if JS.truthy (clockOut attendance) then
          (mkResponse 400 "You have already clocked out today", db)
        else
          let attendance := set_clockOut (Some (now clk)) attendance in
          let timeDiff := now clk - JS.toNumber (clockIn attendance) in
          let attendance :=
            set_totalHours (roundedHours timeDiff) attendance in
          match save db attendance with
          | Ok (_, db') =>
              (mkResponse 200 "Clocked out successfully", db')
          | Err _ => mock
          end
    end
  else mock.

(** Body of [PUT /api/attendance/:id]; an absent or empty field is
    [None]. *)
Record UpdateBody := mkUpdateBody {
  b_clockIn : option Z;
  b_clockOut : option Z;
  b_status : option Status
}.

(** [router.put("/:id")], behind [adminAuth]. *)
Definition updateRoute (actor : Actor) (id : Id) (body : UpdateBody)
    (db : list t) : Response * list t :=
  if negb (isAdmin (role actor)) then
    (mkResponse 403 "Access denied. Admin privileges required.", db)
  else
    match findById _id id db with
    | None => (mkResponse 404 "Attendance record not found", db)
    | Some attendance =>
        let attendance :=
          match b_clockIn body with
          | Some v => set_clockIn (Some v) attendance
          | None => attendance
          end in
        let attendance :=
          match b_clockOut body with
          | Some v => set_clockOut (Some v) attendance
          | None => attendance
          end in
        let attendance :=
          match b_status body with
          | Some v => set_status v attendance
          | None => attendance
          end in
        let attendance :=
          match clockIn attendance, clockOut attendance with
          | Some ci, Some co =>
              set_totalHours (roundedHours (co - ci)) attendance
          | _, _ => attendance
          end in
        match save db attendance with
        | Ok (_, db') =>
            (mkResponse 200 "Attendance record updated successfully", db')
        | Err _ =>
            (mkResponse 500 "Server error while updating attendance record", db)
        end
    end.

End AttendanceRoutes.

(** Sequencing of fallible steps. *)
Definition bind {A B : Type} (m : Result A) (k : A -> Result B) : Result B :=
  match m with Ok a => k a | Err e => Err e end.

Notation "x <- m ;; k" := (bind m (fun x => k))
  (at level 61, m at next level, right associativity).

(** ** models/Leave.js *)

Module Leave.

Inductive LeaveType :=
| Vacation | SickLeave | PersonalLeave | EmergencyLeave
| MaternityPaternity | Bereavement.

Inductive Status := Pending | Approved | Rejected | Cancelled.

Definition status_eqb (a b : Status) : bool :=
  match a, b with
  | Pending, Pending | Approved, Approved
  | Rejected, Rejected | Cancelled, Cancelled => true
  | _, _ => false
  end.

(** The schema paths the properties depend on ([emergencyContact],
    [attachments], [halfDayPeriod] and [createdAt] are written by no
    route or method below and left out).  [reason] is the value after
    the schema's [trim] setter. *)
Record t := mk {
  _id : Id;
  employee : Id;
  type : LeaveType;
  startDate : option Z;
  endDate : option Z;
  totalDays : option Q;
  reason : string;
  status : Status;
  approvedBy : option Id;
  approvedDate : option Z;
  rejectionReason : option string;
  handoverNotes : option string;
  isHalfDay : bool;
  updatedAt : option Z
}.

Definition set_type (v : LeaveType) (r : t) : t :=
  mk (_id r) (employee r) v (startDate r) (endDate r) (totalDays r)
     (reason r) (status r) (approvedBy r) (approvedDate r)
     (rejectionReason r) (handoverNotes r) (isHalfDay r) (updatedAt r).
Definition set_startDate (v : option Z) (r : t) : t :=
  mk (_id r) (employee r) (type r) v (endDate r) (totalDays r) (reason r)
     (status r) (approvedBy r) (approvedDate r) (rejectionReason r)
     (handoverNotes r) (isHalfDay r) (updatedAt r).
Definition set_endDate (v : option Z) (r : t) : t :=
  mk (_id r) (employee r) (type r) (startDate r) v (totalDays r) (reason r)
     (status r) (approvedBy r) (approvedDate r) (rejectionReason r)
     (handoverNotes r) (isHalfDay r) (updatedAt r).
Definition set_totalDays (v : option Q) (r : t) : t :=
  mk (_id r) (employee r) (type r) (startDate r) (endDate r) v (reason r)
     (status r) (approvedBy r) (approvedDate r) (rejectionReason r)
     (handoverNotes r) (isHalfDay r) (updatedAt r).
Definition set_reason (v : string) (r : t) : t :=
  mk (_id r) (employee r) (type r) (startDate r) (endDate r) (totalDays r) v
     (status r) (approvedBy r) (approvedDate r) (rejectionReason r)
     (handoverNotes r) (isHalfDay r) (updatedAt r).
Definition set_status (v : Status) (r : t) : t :=
  mk (_id r) (employee r) (type r) (startDate r) (endDate r) (totalDays r)
     (reason r) v (approvedBy r) (approvedDate r) (rejectionReason r)
     (handoverNotes r) (isHalfDay r) (updatedAt r).
Definition set_approvedBy (v : option Id) (r : t) : t :=
  mk (_id r) (employee r) (type r) (startDate r) (endDate r) (totalDays r)
     (reason r) (status r) v (approvedDate r) (rejectionReason r)
     (handoverNotes r) (isHalfDay r) (updatedAt r).
Definition set_approvedDate (v : option Z) (r : t) : t :=
  mk (_id r) (employee r) (type r) (startDate r) (endDate r) (totalDays r)
     (reason r) (status r) (approvedBy r) v (rejectionReason r)
     (handoverNotes r) (isHalfDay r) (updatedAt r).
Definition set_rejectionReason (v : option string) (r : t) : t :=
  mk (_id r) (employee r) (type r) (startDate r) (endDate r) (totalDays r)
     (reason r) (status r) (approvedBy r) (approvedDate r) v
     (handoverNotes r) (isHalfDay r) (updatedAt r).
Definition set_handoverNotes (v : option string) (r : t) : t :=
  mk (_id r) (employee r) (type r) (startDate r) (endDate r) (totalDays r)
     (reason r) (status r) (approvedBy r) (approvedDate r)
     (rejectionReason r) v (isHalfDay r) (updatedAt r).
Definition set_updatedAt (v : option Z) (r : t) : t :=
  mk (_id r) (employee r) (type r) (startDate r) (endDate r) (totalDays r)
     (reason r) (status r) (approvedBy r) (approvedDate r)
     (rejectionReason r) (handoverNotes r) (isHalfDay r) v.

(** A document in memory: the schema paths, whether [status] was
    changed since the document was loaded ([isModified("status")]), and
    the properties the routes assign that the schema does not declare.
    The latter live on the object only: [save] does not write them. *)
Record Doc := mkDoc {
  paths : t;
  statusModified : bool;
  approvedAt : option Z;
  rejectedBy : option Id;
  rejectedAt : option Z;
  halfDay : option bool;
  comments : option string
}.

(** A document as returned by [findById] / [findOne]. *)
Definition load (r : t) : Doc := mkDoc r false None None None None None.

Definition with_paths (f : t -> t) (d : Doc) : Doc :=
  mkDoc (f (paths d)) (statusModified d) (approvedAt d) (rejectedBy d)
        (rejectedAt d) (halfDay d) (comments d).

(** [doc.status = v]: the path is marked modified when the value
    changes. *)
Definition assign_status (v : Status) (d : Doc) : Doc :=
  mkDoc (set_status v (paths d))
        (statusModified d || negb (status_eqb (status (paths d)) v))
        (approvedAt d) (rejectedBy d) (rejectedAt d) (halfDay d)
        (comments d).
Definition assign_approvedAt (v : Z) (d : Doc) : Doc :=
  mkDoc (paths d) (statusModified d) (Some v) (rejectedBy d)
        (rejectedAt d) (halfDay d) (comments d).
Definition assign_rejectedBy (v : Id) (d : Doc) : Doc :=
  mkDoc (paths d) (statusModified d) (approvedAt d) (Some v)
        (rejectedAt d) (halfDay d) (comments d).
Definition assign_rejectedAt (v : Z) (d : Doc) : Doc :=
  mkDoc (paths d) (statusModified d) (approvedAt d) (rejectedBy d)
        (Some v) (halfDay d) (comments d).
Definition assign_halfDay (v : bool) (d : Doc) : Doc :=
  mkDoc (paths d) (statusModified d) (approvedAt d) (rejectedBy d)
        (rejectedAt d) (Some v) (comments d).
Definition assign_comments (v : string) (d : Doc) : Doc :=
  mkDoc (paths d) (statusModified d) (approvedAt d) (rejectedBy d)
        (rejectedAt d) (halfDay d) (Some v).

(** The day count both the hook and the routes compute:
    [Math.ceil(timeDiff / (1000 * 3600 * 24)) + 1]. *)
Definition daysDiff (start end_ : Z) : Q :=
  let timeDiff := end_ - start in
  inject_Z (JS.Math_ceil (timeDiff # JS.msPerDay) + 1).

(** First [pre("save")] hook: total days. *)
Definition computeTotalDays (r : t) : t :=
  match startDate r, endDate r with
  | Some start, Some end_ =>
      let daysDiff := daysDiff start end_ in
      let daysDiff := if isHalfDay r then (1 # 2)%Q else daysDiff in
      set_totalDays (Some daysDiff) r
  | _, _ => r
  end.

(** Second hook: the end date is not before the start date. *)
Definition validateRange (r : t) : Result t :=
  match startDate r, endDate r with
  | Some start, Some end_ =>
      if end_ <? start
      then Err (HookError "End date cannot be before start date")
      else Ok r
  | _, _ => Ok r
  end.

(** Third hook: stamp [approvedDate] when the status becomes Approved. *)
Definition stampApproved (clk : Clock) (modified : bool) (r : t) : t :=
  if modified && status_eqb (status r) Approved
  then set_approvedDate (Some (now clk)) r
  else r.

(** Schema validation, which Mongoose runs ahead of the [pre("save")]
    hooks: the [required] paths and [maxlength] of [reason]. *)
Definition validate (r : t) : Result t :=
  if negb (JS.truthy (startDate r)) then Err (ValidationError "startDate")
  else if negb (JS.truthy (endDate r)) then Err (ValidationError "endDate")
  else if negb (JS.truthy (totalDays r)) then Err (ValidationError "totalDays")
  else if (String.length (reason r) =? 0)%nat
    then Err (ValidationError "reason")
  else if (500 <? String.length (reason r))%nat
    then Err (ValidationError "reason")
  else Ok r.

(** [doc.save()]: validation, the three hooks in the order they are
    registered, the [timestamps] option, then the write of the schema
    paths. *)
Definition save (clk : Clock) (db : list t) (d : Doc)
  : Result (t * list t) :=
  r <- validate (paths d) ;;
  r <- validateRange (computeTotalDays r) ;;
  let r := stampApproved clk (statusModified d) r in
  let r := set_updatedAt (Some (now clk)) r in
  Ok (r, store _id r db).

(** [leaveSchema.methods.approve]; an empty [notes] is [None]. *)
Definition approve (clk : Clock) (db : list t) (approverId : Id)
    (notes : option string) (d : Doc) : Result (t * list t) :=
  let d := assign_status Approved d in
  let d := with_paths (set_approvedBy (Some approverId)) d in
  let d := with_paths (set_approvedDate (Some (now clk))) d in
  let d :=
    match notes with
    | Some n => with_paths (set_handoverNotes (Some n)) d
    | None => d
    end in
  save clk db d.

(** [leaveSchema.methods.reject]. *)
Definition reject (clk : Clock) (db : list t) (approverId : Id)
    (reason : string) (d : Doc) : Result (t * list t) :=
  let d := assign_status Rejected d in
  let d := with_paths (set_approvedBy (Some approverId)) d in
  let d := with_paths (set_rejectionReason (Some reason)) d in
  save clk db d.

Definition active (s : Status) : bool :=
  match s with Pending | Approved => true | _ => false end.

(** The overlap query: [{ employee, status: { $in: [Pending, Approved] },
    startDate: { $lte: endDate }, endDate: { $gte: startDate } }]. *)
Definition overlapQuery (employeeId : Id) (startDate' endDate' : Z)
    (l : t) : bool :=
  (employee l =? employeeId)%nat
  && active (status l)
  && match startDate l with Some s => s <=? endDate' | None => false end
  && match endDate l with Some e => startDate' <=? e | None => false end.

(** [leaveSchema.statics.checkOverlappingLeaves]. *)
Definition checkOverlappingLeaves (db : list t) (employeeId : Id)
    (startDate' endDate' : Z) (excludeLeaveId : option Id) : option t :=
  findOne
    (fun l =>
       overlapQuery employeeId startDate' endDate' l
       && match excludeLeaveId with
          | Some x => negb (_id l =? x)%nat
          | None => true
          end)
    db.

Arguments checkOverlappingLeaves db employeeId%_nat startDate' endDate'
  excludeLeaveId.
Arguments approve clk db approverId%_nat notes d.
Arguments reject clk db approverId%_nat reason%_string d.

End Leave.

(** ** routes/leaves.js *)

Module LeaveRoutes.
Import Leave.

(** Body of [POST /api/leaves]; a missing or empty field is [None]. *)
Record CreateBody := mkCreateBody {
  c_type : option LeaveType;
  c_startDate : option Z;
  c_endDate : option Z;
  c_reason : option string;
  c_isHalfDay : bool
}.

(** [router.post("/")]. *)
Definition createRoute (connected : bool) (clk : Clock) (actor : Actor)
    (body : CreateBody) (db : list t) : Response * list t :=
  match c_type body, c_startDate body, c_endDate body, c_reason body with
  | Some type, Some start, Some end_, Some reason =>
      if end_ <? start then
        (mkResponse 400 "Start date cannot be after end date", db)
      else if start <? now clk then
        (mkResponse 400 "Cannot apply for leave in the past", db)
      else
        let totalDays := daysDiff start end_ in
        let totalDays := if c_isHalfDay body then (1 # 2)%Q else totalDays in
        let mock := (mkResponse 201 "Leave request submitted successfully", db) in
        if connected then
          match findOne (overlapQuery (actorId actor) start end_) db with
          | Some _ =>
              (mkResponse 400
                 "You already have a leave request for overlapping dates", db)
          | None =>
              (* [halfDay] is not a schema path: the constructor drops
                 it, and [isHalfDay] and [status] take their defaults *)
              let leave :=
                load (mk (freshId _id db) (actorId actor) type (Some start)
                         (Some end_) (Some totalDays) reason Pending
                         None None None None false None) in
              match save clk db leave with
              | Ok (_, db') =>
                  (mkResponse 201 "Leave request submitted successfully", db')
              | Err _ => mock
              end
          end
        else mock
  | _, _, _, _ => (mkResponse 400 "Please provide all required fields", db)
  end.

Definition adminAuth (actor : Actor) : bool := isAdmin (role actor).

(** [router.put("/:id/approve")]. *)
Definition approveRoute (connected : bool) (clk : Clock) (actor : Actor)
    (id : Id) (comments : option string) (db : list t)
  : Response * list t :=
  if negb (adminAuth actor) then
    (mkResponse 403 "Access denied. Admin privileges required.", db)
  else
    let mock := (mkResponse 200 "Leave request approved successfully", db) in
    if connected then
      match findById _id id db with
      | None => (mkResponse 404 "Leave request not found", db)
      | Some stored =>
          let leave := load stored in
          if negb (status_eqb (status (paths leave)) Pending) then
            (mkResponse 400 "Only pending leave requests can be approved", db)
          else
            let leave := assign_status Approved leave in
            let leave :=
              with_paths (set_approvedBy (Some (actorId actor))) leave in
            let leave := assign_approvedAt (now clk) leave in
            let leave :=
              match comments with
              | Some c => assign_comments c leave
              | None => leave
              end in
            match save clk db leave with
            | Ok (_, db') =>
                (mkResponse 200 "Leave request approved successfully", db')
            | Err _ => mock
            end
      end
    else mock.

(** [router.put("/:id/reject")]. *)
Definition rejectRoute (connected : bool) (clk : Clock) (actor : Actor)
    (id : Id) (comments : option string) (db : list t)
  : Response * list t :=
  if negb (adminAuth actor) then
    (mkResponse 403 "Access denied. Admin privileges required.", db)
  else
    let mock := (mkResponse 200 "Leave request rejected successfully", db) in
    if connected then
      match findById _id id db with
      | None => (mkResponse 404 "Leave request not found", db)
      | Some stored =>
          let leave := load stored in
          if negb (status_eqb (status (paths leave)) Pending) then
            (mkResponse 400 "Only pending leave requests can be rejected", db)
          else
            let leave := assign_status Rejected leave in
            let leave := assign_rejectedBy (actorId actor) leave in
            let leave := assign_rejectedAt (now clk) leave in
            let leave :=
              match comments with
              | Some c => assign_comments c leave
              | None => leave
              end in
            match save clk db leave with
            | Ok (_, db') =>
                (mkResponse 200 "Leave request rejected successfully", db')
            | Err _ => mock
            end
      end
    else mock.

(** Body of [PUT /api/leaves/:id]; [u_halfDay] is [None] when the field
    is undefined. *)
Record UpdateBody := mkUpdateBody {
  u_type : option LeaveType;
  u_startDate : option Z;
  u_endDate : option Z;
  u_reason : option string;
  u_halfDay : option bool
}.

Definition truthyBool (o : option bool) : bool :=
  match o with Some b => b | None => false end.

(** [router.put("/:id")]. *)
Definition updateRoute (clk : Clock) (actor : Actor) (id : Id)
    (body : UpdateBody) (db : list t) : Response * list t :=
  match findById _id id db with
  | None => (mkResponse 404 "Leave request not found", db)
  | Some stored =>
      let leave := load stored in
      if negb (employee (paths leave) =? actorId actor)%nat
         && negb (isAdmin (role actor)) then
        (mkResponse 403 "Access denied", db)
      else if negb (status_eqb (status (paths leave)) Pending)
              && negb (isAdmin (role actor)) then
        (mkResponse 400 "Only pending leave requests can be updated", db)
      else
        let leave :=
          match u_type body with
          | Some v => with_paths (set_type v) leave
          | None => leave
          end in
        let leave :=
          match u_reason body with
          | Some v => with_paths (set_reason v) leave
          | None => leave
          end in
        let leave :=
          match u_halfDay body with
          | Some v => assign_halfDay v leave
          | None => leave
          end in
        let persist leave :=
          match save clk db leave with
          | Ok (_, db') =>
              (mkResponse 200 "Leave request updated successfully", db')
          | Err _ =>
              (mkResponse 500 "Server error while updating leave request", db)
          end in
        match u_startDate body, u_endDate body with
        | Some start, Some end_ =>
            if end_ <? start then
              (mkResponse 400 "Start date cannot be after end date", db)
            else
              let leave := with_paths (set_startDate (Some start)) leave in
              let leave := with_paths (set_endDate (Some end_)) leave in
              let leave :=
                with_paths
                  (set_totalDays
                     (Some (if truthyBool (u_halfDay body) then (1 # 2)%Q
                            else daysDiff start end_)))
                  leave in
              persist leave
        | _, _ => persist leave
        end
  end.

Arguments approveRoute connected clk actor id%_nat comments db.
Arguments rejectRoute connected clk actor id%_nat comments db.
Arguments updateRoute clk actor id%_nat body db.

End LeaveRoutes.

(** ** models/CallData.js *)

Module CallData.

(** The schema paths the properties depend on ([addedAt] and
    [isCheckedOut] are written by no route and left out). *)
Record t := mk {
  _id : Id;
  employee : Id;
  date : Z;
  totalCalls : Q;
  totalCallTime : Q;
  interestedStudents : Q;
  visitedToday : Q;
  performanceScore : Q;
  notes : string;
  updatedAt : option Z;
  updatedBy : option Id
}.

Definition set_totalCalls (v : Q) (r : t) : t :=
  mk (_id r) (employee r) (date r) v (totalCallTime r)
     (interestedStudents r) (visitedToday r) (performanceScore r)
     (notes r) (updatedAt r) (updatedBy r).
Definition set_totalCallTime (v : Q) (r : t) : t :=
  mk (_id r) (employee r) (date r) (totalCalls r) v
     (interestedStudents r) (visitedToday r) (performanceScore r)
     (notes r) (updatedAt r) (updatedBy r).
Definition set_interestedStudents (v : Q) (r : t) : t :=
  mk (_id r) (employee r) (date r) (totalCalls r) (totalCallTime r)
     v (visitedToday r) (performanceScore r)
     (notes r) (updatedAt r) (updatedBy r).
Definition set_visitedToday (v : Q) (r : t) : t :=
  mk (_id r) (employee r) (date r) (totalCalls r) (totalCallTime r)
     (interestedStudents r) v (performanceScore r)
     (notes r) (updatedAt r) (updatedBy r).
Definition set_performanceScore (v : Q) (r : t) : t :=
  mk (_id r) (employee r) (date r) (totalCalls r) (totalCallTime r)
     (interestedStudents r) (visitedToday r) v
     (notes r) (updatedAt r) (updatedBy r).
Definition set_notes (v : string) (r : t) : t :=
  mk (_id r) (employee r) (date r) (totalCalls r) (totalCallTime r)
     (interestedStudents r) (visitedToday r) (performanceScore r)
     v (updatedAt r) (updatedBy r).
Definition set_updated (at_ : Z) (by_ : Id) (r : t) : t :=
  mk (_id r) (employee r) (date r) (totalCalls r) (totalCallTime r)
     (interestedStudents r) (visitedToday r) (performanceScore r)
     (notes r) (Some at_) (Some by_).

(** The weighted sum of the [pre("save")] hook. *)
Definition computeScore
    (visitedToday interestedStudents totalCallTime totalCalls : Q) : Q :=
  visitedToday * 40 + interestedStudents * 30
  + totalCallTime * 0.2 + totalCalls * 0.1.

(** [callDataSchema.pre("save")]. *)
Definition pre_save (r : t) : t :=
  set_performanceScore
    (computeScore (visitedToday r) (interestedStudents r)
                  (totalCallTime r) (totalCalls r))
    r.

(** Schema validation, run ahead of the hook: the [min: 0] validators.
    [performanceScore] is checked with the value the document holds on
    entry, that is the caller's or the stored one. *)
Definition validate (r : t) : Result t :=
  if JS.gt 0 (totalCalls r) then Err (ValidationError "totalCalls")
  else if JS.gt 0 (totalCallTime r)
    then Err (ValidationError "totalCallTime")
  else if JS.gt 0 (interestedStudents r)
    then Err (ValidationError "interestedStudents")
  else if JS.gt 0 (visitedToday r)
    then Err (ValidationError "visitedToday")
  else if JS.gt 0 (performanceScore r)
    then Err (ValidationError "performanceScore")
  else Ok r.

(** The unique index on (employee, date). *)
Definition clashes (r x : t) : bool :=
  negb (_id x =? _id r)%nat && (employee x =? employee r)%nat
  && (date x =? date r).

(** [doc.save()]. *)
Definition save (db : list t) (r : t) : Result (t * list t) :=
  r <- validate r ;;
  let r := pre_save r in
  if existsb (clashes r) db then Err DuplicateKey
  else Ok (r, store _id r db).

End CallData.

(** ** The call-data router, mounted at /api/calls *)

Module CallRoutes.
Import CallData.

(** Has the employee checked out today?  The guard shared by the
    create and update routes: today's attendance record exists and its
    [clockOut] is set. *)
Definition checkedOut (today : Z) (actor : Actor)
    (att : list Attendance.t) : bool :=
  match findOne (AttendanceRoutes.ofDay (actorId actor) today) att with
  | Some attendance => JS.truthy (Attendance.clockOut attendance)
  | None => false
  end.

(** Body of [POST /api/calls]; an undefined field is [None], and so is
    an empty [notes]. *)
Record CreateBody := mkCreateBody {
  c_totalCalls : option Q;
  c_totalCallTime : option Q;
  c_interestedStudents : option Q;
  c_visitedToday : option Q;
  c_notes : option string;
  c_date : option Z;
  c_employee : option Id
}.

Definition inDay (emp : Id) (day : Z) (c : t) : bool :=
  (employee c =? emp)%nat && (day <=? date c)
  && (date c <? day + 24 * 60 * 60 * 1000).

(** [router.post("/")]. *)
Definition createRoute (clk : Clock) (actor : Actor) (body : CreateBody)
    (att : list Attendance.t) (db : list t) : Response * list t :=
  match c_totalCalls body, c_totalCallTime body,
        c_interestedStudents body, c_visitedToday body with
  | Some totalCalls, Some totalCallTime,
    Some interestedStudents, Some visitedToday =>
      let proceed (employeeId : Id) :=
        let recordDate :=
          JS.setHours0 (tz clk)
            (match c_date body with Some d => d | None => now clk end) in
        let today := JS.setHours0 (tz clk) (now clk) in
        if negb (isAdmin (role actor)) && (recordDate =? today)
           && checkedOut today actor att then
          (mkResponse 400 "Cannot add/edit call data after checking out", db)
        else
          let callData :=
            match findOne (inDay employeeId recordDate) db with
            | Some callData =>
                let callData := set_totalCalls totalCalls callData in
                let callData := set_totalCallTime totalCallTime callData in
                let callData :=
                  set_interestedStudents interestedStudents callData in
                let callData := set_visitedToday visitedToday callData in
                let callData :=
                  match c_notes body with
                  | Some n => set_notes n callData
                  | None => callData
                  end in
                set_updated (now clk) (actorId actor) callData
            | None =>
                mk (freshId _id db) employeeId recordDate totalCalls
                   totalCallTime interestedStudents visitedToday 0
                   (match c_notes body with Some n => n | None => "" end)
                   (Some (now clk)) None
            end in
          match save db callData with
          | Ok (saved, db') =>
              (mkResponse 201
                 (match updatedBy saved with
                  | Some _ => "Call data updated successfully"
                  | None => "Call data added successfully"
                  end), db')
          | Err DuplicateKey =>
              (mkResponse 400 "Call data for this date already exists", db)
          | Err _ =>
              (mkResponse 500
                 "Server error while adding/updating call data", db)
          end in
      match c_employee body with
      | Some employee =>
          if isAdmin (role actor) then proceed employee
          else
            (mkResponse 403 "Only admins can add data for other employees", db)
      | None => proceed (actorId actor)
      end
  | _, _, _, _ => (mkResponse 400 "Please provide all required fields", db)
  end.

(** Body of [PUT /api/calls/:id]; an undefined field is [None]. *)
Record UpdateBody := mkUpdateBody {
  u_totalCalls : option Q;
  u_totalCallTime : option Q;
  u_interestedStudents : option Q;
  u_visitedToday : option Q;
  u_notes : option string
}.

Definition assign {A : Type} (o : option A) (set : A -> t -> t) (r : t) : t :=
  match o with Some v => set v r | None => r end.

(** [router.put("/:id")]. *)
Definition updateRoute (clk : Clock) (actor : Actor) (id : Id)
    (body : UpdateBody) (att : list Attendance.t) (db : list t)
  : Response * list t :=
  match findById _id id db with
  | None => (mkResponse 404 "Call data not found", db)
  | Some callData =>
      if negb (employee callData =? actorId actor)%nat
         && negb (isAdmin (role actor)) then
        (mkResponse 403 "Access denied", db)
      else
        let today := JS.setHours0 (tz clk) (now clk) in
        let recordDate := JS.setHours0 (tz clk) (date callData) in
        if negb (isAdmin (role actor)) && (recordDate =? today)
           && checkedOut today actor att then
          (mkResponse 400 "Cannot edit call data after checking out", db)
        else
          let callData := assign (u_totalCalls body) set_totalCalls callData in
          let callData :=
            assign (u_totalCallTime body) set_totalCallTime callData in
          let callData :=
            assign (u_interestedStudents body) set_interestedStudents
                   callData in
          let callData :=
            assign (u_visitedToday body) set_visitedToday callData in
          let callData := assign (u_notes body) set_notes callData in
          let callData := set_updated (now clk) (actorId actor) callData in
          match save db callData with
          | Ok (_, db') =>
              (mkResponse 200 "Call data updated successfully", db')
          | Err _ =>
              (mkResponse 500 "Server error while updating call data", db)
          end
  end.

Arguments updateRoute clk actor id%_nat body att db.

End CallRoutes.

(** ** The numeric expressions of the hooks in binary64

    The same expressions over IEEE 754 binary64, the representation of a
    JavaScript [Number], to evaluate the documented examples without
    the idealisation to rationals. *)

Module Binary64.

(** A count of milliseconds as a [Number] (exact below 2^53). *)
Definition ofMs (ms : Z) : float :=
  if ms <? 0 then PrimFloat.opp (PrimFloat.of_uint63 (Uint63.of_Z (- ms)))
  else PrimFloat.of_uint63 (Uint63.of_Z ms).

Definition Math_max (a b : float) : float :=
  if PrimFloat.leb a b then b else a.

(** [Math.max(0, totalMs / (1000 * 60 * 60))]. *)
Definition totalHours (totalMs : Z) : float :=
  Math_max 0 (PrimFloat.div (ofMs totalMs) 3600000).

(** The status branch of the attendance hook. *)
Definition status (totalMs : Z) (old : Attendance.Status)
  : Attendance.Status :=
  let h := totalHours totalMs in
  if PrimFloat.leb 8 h then Attendance.Present
  else if PrimFloat.leb 4 h then Attendance.HalfDay
  else if PrimFloat.ltb 0 h then Attendance.Late
  else old.

(** The weighted sum of the call-data hook; 0.2 and 0.1 are the
    nearest binary64 values, as in JavaScript. *)
#[warnings="-inexact-float"]
Definition computeScore
    (visitedToday interestedStudents totalCallTime totalCalls : float)
  : float :=
  (visitedToday * 40 + interestedStudents * 30
   + totalCallTime * 0.2 + totalCalls * 0.1)%float.

End Binary64.

(** ** Concrete documents and requests used in the examples below *)

Module Examples.

(** [new Date("YYYY-MM-DD")]: UTC midnight of a civil date, counted
    in days from 2024-01-01. *)
Definition jan2024 (day : Z) : Z := 1704067200000 + (day - 1) * 86400000.

Definition hours (h : Z) : Z := h * 3600000.

(** A day of 2024-01-20: in at 08:00, out at 17:00, a break from 12:00
    to 13:00. *)
Definition shift : Attendance.t :=
  Attendance.mk 1%nat 7%nat (jan2024 20)
    (Some (jan2024 20 + hours 8)) (Some (jan2024 20 + hours 17))
    (Some (jan2024 20 + hours 12)) (Some (jan2024 20 + hours 13))
    0 0 Attendance.Absent.

(** A record of 2024-01-20 with [ms] milliseconds between clock-in and
    clock-out, no break, and the status the caller supplied. *)
Definition worked (ms : Z) (st : Attendance.Status) : Attendance.t :=
  Attendance.mk 2%nat 7%nat (jan2024 20)
    (Some (jan2024 20 + hours 8)) (Some (jan2024 20 + hours 8 + ms))
    None None 0 0 st.

(** A record that was clocked in but not out, holding the
    [totalHours] the caller supplied. *)
Definition open_record (supplied : Q) : Attendance.t :=
  Attendance.mk 3%nat 7%nat (jan2024 20)
    (Some (jan2024 20 + hours 8)) None None None supplied 0
    Attendance.Present.

(** 2024-01-10 09:00 on a host running in UTC. *)
Definition clock : Clock := mkClock (jan2024 10 + hours 9) 0.

(** A leave of employee 7 from [s] to [e], as the create route builds
    it before saving, with the given id, status and half-day flag. *)
Definition leave (id : Id) (s e : Z) (st : Leave.Status) (half : bool)
  : Leave.t :=
  Leave.mk id 7%nat Leave.Vacation (Some s) (Some e)
    (Some (Leave.daysDiff s e)) "Family vacation" st None None None None
    half None.
Arguments leave id%_nat s e st half.

(** The approved vacation of 2024-01-20 to 2024-01-25. *)
Definition vacation : Leave.t :=
  leave 1%nat (jan2024 20) (jan2024 25) Leave.Approved false.

(** A pending leave of employee 7 for 2024-02-01 to 2024-02-02, the
    32nd and 33rd days of the year. *)
Definition request : Leave.t :=
  leave 2%nat (jan2024 32) (jan2024 33) Leave.Pending false.

(** The administrator, employee 1, and the employee 7. *)
Definition boss : Actor := mkActor 1 Role.admin.
Definition staff : Actor := mkActor 7 Role.employee.

(** The two leaves of employee 7 above, as stored. *)
Definition leaves : list Leave.t := [vacation; request].

(** [PUT /api/leaves/2] moving the pending request to 2024-01-22 to
    2024-01-23, inside the approved vacation. *)
Definition move_into_vacation : LeaveRoutes.UpdateBody :=
  LeaveRoutes.mkUpdateBody None (Some (jan2024 22)) (Some (jan2024 23))
    None None.

(** [POST /api/leaves] for the same dates. *)
Definition ask_inside_vacation : LeaveRoutes.CreateBody :=
  LeaveRoutes.mkCreateBody (Some Leave.SickLeave) (Some (jan2024 22))
    (Some (jan2024 23)) (Some "Flu"%string) false.

(** [POST /api/leaves] for the single day 2024-03-01 (the 61st day of
    the year), flagged as a half day. *)
Definition ask_half_day : LeaveRoutes.CreateBody :=
  LeaveRoutes.mkCreateBody (Some Leave.PersonalLeave) (Some (jan2024 61))
    (Some (jan2024 61)) (Some "Appointment"%string) true.

(** Call data of employee [emp] for 2024-01-10 with the four counters
    of the specification's example and the score a caller supplied. *)
Definition calls (id emp : Id) (visited : Q) (score : Q) : CallData.t :=
  CallData.mk id emp (jan2024 10) 10 60 3 visited score "" None None.
Arguments calls (id emp)%_nat (visited score)%_Q.

(** Call data whose only entry is a visit count of -1. *)
Definition negative_visit : CallData.t :=
  CallData.mk 1%nat 7%nat (jan2024 10) 0 0 0 (-1) 0 "" None None.

(** Employee 7 on 2024-01-10: clocked in at 08:00 and, in the second
    record, out at 08:30. *)
Definition clocked_in : Attendance.t :=
  Attendance.mk 5%nat 7%nat (jan2024 10) (Some (jan2024 10 + hours 8)) None
    None None 0 0 Attendance.Present.
Definition clocked_out : Attendance.t :=
  Attendance.mk 5%nat 7%nat (jan2024 10) (Some (jan2024 10 + hours 8))
    (Some (jan2024 10 + 1800000)) None None (1 # 2) 0 Attendance.Late.

(** A manual entry for employee 7 on 2024-01-10 with no clock times. *)
Definition manual_entry : Attendance.t :=
  Attendance.mk 6%nat 7%nat (jan2024 10) None None None None 0 0
    Attendance.Absent.

(** [POST /api/calls] reporting a visit count of -1 for today. *)
Definition report_negative_visit : CallRoutes.CreateBody :=
  CallRoutes.mkCreateBody (Some 0%Q) (Some 0%Q) (Some 0%Q) (Some (-1)%Q)
    None None None.

(** [PUT /api/calls/:id] raising the visits to 4. *)
Definition more_visits : CallRoutes.UpdateBody :=
  CallRoutes.mkUpdateBody None None None (Some 4%Q) None.

(** The call data of employee 7 for 2024-01-10, as stored. *)
Definition call_log : list CallData.t := [calls 1 7 2 183].

End Examples.

(** ** Deletion from a collection *)

Section Deletion.
Context {A : Type} (key : A -> Id).

(** [doc.deleteOne()]: the document with that [_id] goes, the others
    stay in order. *)
Definition deleteOne (i : Id) (db : list A) : list A :=
  filter (fun x => negb (key x =? i)%nat) db.
End Deletion.
Arguments deleteOne {A} key i%_nat db.

(** ** The employee model, as far as the routes below consult it *)

Module Employee.

Inductive Status := Active | Inactive | Terminated.

Inductive Department :=
| Engineering | Marketing | Sales | HR | Finance | Operations
| Administration.

Definition department_eqb (a b : Department) : bool :=
  match a, b with
  | Engineering, Engineering | Marketing, Marketing | Sales, Sales
  | HR, HR | Finance, Finance | Operations, Operations
  | Administration, Administration => true
  | _, _ => false
  end.

Record t := mk {
  _id : Id;
  department : Department;
  status : Status
}.

Definition isActive (e : t) : bool :=
  match status e with Active => true | _ => false end.

End Employee.

(** ** routes/attendance.js: clock-in, manual entry, deletion *)

Module AttendanceLifecycle.
Import Attendance.

(** [router.post("/clock-in")].  The ids of the model are well-formed
    object ids, so the two checks of the token at the top of the
    handler pass; the text of the driver's error is left out of the
    400 message. *)
Definition clockInRoute (connected : bool) (clk : Clock) (actor : Actor)
    (db : list t) : Response * list t :=
  let mock := (mkResponse 201 "Clocked in successfully", db) in
  if connected then
    let today := JS.setHours0 (tz clk) (now clk) in
    match findOne (AttendanceRoutes.ofDay (actorId actor) today) db with
    | Some _ => (mkResponse 400 "You have already clocked in today", db)
    | None =>
        let attendance :=
          mk (freshId _id db) (actorId actor) (now clk) (Some (now clk))
             None None None 0 0 Present in
        match save db attendance with
        | Ok (_, db') => (mkResponse 201 "Clocked in successfully", db')
        | Err (ValidationError _) | Err DuplicateKey =>
            (mkResponse 400 "Database validation error", db)
        | Err (HookError _) => mock
        end
    end
  else mock.

(** Body of [POST /api/attendance/manual]; a missing or empty field is
    [None]. *)
Record ManualBody := mkManualBody {
  m_employeeId : option Id;
  m_date : option Z;
  m_clockIn : option Z;
  m_clockOut : option Z;
  m_status : option Status
}.

(** [router.post("/manual")], behind [adminAuth].  [addedBy] is not a
    schema path and is dropped by the constructor. *)
Definition manualRoute (clk : Clock) (actor : Actor) (body : ManualBody)
    (employees : list Employee.t) (db : list t) : Response * list t :=
  if negb (isAdmin (role actor)) then
    (mkResponse 403 "Access denied. Admin privileges required.", db)
  else
    match m_employeeId body, m_date body, m_status body with
    | Some employeeId, Some date, Some status =>
        match findById Employee._id employeeId employees with
        | None => (mkResponse 404 "Employee not found", db)
        | Some _ =>
            let attendanceDate := JS.setHours0 (tz clk) date in
            match
              findOne (AttendanceRoutes.ofDay employeeId attendanceDate) db
            with
            | Some _ =>
                (mkResponse 400
                   "Attendance record already exists for this date", db)
            | None =>
                let attendance :=
                  mk (freshId _id db) employeeId attendanceDate
                     (m_clockIn body) (m_clockOut body) None None 0 0
                     status in
                let attendance :=
                  match m_clockIn body, m_clockOut body with
                  | Some ci, Some co =>
                      set_totalHours
                        (AttendanceRoutes.roundedHours (co - ci)) attendance
                  | _, _ => attendance
                  end in
                match save db attendance with
                | Ok (_, db') =>
                    (mkResponse 201
                       "Attendance record created successfully", db')
                | Err _ =>
                    (mkResponse 500
                       "Server error while creating attendance record", db)
                end
            end
        end
    | _, _, _ =>
        (mkResponse 400 "Please provide employee, date, and status", db)
    end.

(** [router.delete("/:id")], behind [adminAuth]. *)
Definition deleteRoute (actor : Actor) (id : Id) (db : list t)
  : Response * list t :=
  if negb (isAdmin (role actor)) then
    (mkResponse 403 "Access denied. Admin privileges required.", db)
  else
    match findById _id id db with
    | None => (mkResponse 404 "Attendance record not found", db)
    | Some _ =>
        (mkResponse 200 "Attendance record deleted successfully",
         deleteOne _id id db)
    end.

Arguments deleteRoute actor id%_nat db.

End AttendanceLifecycle.

(** ** routes/leaves.js: cancelling and reading a leave *)

Module LeaveAccess.
Import Leave.

(** [router.delete("/:id")]. *)
Definition deleteRoute (actor : Actor) (id : Id) (db : list t)
  : Response * list t :=
  match findById _id id db with
  | None => (mkResponse 404 "Leave request not found", db)
  | Some leave =>
      if negb (employee leave =? actorId actor)%nat
         && negb (isAdmin (role actor)) then
        (mkResponse 403 "Access denied", db)
      else if negb (status_eqb (status leave) Pending)
              && negb (isAdmin (role actor)) then
        (mkResponse 400 "Only pending leave requests can be cancelled", db)
      else
        (mkResponse 200 "Leave request cancelled successfully",
         deleteOne _id id db)
  end.

(** [router.get("/:id")]: the response and the leave it carries. *)
Definition getRoute (actor : Actor) (id : Id) (db : list t)
  : Response * option t :=
  match findById _id id db with
  | None => (mkResponse 404 "Leave request not found", None)
  | Some leave =>
      if negb (employee leave =? actorId actor)%nat
         && negb (isAdmin (role actor)) then
        (mkResponse 403 "Access denied", None)
      else (mkResponse 200 "", Some leave)
  end.

Arguments deleteRoute actor id%_nat db.
Arguments getRoute actor id%_nat db.

End LeaveAccess.

(** ** The call-data router: deleting and reading a record *)

Module CallAccess.
Import CallData.

(** [router.delete("/:id")]. *)
Definition deleteRoute (clk : Clock) (actor : Actor) (id : Id)
    (att : list Attendance.t) (db : list t) : Response * list t :=
  match findById _id id db with
  | None => (mkResponse 404 "Call data not found", db)
  | Some callData =>
      if negb (employee callData =? actorId actor)%nat
         && negb (isAdmin (role actor)) then
        (mkResponse 403 "Access denied", db)
      else
        let today := JS.setHours0 (tz clk) (now clk) in
        let recordDate := JS.setHours0 (tz clk) (date callData) in
        if negb (isAdmin (role actor)) && (recordDate =? today)
           && CallRoutes.checkedOut today actor att then
          (mkResponse 400 "Cannot delete call data after checking out", db)
        else
          (mkResponse 200 "Call data deleted successfully",
           deleteOne _id id db)
  end.

(** [router.get("/:id")]: the response and the record it carries. *)
Definition getRoute (actor : Actor) (id : Id) (db : list t)
  : Response * option t :=
  match findById _id id db with
  | None => (mkResponse 404 "Call data not found", None)
  | Some callData =>
      if negb (employee callData =? actorId actor)%nat
         && negb (isAdmin (role actor)) then
        (mkResponse 403 "Access denied", None)
      else (mkResponse 200 "", Some callData)
  end.

(** [router.get("/today")]: the record of the actor for today, if any. *)
Definition todayRoute (clk : Clock) (actor : Actor) (db : list t)
  : option t :=
  findOne (CallRoutes.inDay (actorId actor)
             (JS.setHours0 (tz clk) (now clk))) db.

Arguments deleteRoute clk actor id%_nat att db.
Arguments getRoute actor id%_nat db.

End CallAccess.

(** ** ECMAScript dates built from calendar fields *)

Module Calendar.

(** [InLeapYear]: 1 in a leap year, 0 otherwise. *)
Definition InLeapYear (y : Z) : Z :=
  if (y mod 4 =? 0) && (negb (y mod 100 =? 0) || (y mod 400 =? 0))
  then 1 else 0.

(** [DayFromYear(y)]: the day number of 1 January of [y], counted from
    1 January 1970. *)
Definition DayFromYear (y : Z) : Z :=
  365 * (y - 1970) + (y - 1969) / 4 - (y - 1901) / 100 + (y - 1601) / 400.

(** Day within the year of the first day of month [mn] (0 is
    January), as in [MonthFromTime]. *)
Definition monthStart (leap mn : Z) : Z :=
  match mn with
  | 0 => 0
  | 1 => 31
  | 2 => 59 + leap
  | 3 => 90 + leap
  | 4 => 120 + leap
  | 5 => 151 + leap
  | 6 => 181 + leap
  | 7 => 212 + leap
  | 8 => 243 + leap
  | 9 => 273 + leap
  | 10 => 304 + leap
  | _ => 334 + leap
  end.

(** [MakeDay(year, month, date)]: months beyond 0..11 carry into the
    year, and [date] counts on from the first of the month, also below
    1 and beyond the month's end. *)
Definition MakeDay (year month date : Z) : Z :=
  let ym := year + month / 12 in
  let mn := month mod 12 in
  DayFromYear ym + monthStart (InLeapYear ym) mn + date - 1.

(** [TimeClip]: a time value beyond 8.64e15 ms is not a date. *)
Definition TimeClip (t : Z) : option Z :=
  if Z.abs t <=? 8640000000000000 then Some t else None.

(** [new Date(year, month, date)] on a host whose local time is UTC
    plus [tz] milliseconds: the local midnight of that day, [None]
    for an invalid date.  A year from 0 to 99 means 1900 plus it. *)
Definition newDate (tz year month date : Z) : option Z :=
  let yr := if (0 <=? year) && (year <=? 99) then 1900 + year else year in
  TimeClip (MakeDay yr month date * Zpos JS.msPerDay - tz).

End Calendar.

(** ** Queries: sorting, paging and the month filter *)

Module Query.

Section Sorting.
Context {A : Type} (after : A -> A -> bool).

(** Insert [x], which comes before the documents of [l] in the
    original order, into the sorted [l]: behind the documents it has
    to come after, before all others. *)
Fixpoint insertSorted (x : A) (l : list A) : list A :=
  match l with
  | [] => [x]
  | y :: ys => if after x y then y :: insertSorted x ys else x :: l
  end.

(** A stable sort: [.sort({ date: -1 })] of a query and
    [Array.prototype.sort] with a comparator, [after a b] telling that
    [a] has to come after [b]. *)
Definition sortBy (l : list A) : list A := fold_right insertSorted [] l.
End Sorting.

(** [.limit(limit).skip(skip)]. *)
Definition window {A : Type} (skip limit : nat) (l : list A) : list A :=
  firstn limit (skipn skip l).

(** The [pagination] object of a listing.  [page] and [limit] are
    positive integers (1 and 10 when the query string has none). *)
Record Pagination := mkPagination {
  current : positive;
  pages : Z;
  total : nat
}.

(** [(page - 1) * limit]. *)
Definition skipOf (page limit : positive) : nat :=
  ((Pos.to_nat page - 1) * Pos.to_nat limit)%nat.

(** [{ current: parseInt(page), pages: Math.ceil(total / limit), total }]. *)
Definition paginate (page limit : positive) (total : nat) : Pagination :=
  mkPagination page
    (JS.Math_ceil (inject_Z (Z.of_nat total) / inject_Z (Zpos limit)))
    total.

(** The documents of an answer, none when it carries no listing. *)
Definition records {A : Type} (o : option (list A * Pagination)) : list A :=
  match o with Some (l, _) => l | None => [] end.

(** The page numbers from 1 to [n]. *)
Definition pageNumbers (n : Z) : list positive :=
  map Pos.of_nat (seq 1 (Z.to_nat n)).

(** The condition on [date] of a listing by month: none unless both
    [month] and [year] are given, else the closed range from
    [new Date(year, month - 1, 1)] to [new Date(year, month, 0)];
    [None] when a bound is an invalid date, which the query refuses
    to cast. *)
Definition monthRange (tz : Z) (month year : option Z)
  : option (Z -> bool) :=
  match month, year with
  | Some month, Some year =>
      match Calendar.newDate tz year (month - 1) 1,
            Calendar.newDate tz year month 0 with
      | Some startDate, Some endDate =>
          Some (fun d => (startDate <=? d) && (d <=? endDate))
      | _, _ => None
      end
  | _, _ => Some (fun _ => true)
  end.

End Query.

(** ** routes/attendance.js: reading *)

Module AttendanceQueries.
Import Attendance.

(** [{ date: -1 }]: a record comes after those with a later date. *)
Definition byDateDesc (x y : t) : bool := date x <? date y.

(** [router.get("/today")]: the [attendance] of the answer; [date] is
    the time value of the [date] of the query string, if given. *)
Definition todayRoute (connected : bool) (clk : Clock) (actor : Actor)
    (date : option Z) (db : list t) : option t :=
  if connected then
    let searchDate :=
      JS.setHours0 (tz clk)
        (match date with Some d => d | None => now clk end) in
    findOne (AttendanceRoutes.ofDay (actorId actor) searchDate) db
  else None.

(** [router.get("/my")]: the records and the pagination of the answer,
    [None] when the answer is made of the mock records instead (no
    connection, or a query that fails). *)
Definition myRoute (connected : bool) (clk : Clock) (actor : Actor)
    (page limit : positive) (month year : option Z) (db : list t)
  : option (list t * Query.Pagination) :=
  if connected then
    match Query.monthRange (tz clk) month year with
    | Some inRange =>
        let query r :=
          (employee r =? actorId actor)%nat && inRange (date r) in
        let attendanceRecords :=
          Query.window (Query.skipOf page limit) (Pos.to_nat limit)
            (Query.sortBy byDateDesc (filter query db)) in
        let total := List.length (filter query db) in
        Some (attendanceRecords, Query.paginate page limit total)
    | None => None
    end
  else None.

(** The [stats] object of [router.get("/stats")]. *)
Record Stats := mkStats {
  totalEmployees : nat;
  todayAttendance : nat;
  presentToday : nat;
  lateToday : nat;
  absentToday : Z
}.

Definition isToday (today : Z) (r : t) : bool :=
  (today <=? date r) && (date r <? today + 24 * 60 * 60 * 1000).

Definition hasStatus (s : Status) (r : t) : bool :=
  match s, status r with
  | Present, Present | Absent, Absent | Late, Late | HalfDay, HalfDay
  | Holiday, Holiday => true
  | _, _ => false
  end.

(** [router.get("/stats")], behind [adminAuth]. *)
Definition statsRoute (clk : Clock) (actor : Actor)
    (employees : list Employee.t) (db : list t)
  : Response * option Stats :=
  if negb (isAdmin (role actor)) then
    (mkResponse 403 "Access denied. Admin privileges required.", None)
  else
    let today := JS.setHours0 (tz clk) (now clk) in
    let todayAttendance := List.length (filter (isToday today) db) in
    let presentToday :=
      List.length
        (filter (fun r => isToday today r && hasStatus Present r) db) in
    let lateToday :=
      List.length (filter (fun r => isToday today r && hasStatus Late r) db) in
    let totalEmployees := List.length (filter Employee.isActive employees) in
    (mkResponse 200 "",
     Some (mkStats totalEmployees todayAttendance presentToday lateToday
             (Z.of_nat totalEmployees - Z.of_nat todayAttendance))).

End AttendanceQueries.

(** ** The call-data router: reading *)

Module CallQueries.
Import CallData.

Definition byDateDesc (x y : t) : bool := date x <? date y.

(** [router.get("/my")]: the records and the pagination of the answer,
    [None] for the 500 answer to a query that fails. *)
Definition myRoute (clk : Clock) (actor : Actor) (page limit : positive)
    (month year : option Z) (db : list t)
  : option (list t * Query.Pagination) :=
  match Query.monthRange (tz clk) month year with
  | Some inRange =>
      let query r :=
        (employee r =? actorId actor)%nat && inRange (date r) in
      let callDataRecords :=
        Query.window (Query.skipOf page limit) (Pos.to_nat limit)
          (Query.sortBy byDateDesc (filter query db)) in
      let total := List.length (filter query db) in
      Some (callDataRecords, Query.paginate page limit total)
  | None => None
  end.

End CallQueries.

(** ** The call-data router: performance statistics *)

Module Performance.

(** One entry of [performanceData]: the totals of an employee. *)
Record Row := mkRow {
  employee : Id;
  totalCalls : Q;
  totalCallTime : Q;
  totalInterestedStudents : Q;
  totalVisited : Q;
  performanceScore : Q;
  recordCount : nat
}.

(** The entry a first record of an employee creates. *)
Definition fresh (emp : Id) : Row := mkRow emp 0 0 0 0 0 0.

(** The six [+=] of the loop body. *)
Definition accumulate (record : CallData.t) (row : Row) : Row :=
  mkRow (employee row)
    (totalCalls row + CallData.totalCalls record)
    (totalCallTime row + CallData.totalCallTime record)
    (totalInterestedStudents row + CallData.interestedStudents record)
    (totalVisited row + CallData.visitedToday record)
    (performanceScore row + CallData.performanceScore record)
    (recordCount row + 1).

(** One turn of the [forEach]: [performanceData] is an object keyed by
    the employee's id, whose values come in the order in which the
    keys were first set. *)
Fixpoint tally (record : CallData.t) (data : list Row) : list Row :=
  match data with
  | [] => [accumulate record (fresh (CallData.employee record))]
  | row :: rest =>
      if (employee row =? CallData.employee record)%nat
      then accumulate record row :: rest
      else row :: tally record rest
  end.

Definition group (records : list CallData.t) : list Row :=
  fold_left (fun data record => tally record data) records [].

(** [(a, b) => b.performanceScore - a.performanceScore] is positive:
    [a] comes after [b]. *)
Definition byScoreDesc (a b : Row) : bool :=
  JS.gt (performanceScore b - performanceScore a) 0.

(** [performanceArray.reduce((sum, p) => sum + f(p), 0)]. *)
Definition reduceSum (f : Row -> Q) (rows : list Row) : Q :=
  fold_left (fun sum p => sum + f p)%Q rows 0%Q.

(** The number [x.toFixed(2)] denotes: the nearest multiple of 0.01,
    a tie going away from zero. *)
Definition toFixed2 (x : Q) : Q :=
  if Qle_bool 0 x then inject_Z (Qfloor (x * 100 + (1 # 2))) / 100
  else - (inject_Z (Qfloor (- x * 100 + (1 # 2))) / 100).

Record Overall := mkOverall {
  totalEmployeesTracked : nat;
  overallCalls : Q;
  overallCallTime : Q;
  overallInterestedStudents : Q;
  overallVisited : Q;
  averagePerformanceScore : Q
}.

Record Stats := mkStats {
  topPerformer : option Row;
  performanceData : list Row;
  overallStats : Overall
}.

(** The employees the statistics are about: the active ones, of the
    department when one is asked for. *)
Definition tracked (department : option Employee.Department)
    (e : Employee.t) : bool :=
  Employee.isActive e
  && match department with
     | Some d => Employee.department_eqb (Employee.department e) d
     | None => true
     end.

(** [router.get("/performance/stats")], behind [adminAuth];
    [department] is [None] when the query string has none or "all". *)
Definition statsRoute (clk : Clock) (actor : Actor) (month year : option Z)
    (department : option Employee.Department)
    (employees : list Employee.t) (db : list CallData.t)
  : Response * option Stats :=
  if negb (isAdmin (role actor)) then
    (mkResponse 403 "Access denied. Admin privileges required.", None)
  else
    match Query.monthRange (tz clk) month year with
    | None =>
        (mkResponse 500 "Server error while fetching performance statistics",
         None)
    | Some inRange =>
        let employees := filter (tracked department) employees in
        let employeeIds := map Employee._id employees in
        let callDataRecords :=
          filter (fun r =>
                    existsb (Nat.eqb (CallData.employee r)) employeeIds
                    && inRange (CallData.date r)) db in
        let performanceArray :=
          Query.sortBy byScoreDesc (group callDataRecords) in
        let topPerformer :=
          match performanceArray with
          | p :: _ => Some p
          | [] => None
          end in
        let overallStats :=
          mkOverall (List.length performanceArray)
            (reduceSum totalCalls performanceArray)
            (reduceSum totalCallTime performanceArray)
            (reduceSum totalInterestedStudents performanceArray)
            (reduceSum totalVisited performanceArray)
            (match performanceArray with
             | _ :: _ =>
                 toFixed2
                   (reduceSum performanceScore performanceArray
                    / inject_Z (Z.of_nat (List.length performanceArray)))
             | [] => 0
             end) in
        (mkResponse 200 "",
         Some (mkStats topPerformer performanceArray overallStats))
    end.

End Performance.

(** ** Further concrete documents and requests *)

Module Scenarios.

(** The record employee 7 gets by clocking in at [Examples.clock] into
    an empty collection. *)
Definition arrival : Attendance.t :=
  Attendance.mk 1%nat 7%nat (now Examples.clock) (Some (now Examples.clock))
    None None None 0 0 Attendance.Present.

(** One hour and nine hours after [Examples.clock], the same day. *)
Definition an_hour_later : Clock :=
  mkClock (now Examples.clock + Examples.hours 1) 0.
Definition evening : Clock :=
  mkClock (now Examples.clock + Examples.hours 9) 0.

(** [POST /api/attendance/manual] for employee 7 on 2024-01-12, marked
    as a holiday, with clock times nine hours apart. *)
Definition holiday_with_hours : AttendanceLifecycle.ManualBody :=
  AttendanceLifecycle.mkManualBody (Some 7%nat)
    (Some (Examples.jan2024 12 + Examples.hours 10))
    (Some (Examples.jan2024 12 + Examples.hours 8))
    (Some (Examples.jan2024 12 + Examples.hours 17))
    (Some Attendance.Holiday).

(** The active employees 1 (administration) and 7 (sales). *)
Definition people : list Employee.t :=
  [Employee.mk 1%nat Employee.Administration Employee.Active;
   Employee.mk 7%nat Employee.Sales Employee.Active].

(** [POST /api/leaves] for 2024-03-04 to 2024-03-06 (days 64 to 66 of
    the year), flagged as a half day, and a second request for
    2024-03-06 to 2024-03-08. *)
Definition ask_march : LeaveRoutes.CreateBody :=
  LeaveRoutes.mkCreateBody (Some Leave.Vacation) (Some (Examples.jan2024 64))
    (Some (Examples.jan2024 66)) (Some "Trip"%string) true.


(** Employee 8. *)
Definition colleague : Actor := mkActor 8 Role.employee.

(** [POST /api/calls] for today: a first report, then a correction. *)
Definition first_report : CallRoutes.CreateBody :=
  CallRoutes.mkCreateBody (Some 10%Q) (Some 60%Q) (Some 3%Q) (Some 2%Q)
    None None None.
Definition corrected_report : CallRoutes.CreateBody :=
  CallRoutes.mkCreateBody (Some 12%Q) (Some 70%Q) (Some 3%Q) (Some 4%Q)
    (Some "two more visits"%string) None None.

End Scenarios.

(** ** Documents and requests for the listings and statistics *)

Module Reports.

(** 2024-01-31 09:00 on a host running in UTC. *)
Definition month_end : Clock :=
  mkClock (Examples.jan2024 31 + Examples.hours 9) 0.

(** The clock-ins of January 2024: employee 7 on the 10th at 09:00
    and on the 11th at 08:00, employee 8 on the 10th at 08:30. *)
Definition january : list Attendance.t :=
  [Scenarios.arrival;
   Attendance.mk 2%nat 8%nat (Examples.jan2024 10 + 30600000)
     (Some (Examples.jan2024 10 + 30600000)) None None None 0 0
     Attendance.Present;
   Attendance.mk 3%nat 7%nat (Examples.jan2024 11 + Examples.hours 8)
     (Some (Examples.jan2024 11 + Examples.hours 8)) None None None 0 0
     Attendance.Present].

(** The month filter for January 2024 on a host running in UTC: from
    2024-01-01 00:00 to 2024-01-31 00:00. *)
Definition inJanuary (d : Z) : bool :=
  (1704067200000 <=? d) && (d <=? 1706659200000).

(** The call data of January 2024: employee 7 on the 10th and on the
    11th, employee 8 on the 10th, each with the score of its
    counters. *)
Definition call_sheet : list CallData.t :=
  [Examples.calls 1 7 2 183;
   Examples.calls 2 8 4 263;
   CallData.mk 3%nat 7%nat (Examples.jan2024 11) 20 30 1 1 78 "" None None].

(** The employees 1, 7 and 8, the last one in operations and active. *)
Definition staffing : list Employee.t :=
  Scenarios.people
  ++ [Employee.mk 8%nat Employee.Operations Employee.Active].

End Reports.

(** ** Invariants of the stored collections *)

(** A stored leave has its dates in order and the total days its
    half-day flag and dates determine: 0.5 for a half day, otherwise
    ceil((endDate - startDate) / 1 day) + 1. *)
Definition derived (r : Leave.t) : Prop :=
  exists s e,
    Leave.startDate r = Some s /\ Leave.endDate r = Some e /\ s <= e
    /\ Leave.totalDays r
       = Some (if Leave.isHalfDay r then (1 # 2)%Q
               else inject_Z (Qceiling (inject_Z (e - s) / 86400000) + 1)).

(** A stored call-data record holds the weighted sum of its counters. *)
Definition scored (r : CallData.t) : Prop :=
  (CallData.performanceScore r
   == CallData.visitedToday r * 40 + CallData.interestedStudents r * 30
      + CallData.totalCallTime r * 0.2 + CallData.totalCalls r * 0.1)%Q.

(** A counter of a request body, when given, is not negative. *)
Definition nonneg (o : option Q) : Prop :=
  match o with Some v => (0 <= v)%Q | None => True end.

(** The value of a path after an optional assignment. *)
Definition updated {A : Type} (o : option A) (old : A) : A :=
  match o with Some v => v | None => old end.

(** A stored attendance record with both clock times holds the hours
    its timestamps determine. *)
Definition timed (r : Attendance.t) : Prop :=
  forall ci co,
    Attendance.clockIn r = Some ci -> Attendance.clockOut r = Some co ->
    (Attendance.totalHours r
     == Qmax 0 (inject_Z
                  (match Attendance.breakStart r, Attendance.breakEnd r with
                   | Some bs, Some be => (co - ci) - (be - bs)
                   | _, _ => co - ci
                   end) / 3600000))%Q.

(** The sum of [f] over the documents of [l]. *)
Definition sumOf {A : Type} (f : A -> Q) (l : list A) : Q :=
  fold_right (fun x s => f x + s)%Q 0%Q l.

(** An entry of the performance statistics that holds the number of
    the records [own] of employee [e] and the sums of their counters
    and of their scores. *)
Definition totalsOf (e : Id) (own : list CallData.t)
    (row : Performance.Row) : Prop :=
  Performance.employee row = e
  /\ Performance.recordCount row = List.length own
  /\ (Performance.totalCalls row == sumOf CallData.totalCalls own)%Q
  /\ (Performance.totalCallTime row == sumOf CallData.totalCallTime own)%Q
  /\ (Performance.totalInterestedStudents row
      == sumOf CallData.interestedStudents own)%Q
  /\ (Performance.totalVisited row == sumOf CallData.visitedToday own)%Q
  /\ (Performance.performanceScore row
      == sumOf CallData.performanceScore own)%Q.

(** What the status of a stored leave tells about its approval: it is
    not Cancelled, an Approved leave carries its approver and its
    approval date, and any other leave carries neither. *)
Definition approvalConsistent (l : Leave.t) : Prop :=
  Leave.status l <> Leave.Cancelled
  /\ (Leave.status l = Leave.Approved ->
      Leave.approvedBy l <> None /\ Leave.approvedDate l <> None)
  /\ (Leave.status l <> Leave.Approved ->
      Leave.approvedBy l = None /\ Leave.approvedDate l = None).

(** A date at a local midnight of a host at UTC plus [tz]. *)
Definition atMidnight (tz d : Z) : Prop := JS.setHours0 tz d = d.

(** One document per employee and local day, and no two documents with
    the same [_id]: the invariant behind the (employee, date) index of
    the attendance and call-data collections, for a host at UTC plus
    [tz] milliseconds. *)
Section OnePerDay.
Context {A : Type} (key emp : A -> Id) (date : A -> Z) (tz : Z).

Definition sameSlot (x y : A) : Prop :=
  emp x = emp y /\ JS.setHours0 tz (date x) = JS.setHours0 tz (date y).

Definition onePerDay (db : list A) : Prop :=
  NoDup (map key db)
  /\ forall x y, In x db -> In y db -> sameSlot x y -> x = y.
End OnePerDay.

(** * Properties *)

(** Case analysis on the scrutinee of the first [match] of the goal. *)
Ltac break_match :=
  match goal with
  | |- context [match ?x with _ => _ end] =>
      let E := fresh "E" in destruct x eqn:E
  end.

(** ** JavaScript primitives *)

Lemma Math_max_Qmax (a b : Q) : (JS.Math_max a b == Qmax a b)%Q.
Proof.
  unfold JS.Math_max.
  destruct (Qle_bool a b) eqn:E.
  - apply Qle_bool_iff in E. now rewrite Q.max_r.
  - assert (H : (b <= a)%Q).
    { apply Qlt_le_weak, Qnot_le_lt. intro H. apply Qle_bool_iff in H.
      congruence. }
    now rewrite Q.max_l.
Qed.




Lemma gt_true (a b : Q) : JS.gt a b = true <-> (b < a)%Q.
Proof.
  unfold JS.gt. split; intro H.
  - apply negb_true_iff in H. apply Qnot_le_lt. intro L.
    apply Qle_bool_iff in L. congruence.
  - apply negb_true_iff. destruct (Qle_bool a b) eqn:E; [|reflexivity].
    apply Qle_bool_iff in E. lra.
Qed.

Lemma gt_false (a b : Q) : JS.gt a b = false <-> (a <= b)%Q.
Proof.
  unfold JS.gt. rewrite negb_false_iff. apply Qle_bool_iff.
Qed.

(** ** Collections *)

Section CollectionFacts.
Context {A : Type} (key : A -> Id).

Lemma findById_store (r : A) (db : list A) :
  findById key (key r) (store key r db) = Some r.
Proof.
  unfold findById, findOne.
  induction db as [|x xs IH]; simpl.
  - now rewrite Nat.eqb_refl.
  - destruct (key x =? key r)%nat eqn:E; simpl.
    + now rewrite Nat.eqb_refl.
    + now rewrite E.
Qed.

Lemma findOne_Some (q : A -> bool) (db : list A) (x : A) :
  findOne q db = Some x -> In x db /\ q x = true.
Proof. apply find_some. Qed.

Lemma findOne_None (q : A -> bool) (db : list A) :
  findOne q db = None <-> forall x, In x db -> q x = false.
Proof.
  split.
  - intros H x. now apply find_none.
  - intros H. unfold findOne.
    induction db as [|y ys IH]; simpl; [reflexivity|].
    rewrite (H y) by now left.
    apply IH. intros x Hx. apply H. now right.
Qed.

Lemma findOne_exists (q : A -> bool) (db : list A) :
  findOne q db <> None <-> exists x, In x db /\ q x = true.
Proof.
  split.
  - destruct (findOne q db) as [x|] eqn:E; [|congruence].
    intros _. exists x. now apply findOne_Some.
  - intros [x [Hin Hq]] HN.
    rewrite findOne_None in HN. rewrite (HN x Hin) in Hq. discriminate.
Qed.

Lemma store_Forall (P : A -> Prop) (r : A) (db : list A) :
  P r -> Forall P db -> Forall P (store key r db).
Proof.
  intros Hr Hdb. induction Hdb as [|x xs Hx Hxs IH]; simpl.
  - now constructor.
  - destruct (key x =? key r)%nat; constructor; assumption.
Qed.
End CollectionFacts.

(** ** Attendance: the derived hours, overtime and status *)

Section AttendanceFacts.
Import Attendance.

Lemma pre_save_both (r : t) (ci co : Z) :
  clockIn r = Some ci -> clockOut r = Some co ->
  let th := JS.Math_max 0 (totalMs ci co (breakStart r) (breakEnd r)
                           # JS.msPerHour) in
  totalHours (pre_save r) = th
  /\ overtimeHours (pre_save r) = JS.Math_max 0 (th - 8)
  /\ status (pre_save r) =
       (if JS.geq th 8 then Present
        else if JS.geq th 4 then HalfDay
        else if JS.gt th 0 then Late
        else status r).
Proof.
  intros Hi Ho. unfold pre_save. rewrite Hi, Ho. simpl. auto.
Qed.

Lemma pre_save_one_sided (r : t) :
  clockIn r = None \/ clockOut r = None -> pre_save r = r.
Proof.
  unfold pre_save. intros [H|H]; rewrite H; [|destruct (clockIn r)];
    reflexivity.
Qed.

Lemma save_Ok (db : list t) (r r' : t) (db' : list t) :
  save db r = Ok (r', db') ->
  r' = pre_save r /\ db' = store _id r' db
  /\ findById _id (_id r') db' = Some r'.
Proof.
  unfold save. destruct (existsb _ db); [discriminate|].
  intros H. injection H as <- <-.
  repeat split. apply findById_store.
Qed.

Lemma save_total (db : list t) (r : t) :
  existsb (clashes (pre_save r)) db = false ->
  save db r = Ok (pre_save r, store _id (pre_save r) db).
Proof. unfold save. now intros ->. Qed.

Lemma hours_of_ms (ms ms' : Z) :
  ms = ms' ->
  (JS.Math_max 0 (ms # JS.msPerHour)
   == Qmax 0 (inject_Z ms' / 3600000))%Q.
Proof.
  intros <-. rewrite Math_max_Qmax, (Qmake_Qdiv ms JS.msPerHour).
  reflexivity.
Qed.

Lemma pre_save_totalHours (r : t) (ci co : Z) :
  clockIn r = Some ci -> clockOut r = Some co ->
  (totalHours (pre_save r)
   == Qmax 0 (inject_Z
                (match breakStart r, breakEnd r with
                 | Some bs, Some be => (co - ci) - (be - bs)
                 | _, _ => co - ci
                 end) / 3600000))%Q.
Proof.
  intros Hi Ho.
  destruct (pre_save_both r ci co Hi Ho) as (Hth & _).
  rewrite Hth. apply hours_of_ms.
  unfold totalMs. destruct (breakStart r), (breakEnd r); reflexivity.
Qed.

(** C3. With both clock times set, the hook derives [totalHours] as
    max(0, worked) in hours, where worked is [clockOut - clockIn] less
    [breakEnd - breakStart] when both break times are present and less
    nothing when a break time is missing, and [overtimeHours] as
    max(0, totalHours - 8). *)
Theorem attendance_hours_derivation (r : t) (ci co : Z) :
  clockIn r = Some ci -> clockOut r = Some co ->
  let worked :=
    match breakStart r, breakEnd r with
    | Some bs, Some be => (co - ci) - (be - bs)
    | _, _ => co - ci
    end in
  (totalHours (pre_save r) == Qmax 0 (inject_Z worked / 3600000))%Q
  /\ (overtimeHours (pre_save r)
      == Qmax 0 (totalHours (pre_save r) - 8))%Q.
Proof.
  intros Hi Ho worked. split.
  - now apply pre_save_totalHours.
  - destruct (pre_save_both r ci co Hi Ho) as (Hth & Hot & _).
    rewrite Hot, Hth. apply Math_max_Qmax.
Qed.

Lemma attendance_hours_derivation_witness :
  (totalHours (pre_save Examples.shift)
   == Qmax 0 (inject_Z 28800000 / 3600000))%Q
  /\ (overtimeHours (pre_save Examples.shift)
      == Qmax 0 (totalHours (pre_save Examples.shift) - 8))%Q.
Proof.
  exact (attendance_hours_derivation Examples.shift _ _ eq_refl eq_refl).
Defined.



(** The boundary table: 8.0 hours is Present, 7.999 and 4.0 are
    HalfDay, 3.999 is Late, and 0 keeps the caller's status. *)
Example attendance_status_boundary_table :
  status (pre_save (Examples.worked 28800000 Absent)) = Present
  /\ status (pre_save (Examples.worked 28796400 Absent)) = HalfDay
  /\ status (pre_save (Examples.worked 14400000 Absent)) = HalfDay
  /\ status (pre_save (Examples.worked 14396400 Absent)) = Late
  /\ status (pre_save (Examples.worked 0 Absent)) = Absent
  /\ status (pre_save (Examples.worked 0 Holiday)) = Holiday.
Proof. vm_compute. repeat split. Qed.

(** In binary64 the boundary table reads the same. *)
Example attendance_status_boundary_table_binary64 :
  Binary64.status 28800000 Absent = Present
  /\ Binary64.status 28796400 Absent = HalfDay
  /\ Binary64.status 14400000 Absent = HalfDay
  /\ Binary64.status 14396400 Absent = Late
  /\ Binary64.status 0 Absent = Absent
  /\ Binary64.status (-60000) Holiday = Holiday.
Proof. vm_compute. repeat split. Qed.

(** C7, as amended. When both clock times are set, the [totalHours] a
    save persists is the value derived from the clock and break times,
    whatever [totalHours] the caller had assigned. *)
Theorem attendance_totalHours_recomputed
    (db : list t) (r : t) (q : Q) (ci co : Z) (r' : t) (db' : list t) :
  clockIn r = Some ci -> clockOut r = Some co ->
  save db (set_totalHours q r) = Ok (r', db') ->
  let worked :=
    match breakStart r, breakEnd r with
    | Some bs, Some be => (co - ci) - (be - bs)
    | _, _ => co - ci
    end in
  (totalHours r' == Qmax 0 (inject_Z worked / 3600000))%Q
  /\ findById _id (_id r) db' = Some r'.
Proof.
  intros Hi Ho Hs worked.
  apply save_Ok in Hs. destruct Hs as (-> & _ & Hfind).
  split.
  - apply (pre_save_totalHours (set_totalHours q r) ci co Hi Ho).
  - unfold pre_save in *. simpl in *. rewrite Hi, Ho in *. exact Hfind.
Qed.

Lemma attendance_totalHours_recomputed_witness :
  exists r' db',
    save [] (set_totalHours 99 Examples.shift) = Ok (r', db')
    /\ (totalHours r' == Qmax 0 (inject_Z 28800000 / 3600000))%Q.
Proof.
  eexists. eexists. split; [reflexivity|].
  exact (proj1 (attendance_totalHours_recomputed [] Examples.shift 99
                  _ _ _ _ eq_refl eq_refl eq_refl)).
Defined.

(** C7, as stated, fails when only one clock time is set: two saves of
    a record clocked in but not out, with the same timestamps and
    different caller-supplied [totalHours], persist different values,
    each the caller's own. *)
Lemma attendance_totalHours_kept_without_clockOut :
  clockIn (Examples.open_record 5) <> None
  /\ save [] (Examples.open_record 5)
     = Ok (Examples.open_record 5, [Examples.open_record 5])
  /\ save [] (Examples.open_record 7)
     = Ok (Examples.open_record 7, [Examples.open_record 7])
  /\ totalHours (Examples.open_record 5) = 5%Q
  /\ totalHours (Examples.open_record 7) = 7%Q.
Proof. repeat split. discriminate. Qed.

Lemma pre_save_key (r : t) :
  _id (pre_save r) = _id r /\ employee (pre_save r) = employee r
  /\ date (pre_save r) = date r /\ clockIn (pre_save r) = clockIn r
  /\ clockOut (pre_save r) = clockOut r.
Proof.
  unfold pre_save. destruct (clockIn r) eqn:Hi, (clockOut r) eqn:Ho;
    simpl; rewrite ?Hi, ?Ho; repeat split.
Qed.

(** The clock-out route assigns the two-decimal rounding of the hours
    and saves: the record it persists holds the exact derived hours. *)
Lemma clockOut_route_persists_derived_hours
    (clk : Clock) (actor : Actor) (db : list t) (a : t) (ci : Z) :
  findOne (AttendanceRoutes.ofDay (actorId actor)
             (JS.setHours0 (tz clk) (now clk))) db = Some a ->
  clockIn a = Some ci -> clockOut a = None ->
  existsb (clashes a) db = false ->
  exists r',
    AttendanceRoutes.clockOutRoute true clk actor db
    = (mkResponse 200 "Clocked out successfully", store _id r' db)
    /\ _id r' = _id a
    /\ clockOut r' = Some (now clk)
    /\ (totalHours r'
        == Qmax 0 (inject_Z
                     (match breakStart a, breakEnd a with
                      | Some bs, Some be => (now clk - ci) - (be - bs)
                      | _, _ => now clk - ci
                      end) / 3600000))%Q.
Proof.
  intros Hfind Hi Ho Hclash.
  unfold AttendanceRoutes.clockOutRoute. rewrite Hfind, Ho. simpl JS.truthy.
  cbv iota.
  set (a' := set_totalHours _ (set_clockOut _ a)).
  assert (Hi' : clockIn a' = Some ci) by exact Hi.
  assert (Ho' : clockOut a' = Some (now clk)) by reflexivity.
  destruct (pre_save_key a') as (Kid & Kemp & Kdate & _ & Kco).
  assert (Hc : existsb (clashes (pre_save a')) db = false).
  { rewrite <- Hclash. unfold clashes. rewrite Kid, Kemp, Kdate.
    reflexivity. }
  rewrite (save_total db a' Hc).
  exists (pre_save a'). repeat split.
  - exact Kid.
  - now rewrite Kco.
  - apply (pre_save_totalHours a' ci (now clk) Hi' Ho').
Qed.

(** For instance, clocking out 3 h 20 min after clocking in: the route
    assigns 3.33 and the save persists 10/3. *)
Example clockOut_route_rounding_overridden :
  let clk :=
    mkClock (Examples.jan2024 20 + Examples.hours 8 + 12000000) 0 in
  let db := [Examples.open_record 0] in
  (AttendanceRoutes.roundedHours 12000000 == 3.33)%Q
  /\ exists r',
       snd (AttendanceRoutes.clockOutRoute true clk Examples.staff db)
       = [r']
       /\ (totalHours r' == 10 # 3)%Q /\ status r' = Late.
Proof.
  split; [reflexivity|].
  eexists. split; [vm_compute; reflexivity|]. split; reflexivity.
Qed.

(** Clocking out on a manual entry that has no clock-in: the record
    is left with one clock time, the hook does not run its derivation,
    and the value the route assigned is what is stored. *)
Example clockOut_without_clockIn_keeps_route_value :
  exists r',
    snd (AttendanceRoutes.clockOutRoute true Examples.clock Examples.staff
           [Examples.manual_entry]) = [r']
    /\ clockIn r' = None /\ clockOut r' = Some (now Examples.clock)
    /\ totalHours r' = AttendanceRoutes.roundedHours (now Examples.clock)
    /\ (totalHours r' == 473577)%Q.
Proof.
  eexists. split; [vm_compute; reflexivity|]. repeat split.
Qed.

(** Every record a save writes, and so every record the clock-out and
    the update routes leave in the collection, holds the derived hours. *)
Lemma pre_save_timed (r : t) : timed (pre_save r).
Proof.
  intros ci co Hi Ho.
  destruct (pre_save_key r) as (_ & _ & _ & Ki & Ko).
  rewrite Ki in Hi. rewrite Ko in Ho.
  pose proof (pre_save_totalHours r ci co Hi Ho) as H.
  unfold pre_save in *. rewrite Hi, Ho in *. exact H.
Qed.

Lemma save_keeps_timed (db : list t) (r r' : t) (db' : list t) :
  Forall timed db -> save db r = Ok (r', db') -> Forall timed db'.
Proof.
  intros Hdb H. apply save_Ok in H. destruct H as (-> & -> & _).
  apply store_Forall; [apply pre_save_timed|exact Hdb].
Qed.

Lemma clockOutRoute_keeps_timed
    (connected : bool) (clk : Clock) (actor : Actor) (db : list t) :
  Forall timed db ->
  Forall timed (snd (AttendanceRoutes.clockOutRoute connected clk actor db)).
Proof.
  intros Hdb. unfold AttendanceRoutes.clockOutRoute. cbv zeta.
  repeat break_match; simpl; try assumption.
  eapply save_keeps_timed; eassumption.
Qed.

Lemma updateRoute_keeps_timed
    (actor : Actor) (id : Id) (body : AttendanceRoutes.UpdateBody)
    (db : list t) :
  Forall timed db ->
  Forall timed (snd (AttendanceRoutes.updateRoute actor id body db)).
Proof.
  intros Hdb. unfold AttendanceRoutes.updateRoute. cbv zeta.
  destruct (negb (isAdmin (role actor))); [assumption|].
  destruct (findById _id id db); [|assumption].
  match goal with
  | |- context [save db ?x] => destruct (save db x) as [[r' db']|] eqn:E
  end; simpl; [|assumption].
  eapply save_keeps_timed; eassumption.
Qed.

End AttendanceFacts.

(** ** Leave: duration, date order, overlap and status transitions *)

Section LeaveFacts.
Import Leave.

Lemma validate_Ok (r r' : t) :
  validate r = Ok r' ->
  r' = r /\ startDate r <> None /\ endDate r <> None /\ totalDays r <> None.
Proof.
  unfold validate.
  destruct (startDate r), (endDate r), (totalDays r); simpl;
    try discriminate.
  destruct (String.length (reason r) =? 0)%nat; [discriminate|].
  destruct (500 <? String.length (reason r))%nat; [discriminate|].
  intros H. injection H as <-. repeat split; discriminate.
Qed.

(** The day count in the words of the specification. *)
Lemma daysDiff_ceiling (s e : Z) :
  daysDiff s e = inject_Z (Qceiling (inject_Z (e - s) / 86400000) + 1).
Proof.
  unfold daysDiff, JS.Math_ceil.
  now rewrite (Qmake_Qdiv (e - s) JS.msPerDay).
Qed.

(** Whole days between two dates [n] days apart, plus one. *)
Lemma daysDiff_whole_days (s n : Z) :
  daysDiff s (s + n * 86400000) = inject_Z (n + 1).
Proof.
  unfold daysDiff, JS.Math_ceil.
  assert (H : (s + n * 86400000 - s # JS.msPerDay == inject_Z n)%Q).
  { unfold Qeq, JS.msPerDay. simpl. lia. }
  now rewrite H, Qceiling_Z.
Qed.

Lemma validateRange_Ok (r r' : t) :
  validateRange r = Ok r' -> r' = r.
Proof.
  unfold validateRange.
  destruct (startDate r) as [s|], (endDate r) as [e|];
    try (intros H; now injection H as <-).
  destruct (e <? s); [discriminate|]. intros H; now injection H as <-.
Qed.

Lemma save_Ok_inv (clk : Clock) (db : list t) (d : Doc) (r' : t)
    (db' : list t) :
  save clk db d = Ok (r', db') ->
  exists r1,
    validate (paths d) = Ok (paths d)
    /\ validateRange (computeTotalDays (paths d)) = Ok r1
    /\ r1 = computeTotalDays (paths d)
    /\ r' = set_updatedAt (Some (now clk))
              (stampApproved clk (statusModified d) r1)
    /\ db' = store _id r' db.
Proof.
  unfold save, bind.
  destruct (validate (paths d)) as [r0|] eqn:Hv; [|discriminate].
  destruct (validate_Ok _ _ Hv) as (-> & _).
  destruct (validateRange (computeTotalDays (paths d))) as [r1|] eqn:Hr;
    [|discriminate].
  intros H. injection H as <- <-.
  exists r1. repeat split.
  now apply validateRange_Ok in Hr.
Qed.

Lemma stamp_preserves (clk : Clock) (m : bool) (r : t) :
  let r' := set_updatedAt (Some (now clk)) (stampApproved clk m r) in
  _id r' = _id r /\ employee r' = employee r
  /\ startDate r' = startDate r /\ endDate r' = endDate r
  /\ totalDays r' = totalDays r /\ isHalfDay r' = isHalfDay r
  /\ status r' = status r /\ approvedBy r' = approvedBy r.
Proof.
  unfold stampApproved.
  destruct (m && status_eqb (status r) Approved); simpl; repeat split.
Qed.

Lemma validateRange_ordered (r r' : t) (s e : Z) :
  validateRange r = Ok r' ->
  startDate r = Some s -> endDate r = Some e -> s <= e.
Proof.
  unfold validateRange. intros H Hs He. rewrite Hs, He in H.
  destruct (e <? s) eqn:L; [discriminate|]. lia.
Qed.

Lemma computeTotalDays_dates (r : t) (s e : Z) :
  startDate r = Some s -> endDate r = Some e ->
  let r' := computeTotalDays r in
  startDate r' = Some s /\ endDate r' = Some e
  /\ isHalfDay r' = isHalfDay r
  /\ totalDays r'
     = Some (if isHalfDay r then (1 # 2)%Q else daysDiff s e).
Proof.
  intros Hs He. unfold computeTotalDays. rewrite Hs, He. simpl.
  repeat split; assumption.
Qed.

Lemma save_derived (clk : Clock) (db : list t) (d : Doc) (r' : t)
    (db' : list t) :
  save clk db d = Ok (r', db') -> derived r'.
Proof.
  intros H. apply save_Ok_inv in H.
  destruct H as (r1 & Hv & Hr & -> & -> & _).
  apply validate_Ok in Hv. destruct Hv as (_ & Hs & He & _).
  destruct (startDate (paths d)) as [s|] eqn:Es; [|congruence].
  destruct (endDate (paths d)) as [e|] eqn:Ee; [|congruence].
  destruct (stamp_preserves clk (statusModified d)
              (computeTotalDays (paths d)))
    as (_ & _ & Ks & Ke & Kt & Kh & _).
  destruct (computeTotalDays_dates (paths d) s e Es Ee)
    as (Cs & Ce & Ch & Ct).
  unfold derived. rewrite Ks, Ke, Kt, Kh, Cs, Ce, Ch, Ct.
  exists s, e. repeat split.
  - exact (validateRange_ordered _ _ s e Hr Cs Ce).
  - now rewrite daysDiff_ceiling.
Qed.

(** A save of a valid document with ordered dates goes through, and
    writes the document the hooks produce. *)
Lemma save_total_valid (clk : Clock) (db : list t) (d : Doc) (s e : Z) :
  validate (paths d) = Ok (paths d) ->
  startDate (paths d) = Some s -> endDate (paths d) = Some e -> s <= e ->
  let r' := set_updatedAt (Some (now clk))
              (stampApproved clk (statusModified d)
                 (computeTotalDays (paths d))) in
  save clk db d = Ok (r', store _id r' db).
Proof.
  intros Hv Hs He Hord.
  destruct (computeTotalDays_dates (paths d) s e Hs He)
    as (Cs & Ce & _).
  unfold save, bind. rewrite Hv. unfold validateRange. rewrite Cs, Ce.
  replace (e <? s) with false by (symmetry; apply Z.ltb_ge; lia).
  reflexivity.
Qed.




(** The day count includes both boundary dates: a leave that starts
    and ends on the same date lasts 1 day, 2024-01-20 to 2024-01-25
    lasts 6, and a half-day leave lasts 0.5. *)
Example leave_duration_examples :
  daysDiff (Examples.jan2024 20) (Examples.jan2024 20) = inject_Z 1
  /\ daysDiff (Examples.jan2024 20) (Examples.jan2024 25) = inject_Z 6
  /\ totalDays
       (computeTotalDays
          (Examples.leave 2%nat (Examples.jan2024 20) (Examples.jan2024 20)
             Pending true))
     = Some (1 # 2)%Q.
Proof. repeat split. Qed.

(** Every leave a save writes satisfies the duration invariant. *)
Lemma save_keeps_derived (clk : Clock) (db : list t) (d : Doc) (r' : t)
    (db' : list t) :
  Forall derived db -> save clk db d = Ok (r', db') -> Forall derived db'.
Proof.
  intros Hdb H. pose proof (save_derived _ _ _ _ _ H) as Hr.
  apply save_Ok_inv in H. destruct H as (_ & _ & _ & _ & _ & ->).
  clear - Hdb Hr. induction Hdb as [|x xs Hx Hxs IH]; simpl.
  - now constructor.
  - destruct (_id x =? _id r')%nat; constructor; assumption.
Qed.

Lemma active_true (st : Status) :
  active st = true <-> st = Pending \/ st = Approved.
Proof.
  destruct st; simpl; split; intros H; auto;
    try discriminate; destruct H; discriminate.
Qed.

Lemma overlapQuery_true (emp : Id) (s e : Z) (l : t) :
  overlapQuery emp s e l = true <->
  employee l = emp
  /\ (status l = Pending \/ status l = Approved)
  /\ exists ls le,
       startDate l = Some ls /\ endDate l = Some le
       /\ ls <= e /\ le >= s.
Proof.
  unfold overlapQuery.
  rewrite !andb_true_iff, Nat.eqb_eq, active_true.
  destruct (startDate l) as [ls|], (endDate l) as [le|]; split.
  - intros [[[He Ha] Hs] Hl]. apply Z.leb_le in Hs, Hl.
    repeat split; auto. exists ls, le. repeat split; auto; lia.
  - intros (He & Ha & ls' & le' & Es & Ee & Hs & Hl).
    injection Es as <-. injection Ee as <-.
    repeat split; auto; apply Z.leb_le; lia.
  - intros [[_ ?] ?]; discriminate.
  - intros (_ & _ & ? & ? & _ & ? & _); discriminate.
  - intros [[_ ?] ?]; discriminate.
  - intros (_ & _ & ? & ? & ? & _); discriminate.
  - intros [[_ ?] ?]; discriminate.
  - intros (_ & _ & ? & ? & ? & _); discriminate.
Qed.

(** C2. The overlap check finds a leave exactly when the collection
    holds a leave of the same employee, Pending or Approved, other than
    the excluded one, whose dates satisfy [startDate <= newEnd] and
    [endDate >= newStart]. *)
Theorem leave_overlap_predicate
    (db : list t) (emp : Id) (newStart newEnd : Z) (excludeId : option Id) :
  checkOverlappingLeaves db emp newStart newEnd excludeId <> None
  <->
  exists existing,
    In existing db
    /\ employee existing = emp
    /\ (status existing = Pending \/ status existing = Approved)
    /\ (exists s e,
          startDate existing = Some s /\ endDate existing = Some e
          /\ s <= newEnd /\ e >= newStart)
    /\ (forall x, excludeId = Some x -> _id existing <> x).
Proof.
  unfold checkOverlappingLeaves. rewrite findOne_exists.
  split.
  - intros (l & Hin & Hq). apply andb_true_iff in Hq.
    destruct Hq as [Hq Hx]. apply overlapQuery_true in Hq.
    destruct Hq as (He & Ha & Hd).
    exists l. repeat split; auto.
    intros x ->. apply negb_true_iff, Nat.eqb_neq in Hx. exact Hx.
  - intros (l & Hin & He & Ha & Hd & Hx).
    exists l. split; [exact Hin|]. apply andb_true_iff. split.
    + apply overlapQuery_true. auto.
    + destruct excludeId as [x|]; [|reflexivity].
      apply negb_true_iff, Nat.eqb_neq. now apply Hx.
Qed.


(** Against the approved leave of 2024-01-20 to 2024-01-25: a request
    inside it overlaps, one sharing the boundary day overlaps, one
    starting the day after does not; the leave does not overlap
    itself when excluded, and a rejected leave never counts. *)
Example leave_overlap_examples :
  let db := [Examples.vacation] in
  let d := Examples.jan2024 in
  checkOverlappingLeaves db 7 (d 22) (d 23) None = Some Examples.vacation
  /\ checkOverlappingLeaves db 7 (d 25) (d 26) None
     = Some Examples.vacation
  /\ checkOverlappingLeaves db 7 (d 26) (d 27) None = None
  /\ checkOverlappingLeaves db 7 (d 22) (d 23) (Some 1%nat) = None
  /\ checkOverlappingLeaves db 8 (d 22) (d 23) None = None
  /\ checkOverlappingLeaves
       [Examples.leave 1%nat (d 20) (d 25) Rejected false]
       7 (d 22) (d 23) None = None.
Proof. repeat split. Qed.

Lemma status_eqb_eq (a b : Status) : status_eqb a b = true <-> a = b.
Proof. destruct a, b; simpl; split; congruence. Qed.

(** The guard of the approve and reject routes: a leave that is not
    Pending is refused with an error and the collection is left as it
    was. *)
Lemma approve_requires_pending
    (clk : Clock) (actor : Actor) (id : Id) (c : option string)
    (db : list t) (l : t) :
  findById _id id db = Some l -> status l <> Pending ->
  isAdmin (role actor) = true ->
  LeaveRoutes.approveRoute true clk actor id c db
  = (mkResponse 400 "Only pending leave requests can be approved", db).
Proof.
  intros Hf Hst Ha. unfold LeaveRoutes.approveRoute, LeaveRoutes.adminAuth.
  rewrite Ha, Hf. simpl.
  destruct (status_eqb (status l) Pending) eqn:E; [|reflexivity].
  apply status_eqb_eq in E. contradiction.
Qed.

Lemma reject_requires_pending
    (clk : Clock) (actor : Actor) (id : Id) (c : option string)
    (db : list t) (l : t) :
  findById _id id db = Some l -> status l <> Pending ->
  isAdmin (role actor) = true ->
  LeaveRoutes.rejectRoute true clk actor id c db
  = (mkResponse 400 "Only pending leave requests can be rejected", db).
Proof.
  intros Hf Hst Ha. unfold LeaveRoutes.rejectRoute, LeaveRoutes.adminAuth.
  rewrite Ha, Hf. simpl.
  destruct (status_eqb (status l) Pending) eqn:E; [|reflexivity].
  apply status_eqb_eq in E. contradiction.
Qed.

(** Approving a stored Pending leave writes it back Approved, with the
    approver and the approval date. *)
Lemma approve_pending
    (clk : Clock) (actor : Actor) (id : Id) (c : option string)
    (db : list t) (l : t) :
  findById _id id db = Some l -> status l = Pending ->
  isAdmin (role actor) = true ->
  validate l = Ok l -> derived l ->
  exists l',
    LeaveRoutes.approveRoute true clk actor id c db
    = (mkResponse 200 "Leave request approved successfully",
       store _id l' db)
    /\ _id l' = _id l
    /\ status l' = Approved
    /\ approvedBy l' = Some (actorId actor)
    /\ approvedDate l' = Some (now clk).
Proof.
  intros Hf Hst Ha Hv (s & e & Hs & He & Hord & _).
  unfold LeaveRoutes.approveRoute, LeaveRoutes.adminAuth.
  rewrite Ha, Hf. simpl. rewrite Hst. simpl.
  set (d := match c with Some c0 => _ | None => _ end).
  assert (Hp : paths d
               = set_approvedBy (Some (actorId actor))
                   (set_status Approved l)).
  { unfold d. destruct c; reflexivity. }
  assert (Hm : statusModified d = true).
  { unfold d. destruct c; simpl; now rewrite Hst. }
  assert (Hv' : validate (paths d) = Ok (paths d)).
  { rewrite Hp. unfold validate in *. simpl.
    destruct (startDate l), (endDate l), (totalDays l); simpl in *;
      try discriminate.
    destruct (String.length (reason l) =? 0)%nat; [discriminate|].
    destruct (500 <? String.length (reason l))%nat; [discriminate|].
    reflexivity. }
  assert (Hs' : startDate (paths d) = Some s) by now rewrite Hp.
  assert (He' : endDate (paths d) = Some e) by now rewrite Hp.
  rewrite (save_total_valid clk db d s e Hv' Hs' He' Hord).
  eexists. split; [reflexivity|].
  rewrite Hm, Hp. unfold stampApproved, computeTotalDays. simpl.
  rewrite Hs, He. simpl. repeat split.
Qed.

(** Rejecting a stored Pending leave writes it back Rejected; the
    [rejectedBy] and [rejectedAt] the route assigns are not schema
    paths, so the stored approver and approval date are those the
    leave had before. *)
Lemma reject_pending
    (clk : Clock) (actor : Actor) (id : Id) (c : option string)
    (db : list t) (l : t) :
  findById _id id db = Some l -> status l = Pending ->
  isAdmin (role actor) = true ->
  validate l = Ok l -> derived l ->
  exists l',
    LeaveRoutes.rejectRoute true clk actor id c db
    = (mkResponse 200 "Leave request rejected successfully",
       store _id l' db)
    /\ _id l' = _id l
    /\ status l' = Rejected
    /\ approvedBy l' = approvedBy l
    /\ approvedDate l' = approvedDate l.
Proof.
  intros Hf Hst Ha Hv (s & e & Hs & He & Hord & _).
  unfold LeaveRoutes.rejectRoute, LeaveRoutes.adminAuth.
  rewrite Ha, Hf. simpl. rewrite Hst. simpl.
  set (d := match c with Some c0 => _ | None => _ end).
  assert (Hp : paths d = set_status Rejected l).
  { unfold d. destruct c; reflexivity. }
  assert (Hv' : validate (paths d) = Ok (paths d)).
  { rewrite Hp. unfold validate in *. simpl.
    destruct (startDate l), (endDate l), (totalDays l); simpl in *;
      try discriminate.
    destruct (String.length (reason l) =? 0)%nat; [discriminate|].
    destruct (500 <? String.length (reason l))%nat; [discriminate|].
    reflexivity. }
  assert (Hs' : startDate (paths d) = Some s) by now rewrite Hp.
  assert (He' : endDate (paths d) = Some e) by now rewrite Hp.
  rewrite (save_total_valid clk db d s e Hv' Hs' He' Hord).
  eexists. split; [reflexivity|].
  rewrite Hp. unfold stampApproved, computeTotalDays. simpl.
  rewrite Hs, He. simpl. rewrite andb_false_r. simpl. repeat split.
Qed.

(** C5, at the reject route. Rejecting the pending request as the
    administrator answers 200 and stores the leave as Rejected, but
    with no approver and no approval date: the actor and the time the
    route assigned to [rejectedBy] and [rejectedAt] stay on the
    in-memory document.  Approving the same request stores both. *)
Theorem leave_reject_stores_no_actor :
  let rejected :=
    LeaveRoutes.rejectRoute true Examples.clock Examples.boss 2 None
      Examples.leaves in
  let approved :=
    LeaveRoutes.approveRoute true Examples.clock Examples.boss 2 None
      Examples.leaves in
  statusCode (fst rejected) = 200%nat
  /\ (exists l,
        findById _id 2 (snd rejected) = Some l
        /\ status l = Rejected
        /\ approvedBy l = None /\ approvedDate l = None)
  /\ rejectedBy (assign_rejectedBy (actorId Examples.boss)
                   (load Examples.request)) = Some 1%nat
  /\ (exists l,
        findById _id 2 (snd approved) = Some l
        /\ status l = Approved
        /\ approvedBy l = Some 1%nat
        /\ approvedDate l = Some (now Examples.clock)).
Proof.
  repeat split; eexists; (split; [vm_compute; reflexivity|]);
    repeat split.
Qed.

(** The model's own [reject] method, which no route calls, does store
    the actor: it assigns [approvedBy], a schema path. *)
Example leave_reject_method_stores_actor :
  exists l db',
    reject Examples.clock Examples.leaves 1 "Release week"
      (load Examples.request) = Ok (l, db')
    /\ status l = Rejected /\ approvedBy l = Some 1%nat
    /\ rejectionReason l = Some "Release week"%string.
Proof.
  eexists. eexists. split; [vm_compute; reflexivity|]. repeat split.
Qed.

(** The transitions out of Pending happen once: after an approval, a
    second approval and a rejection are both refused and change
    nothing; a rejected leave cannot be approved. *)
Example leave_transitions_once :
  let approved :=
    snd (LeaveRoutes.approveRoute true Examples.clock Examples.boss 2 None
           Examples.leaves) in
  let rejected :=
    snd (LeaveRoutes.rejectRoute true Examples.clock Examples.boss 2 None
           Examples.leaves) in
  LeaveRoutes.approveRoute true Examples.clock Examples.boss 2 None approved
  = (mkResponse 400 "Only pending leave requests can be approved", approved)
  /\ LeaveRoutes.rejectRoute true Examples.clock Examples.boss 2 None approved
     = (mkResponse 400 "Only pending leave requests can be rejected",
        approved)
  /\ LeaveRoutes.approveRoute true Examples.clock Examples.boss 2 None
       rejected
     = (mkResponse 400 "Only pending leave requests can be approved",
        rejected).
Proof. repeat split. Qed.


(** C8, at the update route. The create route refuses dates inside
    the approved vacation; the update route moves the pending request
    onto the same dates and stores it, although the overlap check, had
    it been run with the request excluded, finds the vacation. *)
Theorem leave_update_skips_overlap_check :
  let d := Examples.jan2024 in
  let created :=
    LeaveRoutes.createRoute true Examples.clock Examples.staff
      Examples.ask_inside_vacation Examples.leaves in
  let updated :=
    LeaveRoutes.updateRoute Examples.clock Examples.staff 2
      Examples.move_into_vacation Examples.leaves in
  created
  = (mkResponse 400
       "You already have a leave request for overlapping dates",
     Examples.leaves)
  /\ checkOverlappingLeaves Examples.leaves 7 (d 22) (d 23) (Some 2%nat)
     = Some Examples.vacation
  /\ fst updated = mkResponse 200 "Leave request updated successfully"
  /\ exists l,
       snd updated = [Examples.vacation; l]
       /\ _id l = 2%nat /\ employee l = 7%nat /\ status l = Pending
       /\ startDate l = Some (d 22) /\ endDate l = Some (d 23).
Proof.
  repeat split. eexists. split; [vm_compute; reflexivity|].
  repeat split.
Qed.

(** The create route passes the half-day flag of the body under the
    name [halfDay], which the schema does not declare: the stored leave
    has [isHalfDay] false and the day count of its dates. *)
Example create_half_day_request :
  exists l,
    snd (LeaveRoutes.createRoute true Examples.clock Examples.staff
           Examples.ask_half_day Examples.leaves)
    = Examples.leaves ++ [l]
    /\ isHalfDay l = false /\ totalDays l = Some (inject_Z 1)
    /\ derived l.
Proof.
  eexists. split; [vm_compute; reflexivity|].
  repeat split. exists (Examples.jan2024 61), (Examples.jan2024 61).
  repeat split. discriminate.
Qed.

(** The four routes that write leaves keep the duration invariant of
    the collection. *)
Lemma leave_routes_keep_derived
    (connected : bool) (clk : Clock) (actor : Actor) (id : Id)
    (c : option string) (cb : LeaveRoutes.CreateBody)
    (ub : LeaveRoutes.UpdateBody) (db : list t) :
  Forall derived db ->
  Forall derived (snd (LeaveRoutes.createRoute connected clk actor cb db))
  /\ Forall derived
       (snd (LeaveRoutes.approveRoute connected clk actor id c db))
  /\ Forall derived
       (snd (LeaveRoutes.rejectRoute connected clk actor id c db))
  /\ Forall derived (snd (LeaveRoutes.updateRoute clk actor id ub db)).
Proof.
  intros Hdb. repeat split.
  - unfold LeaveRoutes.createRoute. cbv zeta.
    repeat break_match; simpl; try assumption;
      eapply save_keeps_derived; eassumption.
  - unfold LeaveRoutes.approveRoute. cbv zeta.
    destruct (negb (LeaveRoutes.adminAuth actor)); [assumption|].
    destruct connected; [|assumption].
    destruct (findById _id id db); [|assumption].
    destruct (negb _); [assumption|].
    match goal with
    | |- context [save clk db ?x] =>
        destruct (save clk db x) as [[r' db']|] eqn:E
    end; simpl; [|assumption].
    eapply save_keeps_derived; eassumption.
  - unfold LeaveRoutes.rejectRoute. cbv zeta.
    destruct (negb (LeaveRoutes.adminAuth actor)); [assumption|].
    destruct connected; [|assumption].
    destruct (findById _id id db); [|assumption].
    destruct (negb _); [assumption|].
    match goal with
    | |- context [save clk db ?x] =>
        destruct (save clk db x) as [[r' db']|] eqn:E
    end; simpl; [|assumption].
    eapply save_keeps_derived; eassumption.
  - unfold LeaveRoutes.updateRoute. cbv zeta.
    destruct (findById _id id db); [|assumption].
    destruct (_ && _); [assumption|].
    destruct (_ && _); [assumption|].
    destruct (LeaveRoutes.u_startDate ub), (LeaveRoutes.u_endDate ub);
      try destruct (_ <? _); try assumption;
      match goal with
      | |- context [save clk db ?x] =>
          destruct (save clk db x) as [[r' db']|] eqn:E
      end; simpl; try assumption;
      eapply save_keeps_derived; eassumption.
Qed.

End LeaveFacts.

(** ** CallData: the performance score and the checkout lock *)

Section CallDataFacts.
Import CallData.

Lemma validate_iff (r : t) :
  validate r = Ok r
  <-> (0 <= totalCalls r /\ 0 <= totalCallTime r
       /\ 0 <= interestedStudents r /\ 0 <= visitedToday r
       /\ 0 <= performanceScore r)%Q.
Proof.
  unfold validate.
  destruct (JS.gt 0 (totalCalls r)) eqn:E1;
    [apply gt_true in E1; split; [discriminate|intros; lra]|].
  destruct (JS.gt 0 (totalCallTime r)) eqn:E2;
    [apply gt_true in E2; split; [discriminate|intros; lra]|].
  destruct (JS.gt 0 (interestedStudents r)) eqn:E3;
    [apply gt_true in E3; split; [discriminate|intros; lra]|].
  destruct (JS.gt 0 (visitedToday r)) eqn:E4;
    [apply gt_true in E4; split; [discriminate|intros; lra]|].
  destruct (JS.gt 0 (performanceScore r)) eqn:E5;
    [apply gt_true in E5; split; [discriminate|intros; lra]|].
  apply gt_false in E1, E2, E3, E4, E5. tauto.
Qed.

Lemma validate_Ok_same (r r' : t) : validate r = Ok r' -> r' = r.
Proof.
  unfold validate.
  repeat match goal with
         | |- context [if ?b then _ else _] => destruct b
         end; try discriminate.
  intros H. now injection H.
Qed.

Lemma validate_Err (r : t) :
  validate r = Ok r \/ exists p, validate r = Err (ValidationError p).
Proof.
  unfold validate.
  repeat match goal with
         | |- context [if ?b then _ else _] => destruct b
         end; eauto.
Qed.

Lemma save_Ok_pre_save (db : list t) (r r' : t) (db' : list t) :
  save db r = Ok (r', db') ->
  validate r = Ok r /\ r' = pre_save r /\ db' = store _id r' db.
Proof.
  unfold save, bind.
  destruct (validate r) as [r0|] eqn:Hv; [|discriminate].
  apply validate_Ok_same in Hv as ->.
  destruct (existsb _ db); [discriminate|].
  intros H. injection H as <- <-. auto.
Qed.

Lemma save_total_valid_calls (db : list t) (r : t) :
  validate r = Ok r -> existsb (clashes (pre_save r)) db = false ->
  save db r = Ok (pre_save r, store _id (pre_save r) db).
Proof. unfold save, bind. now intros -> ->. Qed.

Lemma pre_save_scored (r : t) : scored (pre_save r).
Proof. unfold scored, pre_save, computeScore. simpl. reflexivity. Qed.


(** In binary64 the example scores 183 as well: 60 * 0.2 and 10 * 0.1
    round to 12 and 1. *)
Example performance_score_example_binary64 :
  Binary64.computeScore 2 3 60 10 = 183%float.
Proof. vm_compute. reflexivity. Qed.



(** C10, as amended. The hook is total and does not clamp: for every
    document, also one with negative counters, it yields the weighted
    sum; a document with a negative counter is refused by the schema
    validators before the hook runs, so every score a save persists
    is non-negative. *)
Theorem performance_score_total_unclamped :
  (forall r,
     (performanceScore (pre_save r)
      == visitedToday r * 40 + interestedStudents r * 30
         + totalCallTime r * 0.2 + totalCalls r * 0.1)%Q)
  /\ (forall db r,
        (totalCalls r < 0 \/ totalCallTime r < 0
         \/ interestedStudents r < 0 \/ visitedToday r < 0)%Q ->
        exists p, save db r = Err (ValidationError p))
  /\ (forall db r r' db',
        save db r = Ok (r', db') -> (0 <= performanceScore r')%Q).
Proof.
  split; [exact pre_save_scored|]. split.
  - intros db r Hneg. unfold save, bind.
    destruct (validate_Err r) as [Hv|[p Hp]].
    + apply validate_iff in Hv. lra.
    + exists p. now rewrite Hp.
  - intros db r r' db' H. apply save_Ok_pre_save in H.
    destruct H as (Hv & -> & _). apply validate_iff in Hv.
    unfold pre_save, computeScore. simpl. lra.
Qed.

Lemma performance_score_total_unclamped_witness :
  (performanceScore (pre_save Examples.negative_visit) == - 40)%Q
  /\ exists p, save [] Examples.negative_visit = Err (ValidationError p).
Proof.
  destruct performance_score_total_unclamped as (Hscore & Hneg & _).
  split.
  - rewrite (Hscore Examples.negative_visit). reflexivity.
  - apply Hneg. right. right. right. reflexivity.
Defined.

(** C10, as stated, fails: with a visit count of -1 the hook scores
    the document at -40, and the save refuses it at the validator of
    [visitedToday] and writes nothing. *)
Lemma negative_counter_not_persisted :
  (computeScore (-1) 0 0 0 == - 40)%Q
  /\ save [] Examples.negative_visit
     = Err (ValidationError "visitedToday").
Proof. split; reflexivity. Qed.

Lemma checkedOut_true (today : Z) (actor : Actor)
    (att : list Attendance.t) (a : Attendance.t) (t0 : Z) :
  findOne (AttendanceRoutes.ofDay (actorId actor) today) att = Some a ->
  Attendance.clockOut a = Some t0 ->
  CallRoutes.checkedOut today actor att = true.
Proof. unfold CallRoutes.checkedOut. now intros -> ->. Qed.

Lemma update_locked (clk : Clock) (actor : Actor) (id : Id)
    (body : CallRoutes.UpdateBody) (att : list Attendance.t)
    (db : list t) (c : t) :
  isAdmin (role actor) = false ->
  CallRoutes.checkedOut (JS.setHours0 (tz clk) (now clk)) actor att = true ->
  findById _id id db = Some c ->
  JS.setHours0 (tz clk) (date c) = JS.setHours0 (tz clk) (now clk) ->
  isError (fst (CallRoutes.updateRoute clk actor id body att db)) = true
  /\ snd (CallRoutes.updateRoute clk actor id body att db) = db.
Proof.
  intros Ha Hout Hf Hday. unfold CallRoutes.updateRoute.
  rewrite Hf, Ha, Hout, Hday, Z.eqb_refl. simpl.
  destruct (negb (employee c =? actorId actor)%nat); simpl; auto.
Qed.

Lemma create_locked (clk : Clock) (actor : Actor)
    (body : CallRoutes.CreateBody) (att : list Attendance.t)
    (db : list t) :
  isAdmin (role actor) = false ->
  CallRoutes.checkedOut (JS.setHours0 (tz clk) (now clk)) actor att = true ->
  JS.setHours0 (tz clk) (updated (CallRoutes.c_date body) (now clk))
  = JS.setHours0 (tz clk) (now clk) ->
  isError (fst (CallRoutes.createRoute clk actor body att db)) = true
  /\ snd (CallRoutes.createRoute clk actor body att db) = db.
Proof.
  intros Ha Hout Hday. unfold CallRoutes.createRoute, updated in *.
  rewrite Ha, Hout, Hday, Z.eqb_refl. simpl.
  destruct (CallRoutes.c_totalCalls body),
           (CallRoutes.c_totalCallTime body),
           (CallRoutes.c_interestedStudents body),
           (CallRoutes.c_visitedToday body),
           (CallRoutes.c_employee body); simpl; auto.
Qed.

Lemma update_admin_any_attendance (clk : Clock) (actor : Actor) (id : Id)
    (body : CallRoutes.UpdateBody) (att att' : list Attendance.t)
    (db : list t) :
  isAdmin (role actor) = true ->
  CallRoutes.updateRoute clk actor id body att db
  = CallRoutes.updateRoute clk actor id body att' db.
Proof.
  intros Ha. unfold CallRoutes.updateRoute. rewrite Ha. simpl.
  destruct (findById _id id db); [|reflexivity].
  now rewrite andb_false_r.
Qed.

Lemma create_admin_any_attendance (clk : Clock) (actor : Actor)
    (body : CallRoutes.CreateBody) (att att' : list Attendance.t)
    (db : list t) :
  isAdmin (role actor) = true ->
  CallRoutes.createRoute clk actor body att db
  = CallRoutes.createRoute clk actor body att' db.
Proof.
  intros Ha. unfold CallRoutes.createRoute. rewrite Ha. simpl.
  reflexivity.
Qed.

(** An administrator's edit of a stored record with non-negative
    counters is saved: the record is written back with the counters of
    the body, and the score they determine. *)
Lemma update_admin_saved (clk : Clock) (actor : Actor) (id : Id)
    (body : CallRoutes.UpdateBody) (att : list Attendance.t)
    (db : list t) (c : t) :
  isAdmin (role actor) = true ->
  findById _id id db = Some c ->
  validate c = Ok c -> existsb (clashes c) db = false ->
  nonneg (CallRoutes.u_totalCalls body) ->
  nonneg (CallRoutes.u_totalCallTime body) ->
  nonneg (CallRoutes.u_interestedStudents body) ->
  nonneg (CallRoutes.u_visitedToday body) ->
  exists c',
    CallRoutes.updateRoute clk actor id body att db
    = (mkResponse 200 "Call data updated successfully", store _id c' db)
    /\ _id c' = _id c /\ employee c' = employee c
    /\ totalCalls c' = updated (CallRoutes.u_totalCalls body) (totalCalls c)
    /\ totalCallTime c'
       = updated (CallRoutes.u_totalCallTime body) (totalCallTime c)
    /\ interestedStudents c'
       = updated (CallRoutes.u_interestedStudents body)
           (interestedStudents c)
    /\ visitedToday c'
       = updated (CallRoutes.u_visitedToday body) (visitedToday c)
    /\ updatedBy c' = Some (actorId actor)
    /\ scored c'.
Proof.
  intros Ha Hf Hv Hcl H1 H2 H3 H4.
  unfold CallRoutes.updateRoute. rewrite Hf, Ha. simpl.
  rewrite andb_false_r.
  set (e := set_updated _ _ _).
  assert (Hv' : validate e = Ok e).
  { apply validate_iff in Hv. apply validate_iff.
    unfold e, CallRoutes.assign, nonneg in *.
    destruct (CallRoutes.u_totalCalls body),
             (CallRoutes.u_totalCallTime body),
             (CallRoutes.u_interestedStudents body),
             (CallRoutes.u_visitedToday body),
             (CallRoutes.u_notes body); simpl; tauto. }
  assert (Hcl' : existsb (clashes (pre_save e)) db = false).
  { rewrite <- Hcl. unfold e, CallRoutes.assign, clashes.
    destruct (CallRoutes.u_totalCalls body),
             (CallRoutes.u_totalCallTime body),
             (CallRoutes.u_interestedStudents body),
             (CallRoutes.u_visitedToday body),
             (CallRoutes.u_notes body); reflexivity. }
  rewrite (save_total_valid_calls db e Hv' Hcl').
  exists (pre_save e). split; [reflexivity|].
  unfold e, CallRoutes.assign, updated.
  destruct (CallRoutes.u_totalCalls body),
           (CallRoutes.u_totalCallTime body),
           (CallRoutes.u_interestedStudents body),
           (CallRoutes.u_visitedToday body),
           (CallRoutes.u_notes body); simpl;
    repeat split; apply pre_save_scored.
Qed.

(** C9. For an actor who is not an administrator and whose own
    attendance record of today has [clockOut] set, an edit of a record
    dated today, through the update route or through the create route,
    is refused with an error and the collection is left as it was.
    For an administrator both routes answer the same whatever the
    attendance collection holds, and an edit of any stored record,
    of whichever employee, with non-negative counters is saved. *)
Theorem callData_checkout_lock
    (clk : Clock) (actor : Actor) (att : list Attendance.t) (db : list t) :
  let today := JS.setHours0 (tz clk) (now clk) in
  (isAdmin (role actor) = false ->
   forall a t0,
     findOne (AttendanceRoutes.ofDay (actorId actor) today) att = Some a ->
     Attendance.clockOut a = Some t0 ->
     (forall id body c,
        findById _id id db = Some c ->
        JS.setHours0 (tz clk) (date c) = today ->
        isError (fst (CallRoutes.updateRoute clk actor id body att db))
        = true
        /\ snd (CallRoutes.updateRoute clk actor id body att db) = db)
     /\ (forall body,
           JS.setHours0 (tz clk)
             (updated (CallRoutes.c_date body) (now clk)) = today ->
           isError (fst (CallRoutes.createRoute clk actor body att db))
           = true
           /\ snd (CallRoutes.createRoute clk actor body att db) = db))
  /\ (isAdmin (role actor) = true ->
      (forall id body att',
         CallRoutes.updateRoute clk actor id body att db
         = CallRoutes.updateRoute clk actor id body att' db)
      /\ (forall body att',
            CallRoutes.createRoute clk actor body att db
            = CallRoutes.createRoute clk actor body att' db)
      /\ (forall id body c,
            findById _id id db = Some c ->
            validate c = Ok c -> existsb (clashes c) db = false ->
            nonneg (CallRoutes.u_totalCalls body) ->
            nonneg (CallRoutes.u_totalCallTime body) ->
            nonneg (CallRoutes.u_interestedStudents body) ->
            nonneg (CallRoutes.u_visitedToday body) ->
            exists c',
              CallRoutes.updateRoute clk actor id body att db
              = (mkResponse 200 "Call data updated successfully",
                 store _id c' db)
              /\ _id c' = _id c /\ employee c' = employee c
              /\ visitedToday c'
                 = updated (CallRoutes.u_visitedToday body)
                     (visitedToday c)
              /\ updatedBy c' = Some (actorId actor))).
Proof.
  intros today. split.
  - intros Ha a t0 Hf Hco.
    pose proof (checkedOut_true today actor att a t0 Hf Hco) as Hout.
    split.
    + intros id body c Hc Hday. now apply update_locked with (c := c).
    + intros body Hday. now apply create_locked.
  - intros Ha. split; [|split].
    + intros. now apply update_admin_any_attendance.
    + intros. now apply create_admin_any_attendance.
    + intros id body c Hc Hv Hcl H1 H2 H3 H4.
      destruct (update_admin_saved clk actor id body att db c
                  Ha Hc Hv Hcl H1 H2 H3 H4)
        as (c' & Hr & Hid & He & _ & _ & _ & Hvis & Hby & _).
      exists c'. auto.
Qed.

Lemma callData_checkout_lock_witness :
  (isError (fst (CallRoutes.updateRoute Examples.clock Examples.staff 1
                   Examples.more_visits [Examples.clocked_out]
                   Examples.call_log)) = true
   /\ snd (CallRoutes.updateRoute Examples.clock Examples.staff 1
             Examples.more_visits [Examples.clocked_out]
             Examples.call_log) = Examples.call_log)
  /\ exists c',
       CallRoutes.updateRoute Examples.clock Examples.boss 1
         Examples.more_visits [Examples.clocked_out] Examples.call_log
       = (mkResponse 200 "Call data updated successfully",
          store _id c' Examples.call_log)
       /\ visitedToday c' = 4%Q
       /\ updatedBy c' = Some 1%nat.
Proof.
  split.
  - refine (proj1 (proj1 (callData_checkout_lock Examples.clock
              Examples.staff [Examples.clocked_out] Examples.call_log)
              eq_refl Examples.clocked_out _ eq_refl eq_refl)
            1%nat Examples.more_visits _ eq_refl eq_refl).
  - destruct (proj2 (proj2 (proj2 (callData_checkout_lock Examples.clock
                Examples.boss [Examples.clocked_out] Examples.call_log)
                eq_refl))
              1%nat Examples.more_visits (Examples.calls 1 7 2 183)
              eq_refl eq_refl eq_refl I I I)
      as (c' & Hr & _ & _ & Hvis & Hby).
    { simpl. discriminate. }
    exists c'. auto.
Defined.

(** Employee 7 edits today's call data: accepted while clocked in,
    refused once clocked out; the administrator's edit of the same
    record goes through after the checkout and stores the new score. *)
Example callData_checkout_lock_examples :
  fst (CallRoutes.updateRoute Examples.clock Examples.staff 1
         Examples.more_visits [Examples.clocked_in] Examples.call_log)
  = mkResponse 200 "Call data updated successfully"
  /\ CallRoutes.updateRoute Examples.clock Examples.staff 1
       Examples.more_visits [Examples.clocked_out] Examples.call_log
     = (mkResponse 400 "Cannot edit call data after checking out",
        Examples.call_log)
  /\ exists c',
       snd (CallRoutes.updateRoute Examples.clock Examples.boss 1
              Examples.more_visits [Examples.clocked_out]
              Examples.call_log) = [c']
       /\ employee c' = 7%nat /\ (performanceScore c' == 263)%Q.
Proof.
  split; [reflexivity|]. split; [reflexivity|].
  eexists. split; [vm_compute; reflexivity|]. split; reflexivity.
Qed.

(** Through the route: a report with a visit count of -1 is answered
    with a server error and nothing is stored. *)
Example negative_report_refused :
  CallRoutes.createRoute Examples.clock Examples.staff
    Examples.report_negative_visit [Examples.clocked_in] []
  = (mkResponse 500 "Server error while adding/updating call data", []).
Proof. reflexivity. Qed.


End CallDataFacts.

(** ** Collections: fresh ids, appending and deleting *)

Section CollectionLaws.
Context {A : Type} (key : A -> Id).

Lemma freshId_above (db : list A) (x : A) :
  In x db -> (key x < freshId key db)%nat.
Proof.
  intros Hin. unfold freshId.
  assert (H : (key x <= list_max (map key db))%nat).
  { induction db as [|y ys IH]; [contradiction|].
    simpl. destruct Hin as [->|Hin].
    - apply Nat.le_max_l.
    - etransitivity; [apply IH, Hin|apply Nat.le_max_r]. }
  lia.
Qed.

Lemma store_new (r : A) (db : list A) :
  (forall x, In x db -> key x <> key r) -> store key r db = db ++ [r].
Proof.
  induction db as [|y ys IH]; intros H; simpl; [reflexivity|].
  destruct (key y =? key r)%nat eqn:E.
  - apply Nat.eqb_eq in E. exfalso. apply (H y); [now left|exact E].
  - f_equal. apply IH. intros x Hx. apply H. now right.
Qed.

Lemma store_last (r r' : A) (db : list A) :
  (forall x, In x db -> key x <> key r) -> key r' = key r ->
  store key r' (db ++ [r]) = db ++ [r'].
Proof.
  intros H Hk. induction db as [|y ys IH]; simpl.
  - now rewrite Hk, Nat.eqb_refl.
  - destruct (key y =? key r')%nat eqn:E.
    + apply Nat.eqb_eq in E. exfalso. apply (H y); [now left|congruence].
    + f_equal. apply IH. intros x Hx. apply H. now right.
Qed.

Lemma findOne_app (q : A -> bool) (db : list A) (r : A) :
  findOne q (db ++ [r])
  = match findOne q db with
    | Some x => Some x
    | None => if q r then Some r else None
    end.
Proof.
  unfold findOne. induction db as [|y ys IH]; simpl; [reflexivity|].
  destruct (q y); [reflexivity|exact IH].
Qed.

Lemma findById_deleteOne (i : Id) (db : list A) :
  findById key i (deleteOne key i db) = None.
Proof.
  unfold findById, deleteOne. apply findOne_None.
  intros x Hx. apply filter_In in Hx. destruct Hx as [_ Hx].
  now apply negb_true_iff in Hx.
Qed.

Lemma findById_deleteOne_other (i j : Id) (db : list A) :
  i <> j -> findById key j (deleteOne key i db) = findById key j db.
Proof.
  intros Hij. unfold findById, findOne, deleteOne.
  induction db as [|y ys IH]; simpl; [reflexivity|].
  destruct (key y =? i)%nat eqn:Ei; simpl.
  - apply Nat.eqb_eq in Ei.
    destruct (key y =? j)%nat eqn:Ej; [|exact IH].
    apply Nat.eqb_eq in Ej. congruence.
  - destruct (key y =? j)%nat; [reflexivity|exact IH].
Qed.

Lemma deleteOne_absent (i : Id) (db : list A) :
  findById key i db = None -> deleteOne key i db = db.
Proof.
  unfold findById, deleteOne. intros H.
  pose proof (proj1 (findOne_None _ _) H) as Hall. clear H.
  induction db as [|y ys IH]; simpl; [reflexivity|].
  rewrite (Hall y) by now left. simpl. f_equal.
  apply IH. intros x Hx. apply Hall. now right.
Qed.

End CollectionLaws.

Lemma setHours0_bounds (tz t : Z) :
  JS.setHours0 tz t <= t < JS.setHours0 tz t + 24 * 60 * 60 * 1000.
Proof.
  unfold JS.setHours0, JS.msPerDay.
  pose proof (Z.mod_pos_bound (t + tz) 86400000 eq_refl). lia.
Qed.

Lemma setHours0_idempotent (tz t : Z) :
  JS.setHours0 tz (JS.setHours0 tz t) = JS.setHours0 tz t.
Proof.
  unfold JS.setHours0, JS.msPerDay.
  replace (t - (t + tz) mod 86400000 + tz)
    with ((t + tz) - (t + tz) mod 86400000) by lia.
  rewrite Zminus_mod, Z.mod_mod, Z.sub_diag, Z.mod_0_l by discriminate.
  lia.
Qed.

(** ** Attendance: the clock-in / clock-out day *)

Section AttendanceDay.
Import Attendance.

(** The record the clock-in route builds. *)
Lemma clockIn_record_of_today (clk : Clock) (actor : Actor) (id : Id) :
  AttendanceRoutes.ofDay (actorId actor) (JS.setHours0 (tz clk) (now clk))
    (mk id (actorId actor) (now clk) (Some (now clk)) None None None 0 0
        Present) = true.
Proof.
  unfold AttendanceRoutes.ofDay. simpl.
  pose proof (setHours0_bounds (tz clk) (now clk)) as [H1 H2].
  rewrite Nat.eqb_refl. simpl.
  apply andb_true_iff. split; [apply Z.leb_le|apply Z.ltb_lt]; lia.
Qed.

Lemma no_clash_without_record_of_today
    (clk : Clock) (emp : Id) (db : list t) (r : t) :
  findOne (AttendanceRoutes.ofDay emp (JS.setHours0 (tz clk) (now clk))) db
  = None ->
  employee r = emp -> date r = now clk ->
  existsb (clashes r) db = false.
Proof.
  intros Hnone He Hd.
  destruct (existsb (clashes r) db) eqn:E; [|reflexivity].
  apply existsb_exists in E. destruct E as (x & Hin & Hx).
  unfold clashes in Hx. apply andb_true_iff in Hx. destruct Hx as [Hx Hdate].
  apply andb_true_iff in Hx. destruct Hx as [_ Hemp].
  apply Nat.eqb_eq in Hemp. apply Z.eqb_eq in Hdate.
  pose proof (proj1 (findOne_None _ _) Hnone x Hin) as Hq.
  unfold AttendanceRoutes.ofDay in Hq.
  pose proof (setHours0_bounds (tz clk) (now clk)) as [H1 H2].
  rewrite Hemp, He, Nat.eqb_refl, Hdate, Hd in Hq. simpl in Hq.
  apply andb_false_iff in Hq.
  destruct Hq as [Hq|Hq]; [apply Z.leb_gt in Hq|apply Z.ltb_ge in Hq]; lia.
Qed.

Lemma clockIn_appends (clk : Clock) (actor : Actor) (db : list t) :
  findOne (AttendanceRoutes.ofDay (actorId actor)
             (JS.setHours0 (tz clk) (now clk))) db = None ->
  AttendanceLifecycle.clockInRoute true clk actor db
  = (mkResponse 201 "Clocked in successfully",
     db ++ [mk (freshId _id db) (actorId actor) (now clk) (Some (now clk))
               None None None 0 0 Present]).
Proof.
  intros Hnone.
  set (r := mk (freshId _id db) (actorId actor) (now clk) (Some (now clk))
               None None None 0 0 Present).
  unfold AttendanceLifecycle.clockInRoute. rewrite Hnone. fold r.
  assert (Hc : existsb (clashes (pre_save r)) db = false).
  { rewrite (pre_save_one_sided r) by (right; reflexivity).
    now apply (no_clash_without_record_of_today clk (actorId actor)). }
  rewrite (save_total db r Hc).
  rewrite (pre_save_one_sided r) by (right; reflexivity).
  rewrite store_new; [reflexivity|].
  intros x Hx. pose proof (freshId_above _id db x Hx). simpl. lia.
Qed.

(** X1. An employee with no attendance record of today who clocks in
    gets a new record appended, dated now, clocked in now and Present;
    any further clock-in on the same local day is refused with 400 and
    changes nothing. *)
Theorem clockIn_once_a_day
    (clk later : Clock) (actor : Actor) (db : list t) :
  findOne (AttendanceRoutes.ofDay (actorId actor)
             (JS.setHours0 (tz clk) (now clk))) db = None ->
  tz later = tz clk ->
  JS.setHours0 (tz clk) (now later) = JS.setHours0 (tz clk) (now clk) ->
  let r :=
    mk (freshId _id db) (actorId actor) (now clk) (Some (now clk))
       None None None 0 0 Present in
  AttendanceLifecycle.clockInRoute true clk actor db
  = (mkResponse 201 "Clocked in successfully", db ++ [r])
  /\ AttendanceLifecycle.clockInRoute true later actor (db ++ [r])
     = (mkResponse 400 "You have already clocked in today", db ++ [r]).
Proof.
  intros Hnone Htz Hday r. split.
  - now apply clockIn_appends.
  - unfold AttendanceLifecycle.clockInRoute.
    rewrite Htz, Hday, findOne_app, Hnone.
    unfold r. rewrite clockIn_record_of_today. reflexivity.
Qed.

Lemma clockIn_once_a_day_witness :
  AttendanceLifecycle.clockInRoute true Examples.clock Examples.staff []
  = (mkResponse 201 "Clocked in successfully", [Scenarios.arrival])
  /\ AttendanceLifecycle.clockInRoute true Scenarios.an_hour_later
       Examples.staff [Scenarios.arrival]
     = (mkResponse 400 "You have already clocked in today",
        [Scenarios.arrival]).
Proof.
  exact (clockIn_once_a_day Examples.clock Scenarios.an_hour_later
           Examples.staff [] eq_refl eq_refl eq_refl).
Defined.

(** X2. After a clock-in, a clock-out on the same local day writes the
    same record back with both clock times and the hours between them
    (the value the route rounded is replaced by the derived one), and
    any further clock-out that day is refused with 400 and changes
    nothing. *)
Theorem clockIn_then_clockOut
    (clk out again : Clock) (actor : Actor) (db : list t) :
  findOne (AttendanceRoutes.ofDay (actorId actor)
             (JS.setHours0 (tz clk) (now clk))) db = None ->
  tz out = tz clk ->
  JS.setHours0 (tz clk) (now out) = JS.setHours0 (tz clk) (now clk) ->
  tz again = tz clk ->
  JS.setHours0 (tz clk) (now again) = JS.setHours0 (tz clk) (now clk) ->
  let r :=
    mk (freshId _id db) (actorId actor) (now clk) (Some (now clk))
       None None None 0 0 Present in
  exists r',
    AttendanceRoutes.clockOutRoute true out actor (db ++ [r])
    = (mkResponse 200 "Clocked out successfully", db ++ [r'])
    /\ _id r' = _id r /\ employee r' = actorId actor
    /\ clockIn r' = Some (now clk) /\ clockOut r' = Some (now out)
    /\ (totalHours r'
        == Qmax 0 (inject_Z (now out - now clk) / 3600000))%Q
    /\ AttendanceRoutes.clockOutRoute true again actor (db ++ [r'])
       = (mkResponse 400 "You have already clocked out today", db ++ [r']).
Proof.
  intros Hnone Htz Hday Htz2 Hday2 r.
  assert (Hfresh : forall x, In x db -> _id x <> _id r).
  { intros x Hx. pose proof (freshId_above _id db x Hx). simpl. lia. }
  set (a := set_totalHours
              (AttendanceRoutes.roundedHours
                 (now out - JS.toNumber (clockIn r)))
              (set_clockOut (Some (now out)) r)).
  destruct (pre_save_key a) as (Kid & Kemp & Kdate & Kci & Kco).
  exists (pre_save a).
  repeat match goal with |- _ /\ _ => split end.
  - unfold AttendanceRoutes.clockOutRoute.
    rewrite Htz, Hday, findOne_app, Hnone.
    unfold r at 1. rewrite clockIn_record_of_today. fold r.
    simpl JS.truthy. cbv iota.
    change (set_totalHours _ (set_clockOut (Some (now out)) r)) with a.
    assert (Hc : existsb (clashes (pre_save a)) (db ++ [r]) = false).
    { rewrite existsb_app. apply orb_false_iff. split.
      - apply (no_clash_without_record_of_today clk (actorId actor));
          [exact Hnone|now rewrite Kemp|now rewrite Kdate].
      - simpl. unfold clashes. rewrite Kid. simpl.
        now rewrite Nat.eqb_refl. }
    rewrite (save_total _ a Hc).
    rewrite (store_last _id r (pre_save a) db Hfresh Kid). reflexivity.
  - exact Kid.
  - exact Kemp.
  - exact Kci.
  - exact Kco.
  - apply (pre_save_totalHours a (now clk) (now out)); reflexivity.
  - unfold AttendanceRoutes.clockOutRoute.
    rewrite Htz2, Hday2, findOne_app, Hnone.
    assert (Hq : AttendanceRoutes.ofDay (actorId actor)
                   (JS.setHours0 (tz clk) (now clk)) (pre_save a) = true).
    { unfold AttendanceRoutes.ofDay. rewrite Kemp, Kdate.
      apply (clockIn_record_of_today clk actor (freshId _id db)). }
    rewrite Hq, Kco. reflexivity.
Qed.

Lemma clockIn_then_clockOut_witness :
  exists r',
    AttendanceRoutes.clockOutRoute true Scenarios.an_hour_later
      Examples.staff [Scenarios.arrival]
    = (mkResponse 200 "Clocked out successfully", [r'])
    /\ (totalHours r' == 1)%Q /\ status r' = Late
    /\ AttendanceRoutes.clockOutRoute true Scenarios.evening
         Examples.staff [r']
       = (mkResponse 400 "You have already clocked out today", [r']).
Proof.
  destruct (clockIn_then_clockOut Examples.clock Scenarios.an_hour_later
              Scenarios.evening Examples.staff []
              eq_refl eq_refl eq_refl eq_refl eq_refl)
    as (r' & Hout & _ & _ & _ & _ & Hh & Hagain).
  exists r'. split; [exact Hout|]. split; [|split; [|exact Hagain]].
  - rewrite Hh. reflexivity.
  - apply (f_equal snd) in Hout. vm_compute in Hout.
    injection Hout as <-. reflexivity.
Defined.

Lemma no_clash_in_empty_day (emp : Id) (day : Z) (db : list t) (r : t) :
  findOne (AttendanceRoutes.ofDay emp day) db = None ->
  employee r = emp -> day <= date r < day + 24 * 60 * 60 * 1000 ->
  existsb (clashes r) db = false.
Proof.
  intros Hnone He Hd.
  destruct (existsb (clashes r) db) eqn:E; [|reflexivity].
  apply existsb_exists in E. destruct E as (x & Hin & Hx).
  unfold clashes in Hx. apply andb_true_iff in Hx. destruct Hx as [Hx Hdate].
  apply andb_true_iff in Hx. destruct Hx as [_ Hemp].
  apply Nat.eqb_eq in Hemp. apply Z.eqb_eq in Hdate.
  pose proof (proj1 (findOne_None _ _) Hnone x Hin) as Hq.
  unfold AttendanceRoutes.ofDay in Hq.
  rewrite Hemp, He, Nat.eqb_refl, Hdate in Hq. simpl in Hq.
  apply andb_false_iff in Hq.
  destruct Hq as [Hq|Hq]; [apply Z.leb_gt in Hq|apply Z.ltb_ge in Hq]; lia.
Qed.

(** The status of the hook in terms of the milliseconds worked. *)
Lemma pre_save_status_ms (r : t) (ci co : Z) :
  clockIn r = Some ci -> clockOut r = Some co ->
  let ms := totalMs ci co (breakStart r) (breakEnd r) in
  status (pre_save r)
  = if 28800000 <=? ms then Present
    else if 14400000 <=? ms then HalfDay
    else if 0 <? ms then Late
    else status r.
Proof.
  intros Hi Ho ms.
  destruct (pre_save_both r ci co Hi Ho) as (_ & _ & Hst).
  rewrite Hst. fold ms. clear Hst.
  assert (Hmax : forall k : Z,
             (0 < k)%Z ->
             JS.geq (JS.Math_max 0 (ms # JS.msPerHour)) (inject_Z k)
             = (k * 3600000 <=? ms)).
  { intros k Hk. unfold JS.geq, JS.Math_max, JS.msPerHour.
    destruct (Qle_bool 0 (ms # 3600000)) eqn:E0.
    - destruct (Qle_bool (inject_Z k) (ms # 3600000)) eqn:E;
        symmetry; [apply Z.leb_le|apply Z.leb_gt].
      + apply Qle_bool_iff in E. unfold Qle in E. simpl in E. lia.
      + destruct (Z_le_gt_dec (k * 3600000) ms) as [L|G]; [|lia].
        exfalso. assert (Qle_bool (inject_Z k) (ms # 3600000) = true).
        { apply Qle_bool_iff. unfold Qle. simpl. lia. }
        congruence.
    - assert (Hneg : ms < 0).
      { destruct (Z_lt_ge_dec ms 0) as [L|G]; [exact L|].
        exfalso. assert (Qle_bool 0 (ms # 3600000) = true).
        { apply Qle_bool_iff. unfold Qle. simpl. lia. }
        congruence. }
      destruct (Qle_bool (inject_Z k) 0) eqn:E.
      + apply Qle_bool_iff in E. unfold Qle in E. simpl in E. lia.
      + symmetry. apply Z.leb_gt. lia. }
  assert (Hpos : JS.gt (JS.Math_max 0 (ms # JS.msPerHour)) 0 = (0 <? ms)).
  { unfold JS.gt, JS.Math_max, JS.msPerHour.
    destruct (Qle_bool 0 (ms # 3600000)) eqn:E0.
    - apply Qle_bool_iff in E0. unfold Qle in E0. simpl in E0.
      destruct (Qle_bool (ms # 3600000) 0) eqn:E; simpl;
        symmetry; [apply Z.ltb_ge|apply Z.ltb_lt].
      + apply Qle_bool_iff in E. unfold Qle in E. simpl in E. lia.
      + destruct (Z_lt_ge_dec 0 ms) as [L|G]; [exact L|].
        exfalso. assert (Qle_bool (ms # 3600000) 0 = true).
        { apply Qle_bool_iff. unfold Qle. simpl. lia. }
        congruence.
    - simpl. symmetry. apply Z.ltb_ge.
      destruct (Z_lt_ge_dec 0 ms) as [L|G]; [|lia].
      exfalso. assert (Qle_bool 0 (ms # 3600000) = true).
      { apply Qle_bool_iff. unfold Qle. simpl. lia. }
      congruence. }
  change 8%Q with (inject_Z 8). change 4%Q with (inject_Z 4).
  rewrite (Hmax 8), (Hmax 4), Hpos by lia. reflexivity.
Qed.

(** X3. A manual entry by an administrator for a known employee and a
    day with no record yet is stored, dated at the local midnight of the
    given date.  Without both clock times it keeps the status the
    administrator gave and zero hours; with both, the hook decides: the
    hours are those between the clock times, and the status is Present
    from 8 hours, HalfDay from 4, Late above 0, whatever status was
    given; only when the clock-out is not after the clock-in does the
    given status stay. *)
Theorem manual_entry_status_is_derived
    (clk : Clock) (actor : Actor) (body : AttendanceLifecycle.ManualBody)
    (employees : list Employee.t) (db : list t)
    (eid : Id) (d : Z) (st : Status) (e : Employee.t) :
  isAdmin (role actor) = true ->
  AttendanceLifecycle.m_employeeId body = Some eid ->
  AttendanceLifecycle.m_date body = Some d ->
  AttendanceLifecycle.m_status body = Some st ->
  findById Employee._id eid employees = Some e ->
  findOne (AttendanceRoutes.ofDay eid (JS.setHours0 (tz clk) d)) db = None ->
  exists r,
    AttendanceLifecycle.manualRoute clk actor body employees db
    = (mkResponse 201 "Attendance record created successfully", db ++ [r])
    /\ employee r = eid /\ date r = JS.setHours0 (tz clk) d
    /\ clockIn r = AttendanceLifecycle.m_clockIn body
    /\ clockOut r = AttendanceLifecycle.m_clockOut body
    /\ (AttendanceLifecycle.m_clockIn body = None
        \/ AttendanceLifecycle.m_clockOut body = None ->
        status r = st /\ totalHours r = 0%Q)
    /\ (forall ci co,
          AttendanceLifecycle.m_clockIn body = Some ci ->
          AttendanceLifecycle.m_clockOut body = Some co ->
          (totalHours r == Qmax 0 (inject_Z (co - ci) / 3600000))%Q
          /\ status r
             = if 28800000 <=? co - ci then Present
               else if 14400000 <=? co - ci then HalfDay
               else if 0 <? co - ci then Late
               else st).
Proof.
  intros Ha He Hd Hs Hf Hnone.
  unfold AttendanceLifecycle.manualRoute.
  rewrite Ha, He, Hd, Hs, Hf, Hnone. simpl negb. cbv iota.
  set (r0 := mk (freshId _id db) eid (JS.setHours0 (tz clk) d)
               (AttendanceLifecycle.m_clockIn body)
               (AttendanceLifecycle.m_clockOut body) None None 0 0 st).
  set (a := match AttendanceLifecycle.m_clockIn body,
                  AttendanceLifecycle.m_clockOut body with
            | Some ci, Some co =>
                set_totalHours (AttendanceRoutes.roundedHours (co - ci)) r0
            | _, _ => r0
            end).
  assert (Ka : _id a = freshId _id db /\ employee a = eid
               /\ date a = JS.setHours0 (tz clk) d
               /\ clockIn a = AttendanceLifecycle.m_clockIn body
               /\ clockOut a = AttendanceLifecycle.m_clockOut body
               /\ breakStart a = None /\ breakEnd a = None
               /\ status a = st).
  { unfold a. destruct (AttendanceLifecycle.m_clockIn body),
                       (AttendanceLifecycle.m_clockOut body);
      repeat split. }
  destruct Ka as (Aid & Aemp & Adate & Aci & Aco & Abs & Abe & Ast).
  destruct (pre_save_key a) as (Kid & Kemp & Kdate & Kci & Kco).
  assert (Hc : existsb (clashes (pre_save a)) db = false).
  { apply (no_clash_in_empty_day eid (JS.setHours0 (tz clk) d));
      [exact Hnone|congruence|].
    rewrite Kdate, Adate. lia. }
  rewrite (save_total db a Hc).
  rewrite store_new.
  2:{ intros x Hx. pose proof (freshId_above _id db x Hx).
      rewrite Kid, Aid. lia. }
  exists (pre_save a).
  repeat match goal with |- _ /\ _ => split end;
    try congruence; try reflexivity.
  - intros Hmiss.
    rewrite pre_save_one_sided by (rewrite Aci, Aco; exact Hmiss).
    split; [exact Ast|].
    unfold a. destruct Hmiss as [Hm|Hm]; rewrite Hm;
      [|destruct (AttendanceLifecycle.m_clockIn body)]; reflexivity.
  - intros ci co Hci Hco.
    rewrite <- Aci in Hci. rewrite <- Aco in Hco. split.
    + pose proof (pre_save_totalHours a ci co Hci Hco) as H.
      rewrite Abs in H. exact H.
    + rewrite (pre_save_status_ms a ci co Hci Hco).
      unfold totalMs. rewrite Abs, Ast. reflexivity.
Qed.

Lemma manual_entry_status_is_derived_witness :
  exists r,
    AttendanceLifecycle.manualRoute Examples.clock Examples.boss
      Scenarios.holiday_with_hours Scenarios.people []
    = (mkResponse 201 "Attendance record created successfully", [r])
    /\ date r = Examples.jan2024 12
    /\ (totalHours r == 9)%Q /\ status r = Present.
Proof.
  destruct (manual_entry_status_is_derived Examples.clock Examples.boss
              Scenarios.holiday_with_hours Scenarios.people [] _ _ _ _
              eq_refl eq_refl eq_refl eq_refl eq_refl eq_refl)
    as (r & Hr & _ & Hd & _ & _ & _ & Hh).
  destruct (Hh _ _ eq_refl eq_refl) as [Hhours Hst].
  exists r. split; [exact Hr|]. split; [exact Hd|].
  split; [rewrite Hhours; reflexivity|exact Hst].
Defined.

Lemma findById_present {A : Type} (key : A -> Id) (a : A) (db : list A) :
  In a db -> findById key (key a) db <> None.
Proof.
  intros Hin. unfold findById. apply findOne_exists.
  exists a. split; [exact Hin|apply Nat.eqb_refl].
Qed.

(** X4. While an employee has a record of today a clock-in is refused;
    once an administrator deletes that record (the only one of the
    employee for the day) it can no longer be looked up, no other
    record is touched, and the employee can clock in again. *)
Theorem delete_reopens_clockIn
    (clk : Clock) (actor adm : Actor) (db : list t) (a : t) :
  isAdmin (role adm) = true ->
  let today := JS.setHours0 (tz clk) (now clk) in
  findOne (AttendanceRoutes.ofDay (actorId actor) today) db = Some a ->
  (forall x, In x db ->
             AttendanceRoutes.ofDay (actorId actor) today x = true ->
             _id x = _id a) ->
  let db' := snd (AttendanceLifecycle.deleteRoute adm (_id a) db) in
  AttendanceLifecycle.clockInRoute true clk actor db
  = (mkResponse 400 "You have already clocked in today", db)
  /\ fst (AttendanceLifecycle.deleteRoute adm (_id a) db)
     = mkResponse 200 "Attendance record deleted successfully"
  /\ findById _id (_id a) db' = None
  /\ (forall j, j <> _id a -> findById _id j db' = findById _id j db)
  /\ statusCode (fst (AttendanceLifecycle.clockInRoute true clk actor db'))
     = 201%nat.
Proof.
  intros Ha today Hf Honly db'.
  destruct (findOne_Some _ _ _ Hf) as [Hin Hq].
  assert (Hdel : AttendanceLifecycle.deleteRoute adm (_id a) db
                 = (mkResponse 200 "Attendance record deleted successfully",
                    deleteOne _id (_id a) db)).
  { unfold AttendanceLifecycle.deleteRoute. rewrite Ha. simpl.
    destruct (findById _id (_id a) db) eqn:E; [reflexivity|].
    exfalso. now apply (findById_present _id a db Hin). }
  unfold db'. rewrite Hdel. cbn [fst snd].
  repeat match goal with |- _ /\ _ => split end.
  - unfold AttendanceLifecycle.clockInRoute. fold today. now rewrite Hf.
  - reflexivity.
  - apply findById_deleteOne.
  - intros j Hj. apply findById_deleteOne_other. congruence.
  - rewrite clockIn_appends; [reflexivity|].
    fold today. apply findOne_None. intros x Hx.
    unfold deleteOne in Hx. apply filter_In in Hx. destruct Hx as [Hx Hne].
    destruct (AttendanceRoutes.ofDay (actorId actor) today x) eqn:E;
      [|reflexivity].
    apply negb_true_iff, Nat.eqb_neq in Hne.
    exfalso. apply Hne. now apply Honly.
Qed.

Lemma delete_reopens_clockIn_witness :
  AttendanceLifecycle.clockInRoute true Scenarios.an_hour_later
    Examples.staff [Scenarios.arrival]
  = (mkResponse 400 "You have already clocked in today",
     [Scenarios.arrival])
  /\ statusCode
       (fst (AttendanceLifecycle.clockInRoute true Scenarios.an_hour_later
               Examples.staff
               (snd (AttendanceLifecycle.deleteRoute Examples.boss 1
                       [Scenarios.arrival])))) = 201%nat.
Proof.
  destruct (delete_reopens_clockIn Scenarios.an_hour_later Examples.staff
              Examples.boss [Scenarios.arrival] Scenarios.arrival
              eq_refl eq_refl)
    as (H1 & _ & _ & _ & H2).
  - intros x [<-|[]] _. reflexivity.
  - split; [exact H1|exact H2].
Defined.

End AttendanceDay.

(** ** Leave: creating, deciding, changing and cancelling a request *)

Section LeaveLifecycle.
Import Leave.

Lemma findById_id {A : Type} (key : A -> Id) (i : Id) (db : list A) (x : A) :
  findById key i db = Some x -> In x db /\ key x = i.
Proof.
  unfold findById. intros H. apply findOne_Some in H.
  destruct H as [Hin Hk]. split; [exact Hin|now apply Nat.eqb_eq].
Qed.





(** A leave that is not Pending is beyond approval and rejection, and
    beyond change and cancellation by anyone but an administrator. *)
Lemma decided_leave_is_settled
    (clk : Clock) (actor : Actor) (id : Id) (c : option string)
    (ub : LeaveRoutes.UpdateBody) (db : list t) (l : t) :
  findById _id id db = Some l -> status l <> Pending ->
  (isAdmin (role actor) = true ->
   LeaveRoutes.approveRoute true clk actor id c db
   = (mkResponse 400 "Only pending leave requests can be approved", db)
   /\ LeaveRoutes.rejectRoute true clk actor id c db
      = (mkResponse 400 "Only pending leave requests can be rejected", db))
  /\ (isAdmin (role actor) = false ->
      isError (fst (LeaveRoutes.updateRoute clk actor id ub db)) = true
      /\ snd (LeaveRoutes.updateRoute clk actor id ub db) = db
      /\ isError (fst (LeaveAccess.deleteRoute actor id db)) = true
      /\ snd (LeaveAccess.deleteRoute actor id db) = db).
Proof.
  intros Hf Hst. split.
  - intros Ha. split.
    + now apply approve_requires_pending with (l := l).
    + now apply reject_requires_pending with (l := l).
  - intros Ha.
    assert (Hp : status_eqb (status l) Pending = false).
    { destruct (status_eqb (status l) Pending) eqn:E; [|reflexivity].
      apply status_eqb_eq in E. contradiction. }
    unfold LeaveRoutes.updateRoute, LeaveAccess.deleteRoute.
    rewrite Hf, Ha. simpl. rewrite Hp. simpl.
    destruct (negb (employee l =? actorId actor)%nat); simpl; auto.
Qed.

(** X7. An administrator's approval or rejection of a valid Pending
    leave is stored (Approved with approver and approval date, or
    Rejected), and is final: afterwards every approval and rejection of
    that leave is refused with 400, and an actor who is not an
    administrator can neither change nor cancel it; each refusal
    leaves the collection as it was. *)
Theorem leave_decision_is_final
    (clk : Clock) (adm : Actor) (id : Id) (c : option string)
    (db : list t) (l : t) :
  findById _id id db = Some l -> status l = Pending ->
  isAdmin (role adm) = true ->
  validate l = Ok l -> derived l ->
  let settled (db1 : list t) :=
    forall clk' actor c' ub,
      (isAdmin (role actor) = true ->
       LeaveRoutes.approveRoute true clk' actor id c' db1
       = (mkResponse 400 "Only pending leave requests can be approved", db1)
       /\ LeaveRoutes.rejectRoute true clk' actor id c' db1
          = (mkResponse 400 "Only pending leave requests can be rejected",
             db1))
      /\ (isAdmin (role actor) = false ->
          isError (fst (LeaveRoutes.updateRoute clk' actor id ub db1)) = true
          /\ snd (LeaveRoutes.updateRoute clk' actor id ub db1) = db1
          /\ isError (fst (LeaveAccess.deleteRoute actor id db1)) = true
          /\ snd (LeaveAccess.deleteRoute actor id db1) = db1) in
  (exists l',
     LeaveRoutes.approveRoute true clk adm id c db
     = (mkResponse 200 "Leave request approved successfully",
        store _id l' db)
     /\ status l' = Approved /\ approvedBy l' = Some (actorId adm)
     /\ approvedDate l' = Some (now clk)
     /\ settled (store _id l' db))
  /\ (exists l',
        LeaveRoutes.rejectRoute true clk adm id c db
        = (mkResponse 200 "Leave request rejected successfully",
           store _id l' db)
        /\ status l' = Rejected
        /\ settled (store _id l' db)).
Proof.
  intros Hf Hst Ha Hv Hd settled.
  destruct (findById_id _ _ _ _ Hf) as [_ Hid].
  split.
  - destruct (approve_pending clk adm id c db l Hf Hst Ha Hv Hd)
      as (l' & Hr & Hid' & Hs' & Hby & Hdate).
    exists l'. repeat match goal with |- _ /\ _ => split end; auto.
    intros clk' actor c' ub.
    apply decided_leave_is_settled with (l := l').
    + rewrite <- Hid, <- Hid'. apply findById_store.
    + rewrite Hs'. discriminate.
  - destruct (reject_pending clk adm id c db l Hf Hst Ha Hv Hd)
      as (l' & Hr & Hid' & Hs' & _).
    exists l'. repeat match goal with |- _ /\ _ => split end; auto.
    intros clk' actor c' ub.
    apply decided_leave_is_settled with (l := l').
    + rewrite <- Hid, <- Hid'. apply findById_store.
    + rewrite Hs'. discriminate.
Qed.

Lemma leave_decision_is_final_witness :
  exists l',
    LeaveRoutes.approveRoute true Examples.clock Examples.boss 2 None
      Examples.leaves
    = (mkResponse 200 "Leave request approved successfully",
       store _id l' Examples.leaves)
    /\ status l' = Approved
    /\ LeaveRoutes.rejectRoute true Examples.clock Examples.boss 2 None
         (store _id l' Examples.leaves)
       = (mkResponse 400 "Only pending leave requests can be rejected",
          store _id l' Examples.leaves)
    /\ snd (LeaveAccess.deleteRoute Examples.staff 2
              (store _id l' Examples.leaves))
       = store _id l' Examples.leaves.
Proof.
  destruct (leave_decision_is_final Examples.clock Examples.boss 2%nat None
              Examples.leaves Examples.request
              eq_refl eq_refl eq_refl eq_refl)
    as ((l' & Hr & Hs & _ & _ & Hfin) & _).
  - exists (Examples.jan2024 32), (Examples.jan2024 33).
    repeat split. discriminate.
  - exists l'. split; [exact Hr|]. split; [exact Hs|]. split.
    + exact (proj2 (proj1 (Hfin Examples.clock Examples.boss None
                             Examples.move_into_vacation) eq_refl)).
    + exact (proj2 (proj2 (proj2
               (proj2 (Hfin Examples.clock Examples.staff None
                         Examples.move_into_vacation) eq_refl)))).
Defined.

Lemma In_store_other {A : Type} (key : A -> Id) (r x : A) (db : list A) :
  In x db -> key x <> key r -> In x (store key r db).
Proof.
  intros Hin Hk. induction db as [|y ys IH]; [contradiction|].
  simpl. destruct (key y =? key r)%nat eqn:E.
  - destruct Hin as [->|Hin]; [|now right].
    apply Nat.eqb_eq in E. contradiction.
  - destruct Hin as [->|Hin]; [now left|right; now apply IH].
Qed.

Lemma In_deleteOne_other {A : Type} (key : A -> Id) (i : Id) (x : A)
    (db : list A) :
  In x db -> key x <> i -> In x (deleteOne key i db).
Proof.
  intros Hin Hk. unfold deleteOne. apply filter_In. split; [exact Hin|].
  now apply negb_true_iff, Nat.eqb_neq.
Qed.

Lemma NoDup_key_eq {A : Type} (key : A -> Id) (db : list A) (x y : A) :
  NoDup (map key db) -> In x db -> In y db -> key x = key y -> x = y.
Proof.
  induction db as [|z zs IH]; [contradiction|].
  simpl. intros Hnd Hx Hy Hk. inversion Hnd as [|? ? Hnotin Hnd']; subst.
  destruct Hx as [->|Hx], Hy as [->|Hy]; auto.
  - exfalso. apply Hnotin. rewrite Hk. now apply in_map.
  - exfalso. apply Hnotin. rewrite <- Hk. now apply in_map.
Qed.

Lemma save_id (clk : Clock) (db : list t) (d : Doc) (r' : t) (db' : list t) :
  save clk db d = Ok (r', db') ->
  _id r' = _id (paths d) /\ db' = store _id r' db.
Proof.
  intros H. apply save_Ok_inv in H.
  destruct H as (r1 & _ & _ & -> & -> & ->).
  split; [|reflexivity].
  destruct (stamp_preserves clk (statusModified d)
              (computeTotalDays (paths d))) as (Kid & _).
  rewrite Kid. unfold computeTotalDays.
  destruct (startDate (paths d)), (endDate (paths d)); reflexivity.
Qed.

Lemma save_In_other (clk : Clock) (db : list t) (d : Doc) (r' : t)
    (db' : list t) (x : t) :
  save clk db d = Ok (r', db') ->
  In x db -> _id x <> _id (paths d) -> In x db'.
Proof.
  intros H Hin Hk. apply save_id in H. destruct H as [Hid ->].
  apply In_store_other; [exact Hin|congruence].
Qed.

(** X8. Whatever an actor who is not an administrator sends to the
    leave routes (create, approve, reject, update, cancel), every stored
    leave of another employee is still in the collection afterwards,
    unchanged; and reading a leave by id returns only a leave of the
    actor. *)
Theorem leave_routes_spare_other_employees
    (connected : bool) (clk : Clock) (actor : Actor) (id : Id)
    (c : option string) (cb : LeaveRoutes.CreateBody)
    (ub : LeaveRoutes.UpdateBody) (db : list t) :
  isAdmin (role actor) = false -> NoDup (map _id db) ->
  (forall x,
     In x db -> employee x <> actorId actor ->
     In x (snd (LeaveRoutes.createRoute connected clk actor cb db))
     /\ In x (snd (LeaveRoutes.approveRoute connected clk actor id c db))
     /\ In x (snd (LeaveRoutes.rejectRoute connected clk actor id c db))
     /\ In x (snd (LeaveRoutes.updateRoute clk actor id ub db))
     /\ In x (snd (LeaveAccess.deleteRoute actor id db)))
  /\ (forall l,
        snd (LeaveAccess.getRoute actor id db) = Some l ->
        employee l = actorId actor).
Proof.
  intros Ha Hnd. split.
  - intros x Hin Hother.
    repeat match goal with |- _ /\ _ => split end.
    + unfold LeaveRoutes.createRoute. cbv zeta.
      repeat break_match; simpl; try assumption.
      eapply save_In_other; [eassumption|exact Hin|].
      simpl. pose proof (freshId_above _id db x Hin). lia.
    + unfold LeaveRoutes.approveRoute, LeaveRoutes.adminAuth.
      now rewrite Ha.
    + unfold LeaveRoutes.rejectRoute, LeaveRoutes.adminAuth.
      now rewrite Ha.
    + unfold LeaveRoutes.updateRoute. cbv zeta.
      destruct (findById _id id db) as [l|] eqn:Hf; [|assumption].
      destruct (findById_id _ _ _ _ Hf) as [Hl Hid].
      rewrite Ha. simpl. rewrite !andb_true_r.
      destruct (employee l =? actorId actor)%nat eqn:Hown;
        simpl; [|assumption].
      apply Nat.eqb_eq in Hown.
      assert (Hx : _id x <> _id l).
      { intros Hk. apply Hother.
        now rewrite (NoDup_key_eq _id db x l Hnd Hin Hl Hk). }
      destruct (negb (status_eqb (status l) Pending)); [assumption|].
      destruct (LeaveRoutes.u_type ub), (LeaveRoutes.u_reason ub),
               (LeaveRoutes.u_halfDay ub), (LeaveRoutes.u_startDate ub),
               (LeaveRoutes.u_endDate ub);
        try destruct (_ <? _); try assumption;
        match goal with
        | |- context [save clk db ?d] =>
            destruct (save clk db d) as [[r' db']|] eqn:E
        end; simpl; try assumption;
        (eapply save_In_other; [exact E|exact Hin|exact Hx]).
    + unfold LeaveAccess.deleteRoute.
      destruct (findById _id id db) as [l|] eqn:Hf; [|assumption].
      destruct (findById_id _ _ _ _ Hf) as [Hl Hid].
      rewrite Ha. simpl. rewrite !andb_true_r.
      destruct (employee l =? actorId actor)%nat eqn:Hown;
        simpl; [|assumption].
      apply Nat.eqb_eq in Hown.
      destruct (negb (status_eqb (status l) Pending)); [assumption|].
      simpl. apply In_deleteOne_other; [exact Hin|].
      rewrite <- Hid. intros Hk. apply Hother.
      now rewrite (NoDup_key_eq _id db x l Hnd Hin Hl Hk).
  - intros l. unfold LeaveAccess.getRoute.
    destruct (findById _id id db) as [l0|]; [|discriminate].
    rewrite Ha. simpl. rewrite andb_true_r.
    destruct (employee l0 =? actorId actor)%nat eqn:Hown;
      simpl; [|discriminate].
    intros H. injection H as <-. now apply Nat.eqb_eq.
Qed.

Lemma leave_routes_spare_other_employees_witness :
  In Examples.vacation
    (snd (LeaveRoutes.updateRoute Examples.clock Scenarios.colleague 1
            Examples.move_into_vacation Examples.leaves))
  /\ In Examples.vacation
       (snd (LeaveAccess.deleteRoute Scenarios.colleague 1 Examples.leaves)).
Proof.
  destruct (proj1 (leave_routes_spare_other_employees true Examples.clock
                     Scenarios.colleague 1%nat None
                     Scenarios.ask_march Examples.move_into_vacation
                     Examples.leaves eq_refl
                     ltac:(repeat constructor; simpl; intuition discriminate))
              Examples.vacation (or_introl eq_refl)
              ltac:(simpl; discriminate))
    as (_ & _ & _ & Hu & Hd).
  split; [exact Hu|exact Hd].
Defined.

End LeaveLifecycle.

(** ** CallData: one record per employee and day *)

Section CallDataLifecycle.
Import CallData.





Lemma call_save_In_other (db : list t) (r r' : t) (db' : list t) (x : t) :
  save db r = Ok (r', db') -> In x db -> _id x <> _id r -> In x db'.
Proof.
  intros H Hin Hk. apply save_Ok_pre_save in H.
  destruct H as (_ & -> & ->).
  apply In_store_other; [exact Hin|exact Hk].
Qed.

(** X10. Whatever an actor who is not an administrator sends to the
    call-data routes (report, update, delete), every stored record of
    another employee is still in the collection afterwards, unchanged;
    and reading a record by id returns only a record of the actor. *)
Theorem call_routes_spare_other_employees
    (clk : Clock) (actor : Actor) (id : Id) (cb : CallRoutes.CreateBody)
    (ub : CallRoutes.UpdateBody) (att : list Attendance.t) (db : list t) :
  isAdmin (role actor) = false -> NoDup (map _id db) ->
  (forall x,
     In x db -> employee x <> actorId actor ->
     In x (snd (CallRoutes.createRoute clk actor cb att db))
     /\ In x (snd (CallRoutes.updateRoute clk actor id ub att db))
     /\ In x (snd (CallAccess.deleteRoute clk actor id att db)))
  /\ (forall r,
        snd (CallAccess.getRoute actor id db) = Some r ->
        employee r = actorId actor).
Proof.
  intros Ha Hnd. split.
  - intros x Hin Hother.
    repeat match goal with |- _ /\ _ => split end.
    + unfold CallRoutes.createRoute. rewrite Ha. cbv zeta.
      destruct (CallRoutes.c_totalCalls cb); [|assumption].
      destruct (CallRoutes.c_totalCallTime cb); [|assumption].
      destruct (CallRoutes.c_interestedStudents cb); [|assumption].
      destruct (CallRoutes.c_visitedToday cb); [|assumption].
      destruct (CallRoutes.c_employee cb); [assumption|].
      destruct (_ && _); [assumption|].
      destruct (findOne _ db) as [own|] eqn:Hf.
      * apply findOne_Some in Hf. destruct Hf as [Hown Hq].
        unfold CallRoutes.inDay in Hq.
        apply andb_true_iff in Hq. destruct Hq as [Hq _].
        apply andb_true_iff in Hq. destruct Hq as [Hq _].
        apply Nat.eqb_eq in Hq.
        assert (Hx : _id x <> _id own).
        { intros Hk. apply Hother.
          now rewrite (NoDup_key_eq _id db x own Hnd Hin Hown Hk). }
        match goal with
        | |- context [save db ?d] =>
            destruct (save db d) as [[r' db']|[]] eqn:E
        end; simpl; try assumption.
        eapply call_save_In_other; [exact E|exact Hin|].
        destruct (CallRoutes.c_notes cb); exact Hx.
      * match goal with
        | |- context [save db ?d] =>
            destruct (save db d) as [[r' db']|[]] eqn:E
        end; simpl; try assumption.
        eapply call_save_In_other; [exact E|exact Hin|].
        simpl. pose proof (freshId_above _id db x Hin). lia.
    + unfold CallRoutes.updateRoute. rewrite Ha. cbv zeta.
      destruct (findById _id id db) as [own|] eqn:Hf; [|assumption].
      destruct (findById_id _ _ _ _ Hf) as [Hown Hid].
      simpl. rewrite andb_true_r.
      destruct (employee own =? actorId actor)%nat eqn:Hmine;
        simpl; [|assumption].
      apply Nat.eqb_eq in Hmine.
      destruct (_ && _); [assumption|].
      assert (Hx : _id x <> _id own).
      { intros Hk. apply Hother.
        now rewrite (NoDup_key_eq _id db x own Hnd Hin Hown Hk). }
      match goal with
      | |- context [save db ?d] =>
          destruct (save db d) as [[r' db']|] eqn:E
      end; simpl; try assumption.
      eapply call_save_In_other; [exact E|exact Hin|].
      unfold CallRoutes.assign.
      destruct (CallRoutes.u_totalCalls ub),
               (CallRoutes.u_totalCallTime ub),
               (CallRoutes.u_interestedStudents ub),
               (CallRoutes.u_visitedToday ub),
               (CallRoutes.u_notes ub); exact Hx.
    + unfold CallAccess.deleteRoute. rewrite Ha. cbv zeta.
      destruct (findById _id id db) as [own|] eqn:Hf; [|assumption].
      destruct (findById_id _ _ _ _ Hf) as [Hown Hid].
      simpl. rewrite andb_true_r.
      destruct (employee own =? actorId actor)%nat eqn:Hmine;
        simpl; [|assumption].
      apply Nat.eqb_eq in Hmine.
      destruct (_ && _); [assumption|].
      simpl. apply In_deleteOne_other; [exact Hin|].
      rewrite <- Hid. intros Hk. apply Hother.
      now rewrite (NoDup_key_eq _id db x own Hnd Hin Hown Hk).
  - intros r. unfold CallAccess.getRoute.
    destruct (findById _id id db) as [r0|]; [|discriminate].
    rewrite Ha. simpl. rewrite andb_true_r.
    destruct (employee r0 =? actorId actor)%nat eqn:Hown;
      simpl; [|discriminate].
    intros H. injection H as <-. now apply Nat.eqb_eq.
Qed.

Lemma call_routes_spare_other_employees_witness :
  In (Examples.calls 1 7 2 183)
    (snd (CallRoutes.updateRoute Examples.clock Scenarios.colleague 1
            Examples.more_visits [] Examples.call_log))
  /\ In (Examples.calls 1 7 2 183)
       (snd (CallAccess.deleteRoute Examples.clock Scenarios.colleague 1
               [] Examples.call_log)).
Proof.
  destruct (proj1 (call_routes_spare_other_employees Examples.clock
                     Scenarios.colleague 1%nat Scenarios.first_report
                     Examples.more_visits [] Examples.call_log eq_refl
                     ltac:(repeat constructor; simpl; intuition discriminate))
              (Examples.calls 1 7 2 183) (or_introl eq_refl)
              ltac:(simpl; discriminate))
    as (_ & Hu & Hd).
  split; [exact Hu|exact Hd].
Defined.

(** X11. The checkout lock covers deletion.  An actor who is not an
    administrator and whose attendance record of today has a clock-out
    cannot delete a record dated today: the route answers with an error
    and changes nothing.  The owner of a record who has not checked out
    deletes it: afterwards it can be looked up neither by id nor as
    today's record of the owner (when it was the only one of that
    day). *)
Theorem call_delete_under_checkout_lock
    (clk : Clock) (actor : Actor) (id : Id) (att : list Attendance.t)
    (db : list t) (r : t) :
  isAdmin (role actor) = false ->
  findById _id id db = Some r ->
  let today := JS.setHours0 (tz clk) (now clk) in
  JS.setHours0 (tz clk) (date r) = today ->
  (CallRoutes.checkedOut today actor att = true ->
   isError (fst (CallAccess.deleteRoute clk actor id att db)) = true
   /\ snd (CallAccess.deleteRoute clk actor id att db) = db)
  /\ (CallRoutes.checkedOut today actor att = false ->
      employee r = actorId actor ->
      CallAccess.deleteRoute clk actor id att db
      = (mkResponse 200 "Call data deleted successfully",
         deleteOne _id id db)
      /\ findById _id id (deleteOne _id id db) = None
      /\ ((forall x, In x db ->
                      CallRoutes.inDay (actorId actor) today x = true ->
                      _id x = id) ->
          CallAccess.todayRoute clk actor (deleteOne _id id db) = None)).
Proof.
  intros Ha Hf today Hday. split.
  - intros Hout. unfold CallAccess.deleteRoute.
    rewrite Hf, Ha. cbv zeta. fold today. rewrite Hday, Hout, Z.eqb_refl.
    simpl. destruct (negb (employee r =? actorId actor)%nat); simpl; auto.
  - intros Hopen Hown. split; [|split].
    + unfold CallAccess.deleteRoute.
      rewrite Hf, Ha. cbv zeta. fold today. rewrite Hday, Hopen, Hown.
      rewrite Nat.eqb_refl. simpl. now rewrite andb_false_r.
    + apply findById_deleteOne.
    + intros Honly. unfold CallAccess.todayRoute. fold today.
      apply findOne_None. intros x Hx.
      unfold deleteOne in Hx. apply filter_In in Hx.
      destruct Hx as [Hx Hne].
      destruct (CallRoutes.inDay (actorId actor) today x) eqn:E;
        [|reflexivity].
      apply negb_true_iff, Nat.eqb_neq in Hne.
      exfalso. apply Hne. now apply Honly.
Qed.

Lemma call_delete_under_checkout_lock_witness :
  (isError (fst (CallAccess.deleteRoute Examples.clock Examples.staff 1
                   [Examples.clocked_out] Examples.call_log)) = true
   /\ snd (CallAccess.deleteRoute Examples.clock Examples.staff 1
             [Examples.clocked_out] Examples.call_log) = Examples.call_log)
  /\ CallAccess.deleteRoute Examples.clock Examples.staff 1
       [Examples.clocked_in] Examples.call_log
     = (mkResponse 200 "Call data deleted successfully", []).
Proof.
  split.
  - exact (proj1 (call_delete_under_checkout_lock Examples.clock
                    Examples.staff 1%nat [Examples.clocked_out]
                    Examples.call_log _ eq_refl eq_refl eq_refl) eq_refl).
  - exact (proj1 (proj2 (call_delete_under_checkout_lock Examples.clock
                    Examples.staff 1%nat [Examples.clocked_in]
                    Examples.call_log _ eq_refl eq_refl eq_refl)
                  eq_refl eq_refl)).
Defined.

End CallDataLifecycle.

(** ** One record per employee and day *)

Lemma setHours0_div (tz d : Z) :
  JS.setHours0 tz d = 86400000 * ((d + tz) / 86400000) - tz.
Proof.
  unfold JS.setHours0, JS.msPerDay.
  rewrite Z.mod_eq by discriminate. lia.
Qed.

Lemma sameDay_range (tz d t : Z) :
  JS.setHours0 tz d = JS.setHours0 tz t
  <-> JS.setHours0 tz t <= d < JS.setHours0 tz t + 24 * 60 * 60 * 1000.
Proof.
  split.
  - intros <-. apply setHours0_bounds.
  - rewrite !setHours0_div. intros H.
    assert (E : (d + tz) / 86400000 = (t + tz) / 86400000).
    { symmetry.
      apply (Z.div_unique_pos (d + tz) 86400000 ((t + tz) / 86400000)
               (d + tz - 86400000 * ((t + tz) / 86400000))); lia. }
    now rewrite E.
Qed.

Lemma NoDup_app_iff_fresh {B : Type} (l : list B) (b : B) :
  NoDup l -> ~ In b l -> NoDup (l ++ [b]).
Proof.
  intros Hnd Hb. induction Hnd as [|x xs Hx Hxs IH]; simpl.
  - constructor; [intros []|constructor].
  - constructor.
    + intros Hin. apply in_app_or in Hin.
      destruct Hin as [Hin|[<-|[]]]; [contradiction|].
      apply Hb. now left.
    + apply IH. intros Hin. apply Hb. now right.
Qed.

Section OnePerDayLaws.
Context {A : Type} (key emp : A -> Id) (date : A -> Z) (tz : Z).

Lemma In_store (r z : A) (db : list A) :
  In z (store key r db) ->
  z = r \/ (In z db /\ (NoDup (map key db) -> key z <> key r)).
Proof.
  induction db as [|y ys IH]; simpl.
  - intros [<-|[]]. now left.
  - destruct (key y =? key r)%nat eqn:E.
    + apply Nat.eqb_eq in E. intros [<-|Hz]; [now left|].
      right. split; [now right|].
      intros Hnd Hk. inversion Hnd as [|? ? Hnotin _]; subst.
      apply Hnotin. rewrite E, <- Hk. now apply in_map.
    + apply Nat.eqb_neq in E. intros [<-|Hz].
      * right. split; [now left|]. intros _. exact E.
      * destruct (IH Hz) as [->|[Hin Hk]]; [now left|].
        right. split; [now right|].
        intros Hnd. apply Hk. now inversion Hnd.
Qed.

Lemma map_key_store (r : A) (db : list A) :
  In (key r) (map key db) -> map key (store key r db) = map key db.
Proof.
  induction db as [|y ys IH]; simpl; [contradiction|].
  destruct (key y =? key r)%nat eqn:E.
  - apply Nat.eqb_eq in E. intros _. simpl. now rewrite E.
  - apply Nat.eqb_neq in E. intros [H|H]; [contradiction|].
    simpl. now rewrite IH.
Qed.

(** Writing a document back over the stored one of the same id,
    employee and day keeps the invariant. *)
Lemma onePerDay_store_back (r a : A) (db : list A) :
  onePerDay key emp date tz db -> In a db -> key r = key a ->
  sameSlot emp date tz r a ->
  onePerDay key emp date tz (store key r db).
Proof.
  intros [Hnd Hone] Ha Hk [He Hd]. split.
  - rewrite map_key_store; [exact Hnd|]. rewrite Hk. now apply in_map.
  - assert (Hside : forall z, In z db -> key z <> key r ->
                              sameSlot emp date tz z r -> False).
    { intros z Hz Hkz [Hez Hdz]. apply Hkz.
      rewrite (Hone z a Hz Ha); [now symmetry|].
      split; congruence. }
    intros x y Hx Hy Hs.
    destruct (In_store r x db Hx) as [->|[Hx' Hkx]];
      destruct (In_store r y db Hy) as [->|[Hy' Hky]]; auto.
    + exfalso. apply (Hside y Hy' (Hky Hnd)).
      destruct Hs as [H1 H2]. split; congruence.
    + exfalso. apply (Hside x Hx' (Hkx Hnd)). exact Hs.
Qed.

(** Appending a document with a new id for a day on which its employee
    has none keeps the invariant. *)
Lemma onePerDay_append (r : A) (db : list A) :
  onePerDay key emp date tz db -> (forall x, In x db -> key x <> key r) ->
  (forall x, In x db -> ~ sameSlot emp date tz x r) ->
  onePerDay key emp date tz (db ++ [r]).
Proof.
  intros [Hnd Hone] Hfresh Hfree. split.
  - rewrite map_app. simpl. apply NoDup_app_iff_fresh.
    + exact Hnd.
    + intros Hin. apply in_map_iff in Hin. destruct Hin as (x & Hk & Hx).
      now apply (Hfresh x Hx).
  - intros x y Hx Hy Hs.
    apply in_app_or in Hx. apply in_app_or in Hy.
    destruct Hx as [Hx|[<-|[]]], Hy as [Hy|[<-|[]]]; auto.
    + exfalso. now apply (Hfree x Hx).
    + exfalso. apply (Hfree y Hy). destruct Hs as [H1 H2].
      split; congruence.
Qed.

Lemma onePerDay_deleteOne (i : Id) (db : list A) :
  onePerDay key emp date tz db ->
  onePerDay key emp date tz (deleteOne key i db).
Proof.
  intros [Hnd Hone]. split.
  - unfold deleteOne. clear Hone.
    induction db as [|y ys IH]; simpl; [constructor|].
    inversion Hnd as [|? ? Hnotin Hnd']; subst.
    destruct (negb (key y =? i)%nat); simpl; [|now apply IH].
    constructor; [|now apply IH].
    intros Hin. apply Hnotin. apply in_map_iff in Hin.
    destruct Hin as (x & Hk & Hx). apply filter_In in Hx.
    rewrite <- Hk. apply in_map. tauto.
  - intros x y Hx Hy. unfold deleteOne in Hx, Hy.
    apply filter_In in Hx. apply filter_In in Hy.
    apply Hone; tauto.
Qed.

End OnePerDayLaws.

Section AttendanceOnePerDay.
Import Attendance.

Lemma ofDay_sameSlot (tz t0 : Z) (emp : Id) (x : t) :
  AttendanceRoutes.ofDay emp (JS.setHours0 tz t0) x = true
  <-> employee x = emp
      /\ JS.setHours0 tz (date x) = JS.setHours0 tz t0.
Proof.
  unfold AttendanceRoutes.ofDay.
  rewrite !andb_true_iff, Nat.eqb_eq, Z.leb_le, Z.ltb_lt, sameDay_range.
  tauto.
Qed.

Lemma free_day (tz t0 : Z) (emp : Id) (db : list t) (r : t) :
  findOne (AttendanceRoutes.ofDay emp (JS.setHours0 tz t0)) db = None ->
  employee r = emp -> JS.setHours0 tz (date r) = JS.setHours0 tz t0 ->
  forall x, In x db -> ~ sameSlot employee date tz x r.
Proof.
  intros Hnone He Hd x Hx [Hse Hsd].
  pose proof (proj1 (findOne_None _ _) Hnone x Hx) as Hq.
  assert (Ht : AttendanceRoutes.ofDay emp (JS.setHours0 tz t0) x = true).
  { apply ofDay_sameSlot. split; congruence. }
  congruence.
Qed.

Lemma save_store_back (tz : Z) (db : list t) (r r' a : t) (db' : list t) :
  onePerDay _id employee date tz db ->
  save db r = Ok (r', db') ->
  In a db -> _id r = _id a -> employee r = employee a -> date r = date a ->
  onePerDay _id employee date tz db'.
Proof.
  intros Hinv Hs Ha Hid He Hd.
  apply save_Ok in Hs. destruct Hs as (-> & -> & _).
  destruct (pre_save_key r) as (Kid & Kemp & Kdate & _).
  apply (onePerDay_store_back _id employee date tz (pre_save r) a);
    [exact Hinv|exact Ha|congruence|].
  split; congruence.
Qed.

Lemma save_append (tz t0 : Z) (db : list t) (r r' : t) (db' : list t) :
  onePerDay _id employee date tz db ->
  save db r = Ok (r', db') ->
  _id r = freshId _id db ->
  findOne (AttendanceRoutes.ofDay (employee r) (JS.setHours0 tz t0)) db
  = None ->
  JS.setHours0 tz (date r) = JS.setHours0 tz t0 ->
  onePerDay _id employee date tz db'.
Proof.
  intros Hinv Hs Hid Hnone Hd.
  apply save_Ok in Hs. destruct Hs as (-> & -> & _).
  destruct (pre_save_key r) as (Kid & Kemp & Kdate & _).
  assert (Hfresh : forall x, In x db -> _id x <> _id (pre_save r)).
  { intros x Hx. pose proof (freshId_above _id db x Hx).
    rewrite Kid, Hid. lia. }
  rewrite store_new by exact Hfresh.
  apply onePerDay_append; [exact Hinv|exact Hfresh|].
  apply (free_day tz t0 (employee r)); [exact Hnone|exact Kemp|].
  now rewrite Kdate.
Qed.

(** X12. The attendance collection holds at most one record per
    employee and local day, and no two records with the same id; the
    clock-in, clock-out, manual-entry, update and delete routes all keep
    it that way. *)
Theorem attendance_routes_keep_one_record_per_day
    (connected : bool) (clk : Clock) (actor : Actor) (id : Id)
    (mb : AttendanceLifecycle.ManualBody) (ub : AttendanceRoutes.UpdateBody)
    (employees : list Employee.t) (db : list t) :
  let inv := onePerDay _id employee date (tz clk) in
  inv db ->
  inv (snd (AttendanceLifecycle.clockInRoute connected clk actor db))
  /\ inv (snd (AttendanceRoutes.clockOutRoute connected clk actor db))
  /\ inv (snd (AttendanceLifecycle.manualRoute clk actor mb employees db))
  /\ inv (snd (AttendanceRoutes.updateRoute actor id ub db))
  /\ inv (snd (AttendanceLifecycle.deleteRoute actor id db)).
Proof.
  intros inv Hinv.
  repeat match goal with |- _ /\ _ => split end.
  - unfold AttendanceLifecycle.clockInRoute. cbv zeta.
    destruct connected; [|assumption].
    destruct (findOne _ db) eqn:Hf; [assumption|].
    match goal with
    | |- context [save db ?x] =>
        destruct (save db x) as [[r' db']|[]] eqn:E
    end; simpl; try assumption.
    eapply (save_append (tz clk) (now clk)); [exact Hinv|exact E| | |];
      [reflexivity|exact Hf|reflexivity].
  - unfold AttendanceRoutes.clockOutRoute. cbv zeta.
    destruct connected; [|assumption].
    destruct (findOne _ db) as [a|] eqn:Hf; [|assumption].
    apply findOne_Some in Hf. destruct Hf as [Ha _].
    destruct (JS.truthy (clockOut a)); [assumption|].
    match goal with
    | |- context [save db ?x] =>
        destruct (save db x) as [[r' db']|] eqn:E
    end; simpl; try assumption.
    eapply (save_store_back (tz clk)); [exact Hinv|exact E|exact Ha| | |];
      reflexivity.
  - unfold AttendanceLifecycle.manualRoute. cbv zeta.
    destruct (negb (isAdmin (role actor))); [assumption|].
    destruct (AttendanceLifecycle.m_employeeId mb) as [eid|]; [|assumption].
    destruct (AttendanceLifecycle.m_date mb) as [d|]; [|assumption].
    destruct (AttendanceLifecycle.m_status mb) as [st|]; [|assumption].
    destruct (findById Employee._id eid employees); [|assumption].
    destruct (findOne _ db) eqn:Hf; [assumption|].
    match goal with
    | |- context [save db ?x] =>
        destruct (save db x) as [[r' db']|] eqn:E
    end; simpl; try assumption.
    eapply (save_append (tz clk) d); [exact Hinv|exact E| | |];
      destruct (AttendanceLifecycle.m_clockIn mb),
               (AttendanceLifecycle.m_clockOut mb);
      simpl; try reflexivity; try exact Hf; apply setHours0_idempotent.
  - unfold AttendanceRoutes.updateRoute. cbv zeta.
    destruct (negb (isAdmin (role actor))); [assumption|].
    destruct (findById _id id db) as [a|] eqn:Hf; [|assumption].
    destruct (findById_id _ _ _ _ Hf) as [Ha _].
    match goal with
    | |- context [save db ?x] =>
        destruct (save db x) as [[r' db']|] eqn:E
    end; simpl; try assumption.
    eapply (save_store_back (tz clk)); [exact Hinv|exact E|exact Ha| | |];
      destruct (AttendanceRoutes.b_clockIn ub),
               (AttendanceRoutes.b_clockOut ub),
               (AttendanceRoutes.b_status ub); simpl;
      destruct (clockIn a), (clockOut a); reflexivity.
  - unfold AttendanceLifecycle.deleteRoute.
    destruct (negb (isAdmin (role actor))); [assumption|].
    destruct (findById _id id db); [|assumption].
    simpl. now apply onePerDay_deleteOne.
Qed.

Lemma attendance_routes_keep_one_record_per_day_witness :
  onePerDay _id employee date 0
    (snd (AttendanceLifecycle.clockInRoute true Examples.clock
            Examples.staff []))
  /\ onePerDay _id employee date 0
       (snd (AttendanceRoutes.clockOutRoute true Scenarios.an_hour_later
               Examples.staff [Scenarios.arrival])).
Proof.
  split.
  - apply (attendance_routes_keep_one_record_per_day true Examples.clock
             Examples.staff 1%nat Scenarios.holiday_with_hours
             (AttendanceRoutes.mkUpdateBody None None None)
             Scenarios.people []).
    split; [constructor|intros x y []].
  - apply (attendance_routes_keep_one_record_per_day true
             Scenarios.an_hour_later Examples.staff 1%nat
             Scenarios.holiday_with_hours
             (AttendanceRoutes.mkUpdateBody None None None)
             Scenarios.people [Scenarios.arrival]).
    split.
    + repeat constructor. intros [].
    + intros x y [<-|[]] [<-|[]] _. reflexivity.
Defined.

End AttendanceOnePerDay.

Section CallDataOnePerDay.
Import CallData.

Lemma inDay_sameSlot (tz t0 : Z) (emp : Id) (x : t) :
  CallRoutes.inDay emp (JS.setHours0 tz t0) x = true
  <-> employee x = emp
      /\ JS.setHours0 tz (date x) = JS.setHours0 tz t0.
Proof.
  unfold CallRoutes.inDay.
  rewrite !andb_true_iff, Nat.eqb_eq, Z.leb_le, Z.ltb_lt, sameDay_range.
  tauto.
Qed.

Lemma call_save_store_back
    (tz : Z) (db : list t) (r r' a : t) (db' : list t) :
  onePerDay _id employee date tz db ->
  save db r = Ok (r', db') ->
  In a db -> _id r = _id a -> employee r = employee a -> date r = date a ->
  onePerDay _id employee date tz db'.
Proof.
  intros Hinv Hs Ha Hid He Hd.
  apply save_Ok_pre_save in Hs. destruct Hs as (_ & -> & ->).
  apply (onePerDay_store_back _id employee date tz (pre_save r) a);
    [exact Hinv|exact Ha|exact Hid|].
  split; simpl; congruence.
Qed.

Lemma call_save_append
    (tz t0 : Z) (db : list t) (r r' : t) (db' : list t) :
  onePerDay _id employee date tz db ->
  save db r = Ok (r', db') ->
  _id r = freshId _id db ->
  findOne (CallRoutes.inDay (employee r) (JS.setHours0 tz t0)) db = None ->
  JS.setHours0 tz (date r) = JS.setHours0 tz t0 ->
  onePerDay _id employee date tz db'.
Proof.
  intros Hinv Hs Hid Hnone Hd.
  apply save_Ok_pre_save in Hs. destruct Hs as (_ & -> & ->).
  assert (Hfresh : forall x, In x db -> _id x <> _id (pre_save r)).
  { intros x Hx. pose proof (freshId_above _id db x Hx).
    simpl. rewrite Hid. lia. }
  rewrite store_new by exact Hfresh.
  apply onePerDay_append; [exact Hinv|exact Hfresh|].
  intros x Hx [Hse Hsd]. simpl in Hse, Hsd.
  pose proof (proj1 (findOne_None _ _) Hnone x Hx) as Hq.
  assert (Ht : CallRoutes.inDay (employee r) (JS.setHours0 tz t0) x = true).
  { apply inDay_sameSlot. split; congruence. }
  congruence.
Qed.

(** X13. The call-data collection holds at most one record per
    employee and local day, and no two records with the same id; the
    report (create or update), update and delete routes all keep it
    that way, whoever calls them. *)
Theorem call_routes_keep_one_record_per_day
    (clk : Clock) (actor : Actor) (id : Id) (cb : CallRoutes.CreateBody)
    (ub : CallRoutes.UpdateBody) (att : list Attendance.t) (db : list t) :
  let inv := onePerDay _id employee date (tz clk) in
  inv db ->
  inv (snd (CallRoutes.createRoute clk actor cb att db))
  /\ inv (snd (CallRoutes.updateRoute clk actor id ub att db))
  /\ inv (snd (CallAccess.deleteRoute clk actor id att db)).
Proof.
  intros inv Hinv.
  repeat match goal with |- _ /\ _ => split end.
  - unfold CallRoutes.createRoute. cbv zeta.
    destruct (CallRoutes.c_totalCalls cb) as [c0|]; [|assumption].
    destruct (CallRoutes.c_totalCallTime cb) as [t0|]; [|assumption].
    destruct (CallRoutes.c_interestedStudents cb) as [i0|]; [|assumption].
    destruct (CallRoutes.c_visitedToday cb) as [v0|]; [|assumption].
    assert (Hupsert : forall employeeId,
      inv (snd
        (if negb (isAdmin (role actor))
            && (JS.setHours0 (tz clk)
                  (match CallRoutes.c_date cb with
                   | Some d => d
                   | None => now clk
                   end) =? JS.setHours0 (tz clk) (now clk))
            && CallRoutes.checkedOut (JS.setHours0 (tz clk) (now clk))
                 actor att
         then
           (mkResponse 400 "Cannot add/edit call data after checking out",
            db)
         else
           match
             save db
               match
                 findOne
                   (CallRoutes.inDay employeeId
                      (JS.setHours0 (tz clk)
                         (match CallRoutes.c_date cb with
                          | Some d => d
                          | None => now clk
                          end))) db
               with
               | Some callData =>
                   set_updated (now clk) (actorId actor)
                     match CallRoutes.c_notes cb with
                     | Some n =>
                         set_notes n
                           (set_visitedToday v0
                              (set_interestedStudents i0
                                 (set_totalCallTime t0
                                    (set_totalCalls c0 callData))))
                     | None =>
                         set_visitedToday v0
                           (set_interestedStudents i0
                              (set_totalCallTime t0
                                 (set_totalCalls c0 callData)))
                     end
               | None =>
                   mk (freshId _id db) employeeId
                     (JS.setHours0 (tz clk)
                        (match CallRoutes.c_date cb with
                         | Some d => d
                         | None => now clk
                         end)) c0 t0 i0 v0 0
                     match CallRoutes.c_notes cb with
                     | Some n => n
                     | None => ""%string
                     end (Some (now clk)) None
               end
           with
           | Ok (saved, db') =>
               (mkResponse 201
                  match updatedBy saved with
                  | Some _ => "Call data updated successfully"%string
                  | None => "Call data added successfully"%string
                  end, db')
           | Err DuplicateKey =>
               (mkResponse 400 "Call data for this date already exists", db)
           | Err _ =>
               (mkResponse 500
                  "Server error while adding/updating call data", db)
           end))).
    { intros employeeId.
      destruct (negb _ && _ && _); [assumption|].
      destruct (findOne _ db) as [own|] eqn:Hf.
      - apply findOne_Some in Hf. destruct Hf as [Hown _].
        match goal with
        | |- context [save db ?x] =>
            destruct (save db x) as [[r' db']|[]] eqn:E
        end; simpl; try assumption.
        eapply (call_save_store_back (tz clk));
          [exact Hinv|exact E|exact Hown| | |];
          destruct (CallRoutes.c_notes cb); reflexivity.
      - match goal with
        | |- context [save db ?x] =>
            destruct (save db x) as [[r' db']|[]] eqn:E
        end; simpl; try assumption.
        eapply (call_save_append (tz clk)
                  (match CallRoutes.c_date cb with
                   | Some d => d
                   | None => now clk
                   end));
          [exact Hinv|exact E|reflexivity|exact Hf|].
        simpl. apply setHours0_idempotent. }
    destruct (CallRoutes.c_employee cb) as [other|].
    + destruct (isAdmin (role actor)) eqn:Ha; [|assumption].
      apply Hupsert.
    + apply Hupsert.
  - unfold CallRoutes.updateRoute. cbv zeta.
    destruct (findById _id id db) as [own|] eqn:Hf; [|assumption].
    destruct (findById_id _ _ _ _ Hf) as [Hown _].
    destruct (_ && _); [assumption|].
    destruct (_ && _); [assumption|].
    match goal with
    | |- context [save db ?x] =>
        destruct (save db x) as [[r' db']|] eqn:E
    end; simpl; try assumption.
    eapply (call_save_store_back (tz clk));
      [exact Hinv|exact E|exact Hown| | |];
      unfold CallRoutes.assign;
      destruct (CallRoutes.u_totalCalls ub),
               (CallRoutes.u_totalCallTime ub),
               (CallRoutes.u_interestedStudents ub),
               (CallRoutes.u_visitedToday ub),
               (CallRoutes.u_notes ub); reflexivity.
  - unfold CallAccess.deleteRoute. cbv zeta.
    destruct (findById _id id db); [|assumption].
    destruct (_ && _); [assumption|].
    destruct (_ && _); [assumption|].
    simpl. now apply onePerDay_deleteOne.
Qed.

Lemma call_routes_keep_one_record_per_day_witness :
  onePerDay _id employee date 0
    (snd (CallRoutes.createRoute Scenarios.an_hour_later Examples.staff
            Scenarios.corrected_report [Examples.clocked_in]
            Examples.call_log)).
Proof.
  apply (call_routes_keep_one_record_per_day Scenarios.an_hour_later
           Examples.staff 1%nat Scenarios.corrected_report
           Examples.more_visits [Examples.clocked_in] Examples.call_log).
  split.
  - repeat constructor. intros [].
  - intros x y [<-|[]] [<-|[]] _. reflexivity.
Defined.

End CallDataOnePerDay.

(** ** The derived fields over every writing route *)

Lemma deleteOne_Forall {A : Type} (key : A -> Id) (P : A -> Prop)
    (i : Id) (db : list A) :
  Forall P db -> Forall P (deleteOne key i db).
Proof.
  rewrite !Forall_forall. intros H x Hx.
  apply filter_In in Hx. apply H, Hx.
Qed.

Section AttendanceInvariant.
Import Attendance.

(** X14. If every stored attendance record with both clock times
    holds the hours its timestamps determine, it is still so after
    any request to the clock-in, clock-out, manual-entry, update or
    delete route, whatever the caller, the body and the outcome. *)
Theorem attendance_routes_keep_hours_derived
    (connected : bool) (clk : Clock) (actor : Actor) (id : Id)
    (mb : AttendanceLifecycle.ManualBody) (ub : AttendanceRoutes.UpdateBody)
    (employees : list Employee.t) (db : list t) :
  Forall timed db ->
  Forall timed (snd (AttendanceLifecycle.clockInRoute connected clk actor db))
  /\ Forall timed
       (snd (AttendanceRoutes.clockOutRoute connected clk actor db))
  /\ Forall timed
       (snd (AttendanceLifecycle.manualRoute clk actor mb employees db))
  /\ Forall timed (snd (AttendanceRoutes.updateRoute actor id ub db))
  /\ Forall timed (snd (AttendanceLifecycle.deleteRoute actor id db)).
Proof.
  intros Hdb.
  repeat match goal with |- _ /\ _ => split end.
  - unfold AttendanceLifecycle.clockInRoute. cbv zeta.
    destruct connected; [|assumption].
    destruct (findOne _ db); [assumption|].
    match goal with
    | |- context [save db ?x] =>
        destruct (save db x) as [[r' db']|[]] eqn:E
    end; simpl; try assumption.
    eapply save_keeps_timed; eassumption.
  - now apply clockOutRoute_keeps_timed.
  - unfold AttendanceLifecycle.manualRoute. cbv zeta.
    destruct (negb (isAdmin (role actor))); [assumption|].
    destruct (AttendanceLifecycle.m_employeeId mb); [|assumption].
    destruct (AttendanceLifecycle.m_date mb); [|assumption].
    destruct (AttendanceLifecycle.m_status mb); [|assumption].
    destruct (findById Employee._id _ employees); [|assumption].
    destruct (findOne _ db); [assumption|].
    match goal with
    | |- context [save db ?x] =>
        destruct (save db x) as [[r' db']|] eqn:E
    end; simpl; [|assumption].
    eapply save_keeps_timed; eassumption.
  - now apply updateRoute_keeps_timed.
  - unfold AttendanceLifecycle.deleteRoute.
    destruct (negb (isAdmin (role actor))); [assumption|].
    destruct (findById _id id db); [|assumption].
    simpl. now apply deleteOne_Forall.
Qed.

Lemma attendance_routes_keep_hours_derived_witness :
  Forall timed
    (snd (AttendanceLifecycle.manualRoute Examples.clock Examples.boss
            Scenarios.holiday_with_hours Scenarios.people
            [pre_save Examples.shift])).
Proof.
  apply (attendance_routes_keep_hours_derived true Examples.clock
           Examples.boss 1%nat Scenarios.holiday_with_hours
           (AttendanceRoutes.mkUpdateBody None None None) Scenarios.people
           [pre_save Examples.shift]).
  constructor; [|constructor].
  intros ci co Hi Ho. vm_compute in Hi, Ho.
  injection Hi as <-. injection Ho as <-. vm_compute. reflexivity.
Defined.

End AttendanceInvariant.

Section LeaveInvariant.
Import Leave.

(** X15. If every stored leave has its dates in order and the total
    days they determine (0.5 for a half day, otherwise the inclusive
    count of days), it is still so after any request to the create,
    approve, reject, update or cancel route, whatever the caller, the
    body and the outcome. *)
Theorem leave_routes_keep_days_derived
    (connected : bool) (clk : Clock) (actor : Actor) (id : Id)
    (c : option string) (cb : LeaveRoutes.CreateBody)
    (ub : LeaveRoutes.UpdateBody) (db : list t) :
  Forall derived db ->
  Forall derived (snd (LeaveRoutes.createRoute connected clk actor cb db))
  /\ Forall derived
       (snd (LeaveRoutes.approveRoute connected clk actor id c db))
  /\ Forall derived
       (snd (LeaveRoutes.rejectRoute connected clk actor id c db))
  /\ Forall derived (snd (LeaveRoutes.updateRoute clk actor id ub db))
  /\ Forall derived (snd (LeaveAccess.deleteRoute actor id db)).
Proof.
  intros Hdb.
  destruct (leave_routes_keep_derived connected clk actor id c cb ub db Hdb)
    as (H1 & H2 & H3 & H4).
  repeat match goal with |- _ /\ _ => split end; try assumption.
  unfold LeaveAccess.deleteRoute.
  destruct (findById _id id db); [|assumption].
  destruct (_ && _); [assumption|].
  destruct (_ && _); [assumption|].
  simpl. now apply deleteOne_Forall.
Qed.

Lemma leave_routes_keep_days_derived_witness :
  Forall derived
    (snd (LeaveRoutes.createRoute true Examples.clock Examples.staff
            Scenarios.ask_march Examples.leaves)).
Proof.
  apply (leave_routes_keep_days_derived true Examples.clock Examples.staff
           1%nat None Scenarios.ask_march Examples.move_into_vacation
           Examples.leaves).
  repeat constructor;
    eexists; eexists;
    (split; [reflexivity|]; split; [reflexivity|];
     split; [vm_compute; discriminate|reflexivity]).
Defined.

End LeaveInvariant.

Section CallDataInvariant.
Import CallData.



End CallDataInvariant.

(** Checks the one-per-day invariant of a listed collection. *)
Ltac one_per_day :=
  split;
  [ repeat constructor; simpl; intuition discriminate
  | let x := fresh "x" in
    let y := fresh "y" in
    let Hx := fresh "Hx" in
    let Hy := fresh "Hy" in
    let He := fresh "He" in
    let Hd := fresh "Hd" in
    intros x y Hx Hy [He Hd]; simpl in Hx, Hy;
    repeat match goal with H : _ \/ _ |- _ => destruct H end;
    subst; try contradiction; try reflexivity;
    solve [vm_compute in He; discriminate
          |vm_compute in Hd; discriminate] ].

(** ** Listings: sorting and paging *)

Section SortingLaws.
Context {A : Type} (after : A -> A -> bool).

Lemma insertSorted_perm (x : A) (l : list A) :
  Permutation (Query.insertSorted after x l) (x :: l).
Proof.
  induction l as [|y ys IH]; simpl; [reflexivity|].
  destruct (after x y); [|reflexivity].
  rewrite IH. apply perm_swap.
Qed.

Lemma sortBy_perm (l : list A) : Permutation (Query.sortBy after l) l.
Proof.
  induction l as [|x xs IH]; simpl; [reflexivity|].
  rewrite insertSorted_perm. now constructor.
Qed.

Hypothesis after_asym : forall x y, after x y = true -> after y x = false.
Hypothesis after_trans :
  forall x y z, after x y = false -> after y z = false -> after x z = false.

Lemma insertSorted_sorted (x : A) (l : list A) :
  StronglySorted (fun a b => after a b = false) l ->
  StronglySorted (fun a b => after a b = false) (Query.insertSorted after x l).
Proof.
  induction 1 as [|y ys Hs IH Hy]; simpl.
  - constructor; constructor.
  - destruct (after x y) eqn:E.
    + constructor; [exact IH|].
      rewrite Forall_forall in *. intros z Hz.
      apply (Permutation_in _ (insertSorted_perm x ys)) in Hz.
      destruct Hz as [<-|Hz]; [now apply after_asym|now apply Hy].
    + constructor; [now constructor|].
      constructor; [exact E|].
      rewrite Forall_forall in *. intros z Hz.
      apply (after_trans x y z E). now apply Hy.
Qed.

Lemma sortBy_sorted (l : list A) :
  StronglySorted (fun a b => after a b = false) (Query.sortBy after l).
Proof.
  induction l as [|x xs IH]; simpl; [constructor|].
  now apply insertSorted_sorted.
Qed.

End SortingLaws.

Lemma firstn_add_skipn {A : Type} (a b : nat) (l : list A) :
  firstn (a + b) l = firstn a l ++ firstn b (skipn a l).
Proof.
  revert l. induction a as [|a IH]; intros l; [reflexivity|].
  destruct l as [|x xs]; simpl.
  - now rewrite firstn_nil.
  - now rewrite IH.
Qed.

Lemma windows_concat {A : Type} (n k : nat) (l : list A) :
  List.concat (map (fun p => Query.window (p * n) n l) (seq 0 k))
  = firstn (k * n) l.
Proof.
  induction k as [|k IH]; [reflexivity|].
  rewrite seq_S, map_app, concat_app, IH. simpl.
  rewrite app_nil_r. unfold Query.window.
  rewrite <- firstn_add_skipn. f_equal. lia.
Qed.

Lemma pages_concat {A : Type} (limit : positive) (n : Z) (l : list A) :
  List.concat (map (fun page =>
                 Query.window (Query.skipOf page limit) (Pos.to_nat limit) l)
              (Query.pageNumbers n))
  = firstn (Z.to_nat n * Pos.to_nat limit) l.
Proof.
  unfold Query.pageNumbers.
  rewrite <- seq_shift, !map_map, <- windows_concat.
  f_equal. apply map_ext. intros p. unfold Query.skipOf.
  rewrite Nat2Pos.id by discriminate. f_equal. lia.
Qed.

(** [Math.ceil(total / limit)] pages are enough for [total] documents,
    and one page fewer is not. *)
Lemma pages_bounds (page limit : positive) (total : nat) :
  let n := Query.pages (Query.paginate page limit total) in
  0 <= n
  /\ Z.of_nat total <= n * Zpos limit
  /\ (n - 1) * Zpos limit < Z.of_nat total + Z.b2z (Nat.eqb total 0).
Proof.
  cbv zeta. unfold Query.paginate, JS.Math_ceil. simpl Query.pages.
  rewrite <- (Qceiling_comp _ _ (Qmake_Qdiv (Z.of_nat total) limit)).
  unfold Qceiling, Qfloor, Qopp. simpl Qnum. simpl Qden.
  pose proof (Z.div_mod (- Z.of_nat total) (Zpos limit) ltac:(discriminate))
    as Hdm.
  pose proof (Z.mod_pos_bound (- Z.of_nat total) (Zpos limit) eq_refl) as Hb.
  set (q := (- Z.of_nat total) / Zpos limit) in *.
  set (r := (- Z.of_nat total) mod Zpos limit) in *.
  assert (Hq : q <= 0).
  { destruct (Z_le_gt_dec q 0) as [H|H]; [exact H|exfalso]. nia. }
  repeat split; try lia; try nia.
  destruct (Nat.eqb_spec total 0) as [->|Hne]; simpl Z.b2z.
  - simpl in *. nia.
  - nia.
Qed.

Lemma StronglySorted_impl {A : Type} (R R' : A -> A -> Prop) (l : list A) :
  (forall a b, In a l -> In b l -> a <> b -> R a b -> R' a b) ->
  NoDup l -> StronglySorted R l -> StronglySorted R' l.
Proof.
  intros H Hnd Hs. induction Hs as [|x xs Hs IH Hx]; [constructor|].
  inversion Hnd as [|? ? Hnotin Hnd']; subst.
  constructor.
  - apply IH; [|exact Hnd'].
    intros a b Ha Hb. apply H; now right.
  - rewrite Forall_forall in *. intros y Hy.
    apply H; [now left|now right| |now apply Hx].
    intros ->. contradiction.
Qed.

Lemma StronglySorted_weaken {A : Type} (R R' : A -> A -> Prop) (l : list A) :
  (forall a b, R a b -> R' a b) ->
  StronglySorted R l -> StronglySorted R' l.
Proof.
  intros H Hs. induction Hs as [|x xs Hs IH Hx]; constructor.
  - exact IH.
  - rewrite Forall_forall in *. intros y Hy. now apply H, Hx.
Qed.

Lemma In_window {A : Type} (skip limit : nat) (l : list A) (x : A) :
  In x (Query.window skip limit l) -> In x l.
Proof.
  unfold Query.window. intros H.
  rewrite <- (firstn_skipn skip l). apply in_or_app. right.
  rewrite <- (firstn_skipn limit (skipn skip l)). apply in_or_app. now left.
Qed.

Lemma window_length {A : Type} (skip limit : nat) (l : list A) :
  (List.length (Query.window skip limit l) <= limit)%nat.
Proof. unfold Query.window. apply firstn_le_length. Qed.

(** Pages 1 to [Math.ceil(total / limit)] of a sorted query, one after
    the other, are the whole sorted result. *)
Lemma listing_pages_cover {A : Type} (after : A -> A -> bool)
    (limit : positive) (found : list A) :
  List.concat
    (map (fun page =>
            Query.window (Query.skipOf page limit) (Pos.to_nat limit)
              (Query.sortBy after found))
       (Query.pageNumbers
          (Query.pages (Query.paginate 1 limit (List.length found)))))
  = Query.sortBy after found.
Proof.
  rewrite pages_concat. apply firstn_all2.
  rewrite (Permutation_length (sortBy_perm after found)).
  destruct (pages_bounds 1 limit (List.length found)) as (H0 & H1 & _).
  cbv zeta in *.
  set (n := Query.pages (Query.paginate 1 limit (List.length found))) in *.
  apply Nat2Z.inj_le. rewrite Nat2Z.inj_mul, Z2Nat.id by exact H0.
  rewrite positive_nat_Z. exact H1.
Qed.

Lemma In_pages {A : Type} (f : positive -> list A) (n : Z) (x : A) :
  In x (List.concat (map f (Query.pageNumbers n))) ->
  exists page, In x (f page).
Proof.
  intros H. apply in_concat in H. destruct H as (l & Hl & Hx).
  apply in_map_iff in Hl. destruct Hl as (page & <- & _). now exists page.
Qed.

Lemma byDate_asym {A : Type} (date : A -> Z) (x y : A) :
  (date x <? date y) = true -> (date y <? date x) = false.
Proof. rewrite Z.ltb_lt, Z.ltb_ge. lia. Qed.

Lemma byDate_trans {A : Type} (date : A -> Z) (x y z : A) :
  (date x <? date y) = false -> (date y <? date z) = false ->
  (date x <? date z) = false.
Proof. rewrite !Z.ltb_ge. lia. Qed.

Section AttendanceListing.
Import Attendance.

(** X17. Paging through an employee's own attendance listing:
    every page answers with the same count of pages and of matching
    records and holds at most [limit] records, and pages 1 to
    [Math.ceil(total / limit)] put one after the other are exactly the
    employee's records that pass the month filter, each once, the
    latest date first. *)
Theorem attendance_my_pages_cover
    (clk : Clock) (actor : Actor) (limit : positive)
    (month year : option Z) (inRange : Z -> bool) (db : list t) :
  Query.monthRange (tz clk) month year = Some inRange ->
  let mine r := (employee r =? actorId actor)%nat && inRange (date r) in
  let answer page :=
    AttendanceQueries.myRoute true clk actor page limit month year db in
  let n :=
    Query.pages (Query.paginate 1 limit (List.length (filter mine db))) in
  let all :=
    List.concat (map (fun page => Query.records (answer page))
                   (Query.pageNumbers n)) in
  (forall page,
      exists l,
        answer page
        = Some (l, Query.mkPagination page n (List.length (filter mine db)))
        /\ (List.length l <= Pos.to_nat limit)%nat)
  /\ Permutation all (filter mine db)
  /\ StronglySorted (fun a b => date b <= date a) all.
Proof.
  intros Hrange mine answer n all.
  assert (Hanswer : forall page,
    answer page
    = Some (Query.window (Query.skipOf page limit) (Pos.to_nat limit)
              (Query.sortBy AttendanceQueries.byDateDesc (filter mine db)),
            Query.mkPagination page n (List.length (filter mine db)))).
  { intros page. unfold answer, AttendanceQueries.myRoute.
    rewrite Hrange. reflexivity. }
  assert (Hall : all
                 = Query.sortBy AttendanceQueries.byDateDesc (filter mine db)).
  { unfold all.
    rewrite (map_ext _ (fun page =>
               Query.window (Query.skipOf page limit) (Pos.to_nat limit)
                 (Query.sortBy AttendanceQueries.byDateDesc
                    (filter mine db))))
      by (intros page; now rewrite Hanswer).
    apply listing_pages_cover. }
  split; [|split].
  - intros page. eexists. split; [apply Hanswer|apply window_length].
  - rewrite Hall. apply sortBy_perm.
  - rewrite Hall.
    apply (StronglySorted_weaken
             (fun a b => AttendanceQueries.byDateDesc a b = false)).
    + intros a b. unfold AttendanceQueries.byDateDesc.
      rewrite Z.ltb_ge. lia.
    + apply sortBy_sorted.
      * intros x y. apply byDate_asym.
      * intros x y z. apply byDate_trans.
Qed.

Lemma attendance_my_pages_cover_witness :
  Query.monthRange 0 (Some 1) (Some 2024) = Some Reports.inJanuary
  /\ Permutation
       (List.concat
          (map (fun page =>
                  Query.records
                    (AttendanceQueries.myRoute true Examples.clock
                       Examples.staff page 1 (Some 1) (Some 2024)
                       Reports.january))
             (Query.pageNumbers 2)))
       (filter (fun r => (Attendance.employee r =? 7)%nat
                         && Reports.inJanuary (Attendance.date r))
          Reports.january).
Proof.
  split; [reflexivity|].
  exact (proj1 (proj2 (attendance_my_pages_cover Examples.clock
                         Examples.staff 1 (Some 1) (Some 2024)
                         Reports.inJanuary Reports.january eq_refl))).
Defined.

End AttendanceListing.

Section CallListing.
Import CallData.

(** X18. Paging through an employee's own call-data listing: every
    page answers with the same count of pages and of matching records
    and holds at most [limit] records, and pages 1 to
    [Math.ceil(total / limit)] put one after the other are exactly the
    employee's records that pass the month filter, each once, the
    latest date first. *)
Theorem call_my_pages_cover
    (clk : Clock) (actor : Actor) (limit : positive)
    (month year : option Z) (inRange : Z -> bool) (db : list t) :
  Query.monthRange (tz clk) month year = Some inRange ->
  let mine r := (employee r =? actorId actor)%nat && inRange (date r) in
  let answer page :=
    CallQueries.myRoute clk actor page limit month year db in
  let n :=
    Query.pages (Query.paginate 1 limit (List.length (filter mine db))) in
  let all :=
    List.concat (map (fun page => Query.records (answer page))
                   (Query.pageNumbers n)) in
  (forall page,
      exists l,
        answer page
        = Some (l, Query.mkPagination page n (List.length (filter mine db)))
        /\ (List.length l <= Pos.to_nat limit)%nat)
  /\ Permutation all (filter mine db)
  /\ StronglySorted (fun a b => date b <= date a) all.
Proof.
  intros Hrange mine answer n all.
  assert (Hanswer : forall page,
    answer page
    = Some (Query.window (Query.skipOf page limit) (Pos.to_nat limit)
              (Query.sortBy CallQueries.byDateDesc (filter mine db)),
            Query.mkPagination page n (List.length (filter mine db)))).
  { intros page. unfold answer, CallQueries.myRoute.
    rewrite Hrange. reflexivity. }
  assert (Hall : all
                 = Query.sortBy CallQueries.byDateDesc (filter mine db)).
  { unfold all.
    rewrite (map_ext _ (fun page =>
               Query.window (Query.skipOf page limit) (Pos.to_nat limit)
                 (Query.sortBy CallQueries.byDateDesc (filter mine db))))
      by (intros page; now rewrite Hanswer).
    apply listing_pages_cover. }
  split; [|split].
  - intros page. eexists. split; [apply Hanswer|apply window_length].
  - rewrite Hall. apply sortBy_perm.
  - rewrite Hall.
    apply (StronglySorted_weaken
             (fun a b => CallQueries.byDateDesc a b = false)).
    + intros a b. unfold CallQueries.byDateDesc.
      rewrite Z.ltb_ge. lia.
    + apply sortBy_sorted.
      * intros x y. apply byDate_asym.
      * intros x y z. apply byDate_trans.
Qed.

Lemma call_my_pages_cover_witness :
  Query.monthRange 0 (Some 1) (Some 2024) = Some Reports.inJanuary
  /\ Permutation
       (List.concat
          (map (fun page =>
                  Query.records
                    (CallQueries.myRoute Examples.clock Examples.staff
                       page 1 (Some 1) (Some 2024) Reports.call_sheet))
             (Query.pageNumbers 2)))
       (filter (fun r => (CallData.employee r =? 7)%nat
                         && Reports.inJanuary (CallData.date r))
          Reports.call_sheet).
Proof.
  split; [reflexivity|].
  exact (proj1 (proj2 (call_my_pages_cover Examples.clock Examples.staff 1
                         (Some 1) (Some 2024) Reports.inJanuary
                         Reports.call_sheet eq_refl))).
Defined.

End CallListing.

(** With one document per employee and day, the dates of an employee's
    documents differ, so sorting them by date leaves no ties. *)
Lemma own_listing_strict {A : Type} (key emp : A -> Id) (date : A -> Z)
    (tz : Z) (actor : Id) (inRange : Z -> bool) (db : list A) :
  onePerDay key emp date tz db ->
  StronglySorted (fun a b => date b < date a)
    (Query.sortBy (fun x y => date x <? date y)
       (filter (fun r => (emp r =? actor)%nat && inRange (date r)) db)).
Proof.
  intros [Hnd Hone].
  set (found :=
         filter (fun r => (emp r =? actor)%nat && inRange (date r)) db).
  set (after := fun x y : A => date x <? date y).
  apply (StronglySorted_impl (fun a b => after a b = false)).
  - intros a b Ha Hb Hab Hord.
    apply (Permutation_in _ (sortBy_perm after found)) in Ha, Hb.
    apply filter_In in Ha, Hb.
    destruct Ha as [Ha Hqa], Hb as [Hb Hqb].
    apply andb_true_iff in Hqa, Hqb.
    destruct Hqa as [Hea _], Hqb as [Heb _].
    apply Nat.eqb_eq in Hea, Heb.
    unfold after in Hord. apply Z.ltb_ge in Hord.
    destruct (Z.eq_dec (date a) (date b)) as [E|E]; [exfalso|lia].
    apply Hab, Hone; [exact Ha|exact Hb|].
    split; congruence.
  - apply (Permutation_NoDup (Permutation_sym (sortBy_perm after found))).
    apply NoDup_filter. now apply (NoDup_map_inv key).
  - apply sortBy_sorted.
    + intros x y. apply byDate_asym.
    + intros x y z. apply byDate_trans.
Qed.

(** X19. While each employee has at most one attendance record and
    one call-data record per local day, no two records of a page of
    the employee's own listings share a date: the dates of a page
    strictly descend, so the order of a listing does not depend on how
    the sort treats ties. *)
Theorem my_listings_have_no_ties
    (clk : Clock) (actor : Actor) (page limit : positive)
    (month year : option Z)
    (att : list Attendance.t) (calls : list CallData.t) :
  onePerDay Attendance._id Attendance.employee Attendance.date (tz clk) att ->
  onePerDay CallData._id CallData.employee CallData.date (tz clk) calls ->
  StronglySorted (fun a b => Attendance.date b < Attendance.date a)
    (Query.records
       (AttendanceQueries.myRoute true clk actor page limit month year att))
  /\ StronglySorted (fun a b => CallData.date b < CallData.date a)
       (Query.records
          (CallQueries.myRoute clk actor page limit month year calls)).
Proof.
  assert (Hwin : forall (A : Type) (R : A -> A -> Prop) (s n : nat)
                        (l : list A),
             StronglySorted R l -> StronglySorted R (Query.window s n l)).
  { intros A R s n l Hs. unfold Query.window.
    assert (Hskip : forall k (m : list A),
               StronglySorted R m -> StronglySorted R (skipn k m)).
    { induction k as [|k IH]; intros m Hm; [exact Hm|].
      destruct m as [|x xs]; [constructor|].
      simpl. apply IH. now inversion Hm. }
    assert (Hfirst : forall k (m : list A),
               StronglySorted R m -> StronglySorted R (firstn k m)).
    { induction k as [|k IH]; intros m Hm; [constructor|].
      destruct m as [|x xs]; [constructor|].
      simpl. inversion Hm as [|? ? Hxs Hx]; subst.
      constructor; [now apply IH|].
      rewrite Forall_forall in *. intros y Hy. apply Hx.
      rewrite <- (firstn_skipn k xs). apply in_or_app. now left. }
    now apply Hfirst, Hskip. }
  intros Hatt Hcalls. split.
  - unfold AttendanceQueries.myRoute.
    destruct (Query.monthRange (tz clk) month year) as [inRange|];
      [|constructor].
    simpl. apply Hwin.
    apply (own_listing_strict Attendance._id Attendance.employee
             Attendance.date (tz clk) (actorId actor) inRange att Hatt).
  - unfold CallQueries.myRoute.
    destruct (Query.monthRange (tz clk) month year) as [inRange|];
      [|constructor].
    simpl. apply Hwin.
    apply (own_listing_strict CallData._id CallData.employee
             CallData.date (tz clk) (actorId actor) inRange calls Hcalls).
Qed.

Lemma my_listings_have_no_ties_witness :
  StronglySorted (fun a b => Attendance.date b < Attendance.date a)
    (Query.records
       (AttendanceQueries.myRoute true Examples.clock Examples.staff 1 10
          None None Reports.january)).
Proof.
  apply (my_listings_have_no_ties Examples.clock Examples.staff 1 10
           None None Reports.january Reports.call_sheet).
  - one_per_day.
  - one_per_day.
Defined.

(** A date built from calendar fields is a local midnight. *)
Lemma newDate_Some (tz year month date t : Z) :
  Calendar.newDate tz year month date = Some t ->
  exists day, t = day * 86400000 - tz.
Proof.
  unfold Calendar.newDate, Calendar.TimeClip, JS.msPerDay. cbv zeta.
  destruct (Z.abs _ <=? _); [|discriminate].
  intros [= <-]. eexists. reflexivity.
Qed.

(** A date at a local midnight that is before the next midnight after
    [e], itself a local midnight, is at most [e]. *)
Lemma midnight_before_next (tz day d : Z) :
  atMidnight tz d -> d < day * 86400000 - tz + 86400000 ->
  d <= day * 86400000 - tz.
Proof.
  unfold atMidnight. rewrite setHours0_div. intros Hd Hlt.
  set (q := (d + tz) / 86400000) in *. lia.
Qed.

Section MonthFilter.

(** X20. The month filter of the attendance listing ends at the
    first instant of the month's last day, and a clock-in record is
    dated at the instant of the clock-in: an employee who clocks in
    on the last day of a month, after local midnight, finds the new
    record on a page of the unfiltered listing and on no page of the
    listing of that month. *)
Theorem month_listing_misses_last_day_clock_in
    (clk : Clock) (actor : Actor) (month year endDate : Z)
    (db : list Attendance.t) :
  Calendar.newDate (tz clk) year month 0 = Some endDate ->
  endDate < now clk < endDate + 86400000 ->
  findOne (AttendanceRoutes.ofDay (actorId actor)
             (JS.setHours0 (tz clk) (now clk))) db = None ->
  let db' := snd (AttendanceLifecycle.clockInRoute true clk actor db) in
  exists r,
    In r db'
    /\ Attendance.employee r = actorId actor
    /\ Attendance.clockIn r = Some (now clk)
    /\ (forall limit, exists page,
           In r (Query.records
                   (AttendanceQueries.myRoute true clk actor page limit
                      None None db')))
    /\ (forall page limit,
           ~ In r (Query.records
                     (AttendanceQueries.myRoute true clk actor page limit
                        (Some month) (Some year) db'))).
Proof.
  intros Hend Hnow Hnone db'.
  unfold db'. rewrite (clockIn_appends clk actor db Hnone). simpl snd.
  set (r := Attendance.mk (freshId Attendance._id db) (actorId actor)
              (now clk) (Some (now clk)) None None None 0 0
              Attendance.Present).
  exists r. repeat match goal with |- _ /\ _ => split end.
  - apply in_or_app. right. now left.
  - reflexivity.
  - reflexivity.
  - intros limit.
    set (mine := fun x : Attendance.t =>
                   (Attendance.employee x =? actorId actor)%nat && true).
    assert (Hin : In r (Query.sortBy AttendanceQueries.byDateDesc
                          (filter mine (db ++ [r])))).
    { apply (Permutation_in _ (Permutation_sym (sortBy_perm _ _))).
      apply filter_In. split; [apply in_or_app; right; now left|].
      unfold mine. simpl. now rewrite Nat.eqb_refl. }
    rewrite <- (listing_pages_cover _ limit) in Hin.
    apply In_pages in Hin. destruct Hin as (page & Hin).
    exists page. exact Hin.
  - intros page limit Hin.
    unfold AttendanceQueries.myRoute, Query.monthRange in Hin.
    rewrite Hend in Hin.
    destruct (Calendar.newDate (tz clk) year (month - 1) 1) as [s|];
      [|contradiction].
    simpl in Hin. apply In_window in Hin.
    apply (Permutation_in _ (sortBy_perm _ _)) in Hin.
    apply filter_In in Hin. destruct Hin as [_ Hq].
    apply andb_true_iff in Hq. destruct Hq as [_ Hq].
    apply andb_true_iff in Hq. destruct Hq as [_ Hq].
    apply Z.leb_le in Hq. simpl in Hq. lia.
Qed.

Lemma month_listing_misses_last_day_clock_in_witness :
  Calendar.newDate 0 2024 1 0 = Some 1706659200000
  /\ exists r,
       In r (snd (AttendanceLifecycle.clockInRoute true Reports.month_end
                    Examples.staff Reports.january))
       /\ Attendance.clockIn r = Some (now Reports.month_end)
       /\ forall page limit,
            ~ In r (Query.records
                      (AttendanceQueries.myRoute true Reports.month_end
                         Examples.staff page limit (Some 1) (Some 2024)
                         (snd (AttendanceLifecycle.clockInRoute true
                                 Reports.month_end Examples.staff
                                 Reports.january)))).
Proof.
  split; [reflexivity|].
  destruct (month_listing_misses_last_day_clock_in Reports.month_end
              Examples.staff 1 2024 1706659200000 Reports.january
              eq_refl (conj eq_refl eq_refl) eq_refl)
    as (r & Hin & _ & Hci & _ & Hout).
  exists r. repeat split; assumption.
Defined.

(** X21. Call-data records are dated at a local midnight, and for
    such records the month filter of the call-data listing is exact:
    the pages of the listing of a month hold the employee's records
    dated from the first day of the month up to, and including, its
    last day, and no others. *)
Theorem call_month_listing_is_the_month
    (clk : Clock) (actor : Actor) (limit : positive)
    (month year startDate endDate : Z) (db : list CallData.t) :
  Calendar.newDate (tz clk) year (month - 1) 1 = Some startDate ->
  Calendar.newDate (tz clk) year month 0 = Some endDate ->
  Forall (fun r => atMidnight (tz clk) (CallData.date r)) db ->
  forall r,
    (exists page,
        In r (Query.records
                (CallQueries.myRoute clk actor page limit
                   (Some month) (Some year) db)))
    <-> In r db
        /\ CallData.employee r = actorId actor
        /\ startDate <= CallData.date r < endDate + 86400000.
Proof.
  intros Hstart Hend Hmid r.
  set (mine := fun x : CallData.t =>
                 (CallData.employee x =? actorId actor)%nat
                 && ((startDate <=? CallData.date x)
                     && (CallData.date x <=? endDate))).
  assert (Hanswer : forall page,
    Query.records
      (CallQueries.myRoute clk actor page limit (Some month) (Some year) db)
    = Query.window (Query.skipOf page limit) (Pos.to_nat limit)
        (Query.sortBy CallQueries.byDateDesc (filter mine db))).
  { intros page. unfold CallQueries.myRoute, Query.monthRange.
    rewrite Hstart, Hend. reflexivity. }
  split.
  - intros (page & Hin). rewrite Hanswer in Hin.
    apply In_window in Hin.
    apply (Permutation_in _ (sortBy_perm _ _)) in Hin.
    apply filter_In in Hin. destruct Hin as [Hdb Hq].
    unfold mine in Hq. rewrite !andb_true_iff in Hq.
    destruct Hq as (He & Hs & Hle).
    apply Nat.eqb_eq in He. apply Z.leb_le in Hs, Hle.
    repeat split; try assumption; lia.
  - intros (Hdb & He & Hs & Hlt).
    assert (Hle : CallData.date r <= endDate).
    { destruct (newDate_Some _ _ _ _ _ Hend) as (day & ->).
      apply midnight_before_next; [|exact Hlt].
      rewrite Forall_forall in Hmid. now apply Hmid. }
    assert (Hin : In r (Query.sortBy CallQueries.byDateDesc
                          (filter mine db))).
    { apply (Permutation_in _ (Permutation_sym (sortBy_perm _ _))).
      apply filter_In. split; [exact Hdb|].
      unfold mine. rewrite !andb_true_iff, Nat.eqb_eq, !Z.leb_le. tauto. }
    rewrite <- (listing_pages_cover _ limit) in Hin.
    apply In_pages in Hin. destruct Hin as (page & Hin).
    exists page. now rewrite Hanswer.
Qed.

Lemma call_month_listing_is_the_month_witness :
  Forall (fun r => atMidnight 0 (CallData.date r)) Reports.call_sheet
  /\ exists page,
       In (Examples.calls 1 7 2 183)
         (Query.records
            (CallQueries.myRoute Examples.clock Examples.staff page 10
               (Some 1) (Some 2024) Reports.call_sheet)).
Proof.
  assert (H : Forall (fun r => atMidnight 0 (CallData.date r))
                Reports.call_sheet)
    by (repeat constructor).
  split; [exact H|].
  apply (call_month_listing_is_the_month Examples.clock Examples.staff 10
           1 2024 1704067200000 1706659200000 Reports.call_sheet
           eq_refl eq_refl H).
  split; [now left|]. split; [reflexivity|]. split; [discriminate|reflexivity].
Defined.

End MonthFilter.

Section CallDates.
Import CallData.

Lemma call_save_Forall (P : t -> Prop) (db : list t) (r r' : t)
    (db' : list t) :
  Forall P db -> P (pre_save r) -> save db r = Ok (r', db') -> Forall P db'.
Proof.
  intros Hdb Hr Hs. apply save_Ok_pre_save in Hs.
  destruct Hs as (_ & -> & ->). now apply store_Forall.
Qed.

(** X22. Every call-data record is dated at a local midnight of the
    host: if it is so for the stored records, it is still so after
    any request to the report, update or delete route, whatever date
    the body of a report names. *)
Theorem call_routes_keep_dates_at_midnight
    (clk : Clock) (actor : Actor) (id : Id) (cb : CallRoutes.CreateBody)
    (ub : CallRoutes.UpdateBody) (att : list Attendance.t) (db : list t) :
  let inv := Forall (fun r => atMidnight (tz clk) (date r)) in
  inv db ->
  inv (snd (CallRoutes.createRoute clk actor cb att db))
  /\ inv (snd (CallRoutes.updateRoute clk actor id ub att db))
  /\ inv (snd (CallAccess.deleteRoute clk actor id att db)).
Proof.
  intros inv Hdb. unfold inv in *.
  repeat match goal with |- _ /\ _ => split end.
  - unfold CallRoutes.createRoute. cbv zeta.
    destruct (CallRoutes.c_totalCalls cb); [|assumption].
    destruct (CallRoutes.c_totalCallTime cb); [|assumption].
    destruct (CallRoutes.c_interestedStudents cb); [|assumption].
    destruct (CallRoutes.c_visitedToday cb); [|assumption].
    destruct (CallRoutes.c_employee cb);
      try destruct (isAdmin (role actor)); try assumption;
      (destruct (_ && _); [assumption|]);
      match goal with
      | |- context [save db ?x] =>
          destruct (save db x) as [[r' db']|[]] eqn:E
      end; simpl; try assumption;
      (eapply call_save_Forall; [exact Hdb| |exact E]);
      (destruct (findOne _ db) as [own|] eqn:Hf;
       [apply findOne_Some in Hf; destruct Hf as [Hown _];
        rewrite Forall_forall in Hdb; specialize (Hdb own Hown);
        destruct (CallRoutes.c_notes cb); exact Hdb
       |apply setHours0_idempotent]).
  - unfold CallRoutes.updateRoute. cbv zeta.
    destruct (findById _id id db) as [own|] eqn:Hf; [|assumption].
    destruct (findById_id _ _ _ _ Hf) as [Hown _].
    destruct (_ && _); [assumption|].
    destruct (_ && _); [assumption|].
    match goal with
    | |- context [save db ?x] =>
        destruct (save db x) as [[r' db']|] eqn:E
    end; simpl; try assumption.
    eapply call_save_Forall; [exact Hdb| |exact E].
    rewrite Forall_forall in Hdb. specialize (Hdb own Hown).
    unfold CallRoutes.assign.
    destruct (CallRoutes.u_totalCalls ub),
             (CallRoutes.u_totalCallTime ub),
             (CallRoutes.u_interestedStudents ub),
             (CallRoutes.u_visitedToday ub),
             (CallRoutes.u_notes ub); exact Hdb.
  - unfold CallAccess.deleteRoute. cbv zeta.
    destruct (findById _id id db); [|assumption].
    destruct (_ && _); [assumption|].
    destruct (_ && _); [assumption|].
    simpl. now apply deleteOne_Forall.
Qed.

Lemma call_routes_keep_dates_at_midnight_witness :
  Forall (fun r => atMidnight 0 (CallData.date r))
    (snd (CallRoutes.createRoute Scenarios.an_hour_later Examples.staff
            Scenarios.first_report [Examples.clocked_in]
            Reports.call_sheet)).
Proof.
  apply (call_routes_keep_dates_at_midnight Scenarios.an_hour_later
           Examples.staff 1%nat Scenarios.first_report Examples.more_visits
           [Examples.clocked_in] Reports.call_sheet).
  repeat constructor.
Defined.

End CallDates.

Section AttendanceToday.
Import Attendance.

(** X23. Before the first clock-in of the day the today route shows
    no record; after it, any request to the today route on that local
    day, with or without a date of that day in the query, shows the
    record of the clock-in. *)
Theorem today_shows_the_clock_in
    (clk later : Clock) (actor : Actor) (date : option Z) (db : list t) :
  findOne (AttendanceRoutes.ofDay (actorId actor)
             (JS.setHours0 (tz clk) (now clk))) db = None ->
  tz later = tz clk ->
  JS.setHours0 (tz clk) (match date with Some d => d | None => now later end)
  = JS.setHours0 (tz clk) (now clk) ->
  AttendanceQueries.todayRoute true clk actor None db = None
  /\ AttendanceQueries.todayRoute true later actor date
       (snd (AttendanceLifecycle.clockInRoute true clk actor db))
     = Some (mk (freshId _id db) (actorId actor) (now clk) (Some (now clk))
               None None None 0 0 Present).
Proof.
  intros Hnone Htz Hday. split.
  - exact Hnone.
  - rewrite (clockIn_appends clk actor db Hnone). simpl snd.
    unfold AttendanceQueries.todayRoute.
    rewrite Htz, Hday, findOne_app, Hnone.
    now rewrite clockIn_record_of_today.
Qed.

Lemma today_shows_the_clock_in_witness :
  AttendanceQueries.todayRoute true Examples.clock Examples.staff None []
  = None
  /\ AttendanceQueries.todayRoute true Scenarios.an_hour_later
       Examples.staff None
       (snd (AttendanceLifecycle.clockInRoute true Examples.clock
               Examples.staff []))
     = Some Scenarios.arrival.
Proof.
  exact (today_shows_the_clock_in Examples.clock Scenarios.an_hour_later
           Examples.staff None [] eq_refl eq_refl eq_refl).
Defined.

End AttendanceToday.

(** ** The call-data router: performance statistics *)

Section PerformanceFacts.
Import Performance.

Lemma sumOf_app {A : Type} (f : A -> Q) (l l' : list A) :
  (sumOf f (l ++ l') == sumOf f l + sumOf f l')%Q.
Proof.
  induction l as [|x xs IH]; simpl; [ring|]. rewrite IH. ring.
Qed.

Lemma sumOf_perm {A : Type} (f : A -> Q) (l l' : list A) :
  Permutation l l' -> (sumOf f l == sumOf f l')%Q.
Proof.
  induction 1 as [|x l l' _ IH|x y l|l l' l'' _ IH1 _ IH2]; simpl.
  - reflexivity.
  - now rewrite IH.
  - ring.
  - now rewrite IH1.
Qed.

Lemma fold_sum_shift (f : Row -> Q) (rows : list Row) (a : Q) :
  (fold_left (fun sum p => sum + f p) rows a == a + sumOf f rows)%Q.
Proof.
  revert a. induction rows as [|x xs IH]; intros a; simpl; [ring|].
  rewrite IH. ring.
Qed.

Lemma reduceSum_sumOf (f : Row -> Q) (rows : list Row) :
  (reduceSum f rows == sumOf f rows)%Q.
Proof. unfold reduceSum. rewrite fold_sum_shift. ring. Qed.

Lemma group_snoc (records : list CallData.t) (r : CallData.t) :
  group (records ++ [r]) = tally r (group records).
Proof. unfold group. now rewrite fold_left_app. Qed.

(** The keys of [performanceData] after one more record. *)
Lemma tally_keys (r : CallData.t) (data : list Row) :
  map employee (tally r data)
  = if existsb (Nat.eqb (CallData.employee r)) (map employee data)
    then map employee data
    else map employee data ++ [CallData.employee r].
Proof.
  induction data as [|row rest IH]; simpl; [reflexivity|].
  rewrite (Nat.eqb_sym (CallData.employee r)).
  destruct (employee row =? CallData.employee r)%nat; simpl; [reflexivity|].
  rewrite IH. now destruct (existsb _ _).
Qed.

Lemma tally_NoDup (r : CallData.t) (data : list Row) :
  NoDup (map employee data) -> NoDup (map employee (tally r data)).
Proof.
  intros H. rewrite tally_keys.
  destruct (existsb _ _) eqn:E; [exact H|].
  apply NoDup_app_iff_fresh; [exact H|].
  intros Hin.
  assert (existsb (Nat.eqb (CallData.employee r)) (map employee data) = true).
  { apply existsb_exists. eexists. split; [exact Hin|apply Nat.eqb_refl]. }
  congruence.
Qed.

Lemma group_NoDup (records : list CallData.t) :
  NoDup (map employee (group records)).
Proof.
  induction records as [|r rs IH] using rev_ind; [constructor|].
  rewrite group_snoc. now apply tally_NoDup.
Qed.

(** The entry of an employee after one more record. *)
Lemma tally_find (e : Id) (r : CallData.t) (data : list Row) :
  findOne (fun row => (employee row =? e)%nat) (tally r data)
  = if (CallData.employee r =? e)%nat then
      Some (accumulate r
              match findOne (fun row => (employee row =? e)%nat) data with
              | Some row => row
              | None => fresh e
              end)
    else findOne (fun row => (employee row =? e)%nat) data.
Proof.
  unfold findOne.
  induction data as [|row rest IH]; simpl.
  - destruct (CallData.employee r =? e)%nat eqn:E; [|reflexivity].
    apply Nat.eqb_eq in E. now subst.
  - destruct (employee row =? CallData.employee r)%nat eqn:E1; simpl.
    + apply Nat.eqb_eq in E1. rewrite E1.
      destruct (CallData.employee r =? e)%nat; reflexivity.
    + destruct (employee row =? e)%nat eqn:E2.
      * apply Nat.eqb_eq in E2. apply Nat.eqb_neq in E1.
        destruct (CallData.employee r =? e)%nat eqn:E3; [|reflexivity].
        apply Nat.eqb_eq in E3. congruence.
      * exact IH.
Qed.

(** What the entry of employee [e] holds after the loop: nothing when
    [e] has no record, else the sums over the records of [e]. *)
Lemma group_find (e : Id) (records : list CallData.t) :
  let own := filter (fun r => (CallData.employee r =? e)%nat) records in
  match findOne (fun row => (employee row =? e)%nat) (group records) with
  | Some row => own <> [] /\ totalsOf e own row
  | None => own = []
  end.
Proof.
  induction records as [|r rs IH] using rev_ind; [reflexivity|].
  cbv zeta in *. rewrite group_snoc, tally_find, filter_app. simpl.
  destruct (CallData.employee r =? e)%nat eqn:E.
  - set (own := filter _ rs) in *.
    split; [now destruct own|].
    assert (Hprev : totalsOf e own
                      match findOne (fun row => (employee row =? e)%nat)
                              (group rs) with
                      | Some row => row
                      | None => fresh e
                      end).
    { destruct (findOne _ (group rs)) as [row|].
      - apply IH.
      - rewrite IH. repeat split; reflexivity. }
    destruct Hprev as (H0 & H1 & H2 & H3 & H4 & H5 & H6).
    unfold totalsOf. simpl.
    rewrite !sumOf_app, length_app, H1, H2, H3, H4, H5, H6. simpl.
    repeat split; try ring. exact H0.
  - rewrite app_nil_r. exact IH.
Qed.

Lemma find_of_NoDup (rows : list Row) (row : Row) :
  NoDup (map employee rows) -> In row rows ->
  findOne (fun x => (employee x =? employee row)%nat) rows = Some row.
Proof.
  unfold findOne. induction rows as [|x xs IH]; simpl; [contradiction|].
  intros Hnd [->|Hin]; [now rewrite Nat.eqb_refl|].
  inversion Hnd as [|? ? Hnotin Hnd']; subst.
  destruct (employee x =? employee row)%nat eqn:E; [|now apply IH].
  apply Nat.eqb_eq in E. exfalso. apply Hnotin. rewrite E.
  now apply in_map.
Qed.


Lemma byScore_asym (x y : Row) :
  byScoreDesc x y = true -> byScoreDesc y x = false.
Proof.
  unfold byScoreDesc. rewrite gt_true, gt_false. intros H. lra.
Qed.

Lemma byScore_trans (x y z : Row) :
  byScoreDesc x y = false -> byScoreDesc y z = false ->
  byScoreDesc x z = false.
Proof.
  unfold byScoreDesc. rewrite !gt_false. intros H1 H2. lra.
Qed.

(** The answer of the statistics route to an administrator whose
    month filter, if any, names valid dates. *)
Lemma statsRoute_admin
    (clk : Clock) (actor : Actor) (month year : option Z)
    (department : option Employee.Department) (inRange : Z -> bool)
    (employees : list Employee.t) (db : list CallData.t) :
  isAdmin (role actor) = true ->
  Query.monthRange (tz clk) month year = Some inRange ->
  let selected :=
    filter (fun r =>
              existsb (Nat.eqb (CallData.employee r))
                (map Employee._id (filter (tracked department) employees))
              && inRange (CallData.date r)) db in
  exists stats,
    statsRoute clk actor month year department employees db
    = (mkResponse 200 "", Some stats)
    /\ performanceData stats = Query.sortBy byScoreDesc (group selected)
    /\ topPerformer stats = hd_error (performanceData stats)
    /\ totalEmployeesTracked (overallStats stats)
       = List.length (performanceData stats)
    /\ overallCalls (overallStats stats)
       = reduceSum totalCalls (performanceData stats)
    /\ overallCallTime (overallStats stats)
       = reduceSum totalCallTime (performanceData stats)
    /\ overallInterestedStudents (overallStats stats)
       = reduceSum totalInterestedStudents (performanceData stats)
    /\ overallVisited (overallStats stats)
       = reduceSum totalVisited (performanceData stats).
Proof.
  intros Hadmin Hrange selected.
  unfold statsRoute. rewrite Hadmin, Hrange. simpl negb. cbv iota zeta.
  fold selected.
  eexists. split; [reflexivity|]. simpl.
  repeat split.
Qed.

(** X24. The performance statistics hold one entry per employee
    with call data among the selected records (those of the active
    employees, of the department asked for, that pass the month
    filter), and the entry of an employee holds the number of the
    employee's selected records and the sums of their counters and of
    their scores. *)
Theorem performance_rows_total_each_employee
    (clk : Clock) (actor : Actor) (month year : option Z)
    (department : option Employee.Department) (inRange : Z -> bool)
    (employees : list Employee.t) (db : list CallData.t) :
  isAdmin (role actor) = true ->
  Query.monthRange (tz clk) month year = Some inRange ->
  let selected :=
    filter (fun r =>
              existsb (Nat.eqb (CallData.employee r))
                (map Employee._id (filter (tracked department) employees))
              && inRange (CallData.date r)) db in
  exists stats,
    snd (statsRoute clk actor month year department employees db)
    = Some stats
    /\ NoDup (map employee (performanceData stats))
    /\ (forall r, In r selected ->
          exists row, In row (performanceData stats)
                      /\ employee row = CallData.employee r)
    /\ (forall row, In row (performanceData stats) ->
          let own :=
            filter (fun r => (CallData.employee r =? employee row)%nat)
              selected in
          own <> [] /\ totalsOf (employee row) own row).
Proof.
  intros Hadmin Hrange selected.
  destruct (statsRoute_admin clk actor month year department inRange
              employees db Hadmin Hrange) as (stats & Hs & Hdata & _).
  fold selected in Hdata.
  pose proof (sortBy_perm byScoreDesc (group selected)) as Hperm.
  assert (Hnd : NoDup (map employee (Query.sortBy byScoreDesc
                                       (group selected)))).
  { apply (Permutation_NoDup
             (Permutation_map employee (Permutation_sym Hperm))).
    apply group_NoDup. }
  exists stats. rewrite Hs, Hdata. simpl snd.
  split; [reflexivity|]. split; [exact Hnd|]. split.
  - intros r Hr.
    pose proof (group_find (CallData.employee r) selected) as Hg.
    cbv zeta in Hg.
    destruct (findOne _ (group selected)) as [row|] eqn:Hf.
    + apply findOne_Some in Hf. destruct Hf as [Hin He].
      apply Nat.eqb_eq in He. exists row. split; [|exact He].
      now apply (Permutation_in _ (Permutation_sym Hperm)).
    + exfalso.
      assert (Hin : In r (filter (fun x => (CallData.employee x
                                            =? CallData.employee r)%nat)
                            selected)).
      { apply filter_In. split; [exact Hr|apply Nat.eqb_refl]. }
      rewrite Hg in Hin. contradiction.
  - intros row Hrow. cbv zeta.
    apply (Permutation_in _ Hperm) in Hrow.
    pose proof (group_find (employee row) selected) as Hg.
    cbv zeta in Hg.
    rewrite (find_of_NoDup _ _ (group_NoDup selected) Hrow) in Hg.
    exact Hg.
Qed.

Lemma performance_rows_total_each_employee_witness :
  exists stats,
    snd (Performance.statsRoute Examples.clock Examples.boss None None None
           Reports.staffing Reports.call_sheet) = Some stats
    /\ NoDup (map Performance.employee (Performance.performanceData stats)).
Proof.
  destruct (performance_rows_total_each_employee Examples.clock
              Examples.boss None None None (fun _ => true)
              Reports.staffing Reports.call_sheet eq_refl eq_refl)
    as (stats & Hs & Hnd & _).
  exists stats. split; assumption.
Defined.

(** The total of an additive column over [performanceData]. *)
Lemma group_sum (f : Row -> Q) (g : CallData.t -> Q)
    (records : list CallData.t) :
  (forall e, f (fresh e) == 0)%Q ->
  (forall r row, f (accumulate r row) == f row + g r)%Q ->
  (sumOf f (group records) == sumOf g records)%Q.
Proof.
  intros Hfresh Hacc.
  assert (Htally : forall r data,
             (sumOf f (tally r data) == sumOf f data + g r)%Q).
  { intros r data. induction data as [|row rest IH]; simpl.
    - rewrite Hacc, Hfresh. ring.
    - destruct (employee row =? CallData.employee r)%nat; simpl.
      + rewrite Hacc. ring.
      + rewrite IH. ring. }
  induction records as [|r rs IH] using rev_ind; [reflexivity|].
  rewrite group_snoc, Htally, IH, sumOf_app. simpl. ring.
Qed.

(** X25. The overall figures of the performance statistics are the
    sums of the counters over all selected records, whatever their
    grouping by employee and the order of the entries, and the number
    of employees tracked is the number of entries. *)
Theorem performance_overall_totals_are_sums
    (clk : Clock) (actor : Actor) (month year : option Z)
    (department : option Employee.Department) (inRange : Z -> bool)
    (employees : list Employee.t) (db : list CallData.t) :
  isAdmin (role actor) = true ->
  Query.monthRange (tz clk) month year = Some inRange ->
  let selected :=
    filter (fun r =>
              existsb (Nat.eqb (CallData.employee r))
                (map Employee._id (filter (tracked department) employees))
              && inRange (CallData.date r)) db in
  exists stats,
    snd (statsRoute clk actor month year department employees db)
    = Some stats
    /\ totalEmployeesTracked (overallStats stats)
       = List.length (performanceData stats)
    /\ (overallCalls (overallStats stats)
        == sumOf CallData.totalCalls selected)%Q
    /\ (overallCallTime (overallStats stats)
        == sumOf CallData.totalCallTime selected)%Q
    /\ (overallInterestedStudents (overallStats stats)
        == sumOf CallData.interestedStudents selected)%Q
    /\ (overallVisited (overallStats stats)
        == sumOf CallData.visitedToday selected)%Q.
Proof.
  intros Hadmin Hrange selected.
  destruct (statsRoute_admin clk actor month year department inRange
              employees db Hadmin Hrange)
    as (stats & Hs & Hdata & _ & Hn & Hc & Ht & Hi & Hv).
  fold selected in Hdata.
  pose proof (sortBy_perm byScoreDesc (group selected)) as Hperm.
  exists stats. rewrite Hs, Hn, Hc, Ht, Hi, Hv, Hdata. simpl snd.
  split; [reflexivity|]. split; [reflexivity|].
  repeat match goal with |- _ /\ _ => split end;
    rewrite reduceSum_sumOf, (sumOf_perm _ _ _ Hperm);
    apply group_sum; intros; simpl; try reflexivity; ring.
Qed.

Lemma performance_overall_totals_are_sums_witness :
  exists stats,
    snd (Performance.statsRoute Examples.clock Examples.boss None None None
           Reports.staffing Reports.call_sheet) = Some stats
    /\ (Performance.overallCalls (Performance.overallStats stats) == 40)%Q.
Proof.
  destruct (performance_overall_totals_are_sums Examples.clock
              Examples.boss None None None (fun _ => true)
              Reports.staffing Reports.call_sheet eq_refl eq_refl)
    as (stats & Hs & _ & Hc & _).
  exists stats. split; [exact Hs|]. rewrite Hc. reflexivity.
Defined.



(** X27. The entries of the performance statistics come in
    descending order of score, and the top performer is the first of
    them: no entry has a higher score, and there is none exactly when
    no record is selected. *)
Theorem top_performer_is_maximal
    (clk : Clock) (actor : Actor) (month year : option Z)
    (department : option Employee.Department) (inRange : Z -> bool)
    (employees : list Employee.t) (db : list CallData.t) :
  isAdmin (role actor) = true ->
  Query.monthRange (tz clk) month year = Some inRange ->
  let selected :=
    filter (fun r =>
              existsb (Nat.eqb (CallData.employee r))
                (map Employee._id (filter (tracked department) employees))
              && inRange (CallData.date r)) db in
  exists stats,
    snd (statsRoute clk actor month year department employees db)
    = Some stats
    /\ StronglySorted
         (fun a b => (performanceScore b <= performanceScore a)%Q)
         (performanceData stats)
    /\ (topPerformer stats = None <-> selected = [])
    /\ (forall top, topPerformer stats = Some top ->
          In top (performanceData stats)
          /\ forall row, In row (performanceData stats) ->
                         (performanceScore row <= performanceScore top)%Q).
Proof.
  intros Hadmin Hrange selected.
  destruct (statsRoute_admin clk actor month year department inRange
              employees db Hadmin Hrange)
    as (stats & Hs & Hdata & Htop & _).
  fold selected in Hdata.
  pose proof (sortBy_perm byScoreDesc (group selected)) as Hperm.
  assert (Hsorted : StronglySorted
                      (fun a b => (performanceScore b
                                   <= performanceScore a)%Q)
                      (performanceData stats)).
  { rewrite Hdata.
    apply (StronglySorted_weaken (fun a b => byScoreDesc a b = false)).
    - intros a b. unfold byScoreDesc. rewrite gt_false. intros H. lra.
    - apply sortBy_sorted; [apply byScore_asym|apply byScore_trans]. }
  exists stats. rewrite Hs. simpl snd.
  split; [reflexivity|]. split; [exact Hsorted|]. split.
  - rewrite Htop, Hdata. split.
    + intros Hnone.
      destruct selected as [|r rs] eqn:Esel; [reflexivity|exfalso].
      pose proof (group_find (CallData.employee r) (r :: rs)) as Hg.
      cbv zeta in Hg. simpl filter in Hg. rewrite Nat.eqb_refl in Hg.
      destruct (Query.sortBy byScoreDesc (group (r :: rs))) as [|p ps] eqn:E;
        [|discriminate].
      apply Permutation_nil in Hperm.
      rewrite Hperm in Hg. simpl in Hg. discriminate.
    + intros ->. reflexivity.
  - intros top Ht. rewrite Htop in Ht.
    destruct (performanceData stats) as [|p ps]; [discriminate|].
    injection Ht as ->. split; [now left|].
    intros row [<-|Hrow]; [lra|].
    inversion Hsorted as [|? ? _ Hall]; subst.
    rewrite Forall_forall in Hall. now apply Hall.
Qed.

Lemma top_performer_is_maximal_witness :
  exists stats,
    snd (Performance.statsRoute Examples.clock Examples.boss None None None
           Reports.staffing Reports.call_sheet) = Some stats
    /\ (Performance.topPerformer stats = None -> False).
Proof.
  destruct (top_performer_is_maximal Examples.clock Examples.boss None None
              None (fun _ => true) Reports.staffing Reports.call_sheet
              eq_refl eq_refl)
    as (stats & Hs & _ & Hnone & _).
  exists stats. split; [exact Hs|].
  intros H. apply Hnone in H. discriminate H.
Defined.

End PerformanceFacts.

(** ** Attendance statistics *)

Section AttendanceStats.
Import Attendance.

(** A selection of employees with distinct ids has distinct ids. *)
Lemma distinct_ids_filter (keep : Employee.t -> bool)
    (employees : list Employee.t) :
  NoDup (map Employee._id employees) ->
  NoDup (map Employee._id (filter keep employees)).
Proof.
  induction employees as [|e rest IH]; simpl; intros Hids; [constructor|].
  inversion Hids as [|? ? Hfresh Hrest]; subst.
  destruct (keep e); simpl; [|now apply IH].
  constructor; [|now apply IH].
  intros Hin. apply Hfresh. apply in_map_iff in Hin.
  destruct Hin as (e' & Hid & Hin). apply filter_In in Hin.
  rewrite <- Hid. apply in_map. tauto.
Qed.

Lemma isToday_sameDay (tz t0 : Z) (r : t) :
  AttendanceQueries.isToday (JS.setHours0 tz t0) r = true
  <-> JS.setHours0 tz (date r) = JS.setHours0 tz t0.
Proof.
  unfold AttendanceQueries.isToday.
  rewrite andb_true_iff, Z.leb_le, Z.ltb_lt, sameDay_range. tauto.
Qed.

(** The records of a day with one of two different statuses are no
    more than the records of the day. *)
Lemma status_counts_le (today : Z) (db : list t) :
  (List.length
     (filter (fun r => AttendanceQueries.isToday today r
                       && AttendanceQueries.hasStatus Present r) db)
   + List.length
       (filter (fun r => AttendanceQueries.isToday today r
                         && AttendanceQueries.hasStatus Late r) db)
   <= List.length (filter (AttendanceQueries.isToday today) db))%nat.
Proof.
  unfold AttendanceQueries.hasStatus.
  induction db as [|x xs IH]; simpl; [lia|].
  destruct (AttendanceQueries.isToday today x); simpl; [|exact IH].
  destruct (status x); simpl; lia.
Qed.

(** X28. While each employee has at most one attendance record per
    day, the employees have distinct ids and today's records all
    belong to active employees, the [absentToday] of the attendance
    statistics is the number of active employees with no record of
    today; and the present and late counts never exceed today's
    count. *)
Theorem absent_count_is_exact
    (clk : Clock) (actor : Actor) (employees : list Employee.t)
    (db : list t) :
  let today := JS.setHours0 (tz clk) (now clk) in
  let recorded (e : Employee.t) :=
    existsb (fun r => AttendanceQueries.isToday today r
                      && (employee r =? Employee._id e)%nat) db in
  isAdmin (role actor) = true ->
  NoDup (map Employee._id employees) ->
  onePerDay _id employee date (tz clk) db ->
  (forall r, In r db -> AttendanceQueries.isToday today r = true ->
             exists e, In e employees /\ Employee.isActive e = true
                       /\ Employee._id e = employee r) ->
  exists stats,
    snd (AttendanceQueries.statsRoute clk actor employees db) = Some stats
    /\ AttendanceQueries.absentToday stats
       = Z.of_nat
           (List.length
              (filter (fun e => negb (recorded e))
                 (filter Employee.isActive employees)))
    /\ (AttendanceQueries.presentToday stats
        + AttendanceQueries.lateToday stats
        <= AttendanceQueries.todayAttendance stats)%nat.
Proof.
  intros today recorded Hadmin Hids [Hnd Hone] Hactive.
  unfold AttendanceQueries.statsRoute. rewrite Hadmin. simpl negb.
  cbv iota zeta. fold today.
  eexists. split; [reflexivity|]. simpl.
  split; [|apply status_counts_le].
  set (active := filter Employee.isActive employees).
  set (todays := filter (AttendanceQueries.isToday today) db).
  assert (Hlen : List.length todays
                 = List.length (filter recorded active)).
  { rewrite <- (length_map employee todays).
    rewrite <- (length_map Employee._id (filter recorded active)).
    apply Permutation_length, NoDup_Permutation.
    - apply Finite.Injective_map_NoDup_in.
      + intros x y Hx Hy He. unfold todays in Hx, Hy.
        apply filter_In in Hx, Hy.
        destruct Hx as [Hx Htx], Hy as [Hy Hty].
        apply Hone; [exact Hx|exact Hy|]. split; [exact He|].
        unfold today in Htx, Hty. apply isToday_sameDay in Htx, Hty.
        congruence.
      + apply NoDup_filter. now apply (NoDup_map_inv _id).
    - unfold active. now do 2 apply distinct_ids_filter.
    - intros i. rewrite !in_map_iff. split.
      + intros (r & <- & Hr). unfold todays in Hr.
        apply filter_In in Hr. destruct Hr as [Hr Ht].
        destruct (Hactive r Hr Ht) as (e & He & Ha & Hid).
        exists e. split; [exact Hid|].
        apply filter_In. split.
        * apply filter_In. now split.
        * unfold recorded. apply existsb_exists. exists r.
          split; [exact Hr|]. rewrite Ht, Hid. simpl. apply Nat.eqb_refl.
      + intros (e & <- & He). apply filter_In in He.
        destruct He as [_ Hrec]. unfold recorded in Hrec.
        apply existsb_exists in Hrec. destruct Hrec as (r & Hr & Hq).
        apply andb_true_iff in Hq. destruct Hq as [Ht Hid].
        apply Nat.eqb_eq in Hid. exists r. split; [exact Hid|].
        apply filter_In. now split. }
  pose proof (filter_length recorded active) as Hsplit.
  rewrite Hlen. lia.
Qed.

Lemma absent_count_is_exact_witness :
  exists stats,
    snd (AttendanceQueries.statsRoute Examples.clock Examples.boss
           Reports.staffing Reports.january) = Some stats
    /\ AttendanceQueries.absentToday stats = 1.
Proof.
  destruct (absent_count_is_exact Examples.clock Examples.boss
              Reports.staffing Reports.january eq_refl)
    as (stats & Hs & Habsent & _).
  - repeat constructor; simpl; intuition discriminate.
  - one_per_day.
  - intros r Hr Ht. simpl in Hr.
    destruct Hr as [<-|[<-|[<-|[]]]]; try discriminate Ht.
    + exists (Employee.mk 7%nat Employee.Sales Employee.Active).
      repeat split; simpl; tauto.
    + exists (Employee.mk 8%nat Employee.Operations Employee.Active).
      repeat split; simpl; tauto.
  - exists stats. split; [exact Hs|]. rewrite Habsent. reflexivity.
Defined.

End AttendanceStats.

(** ** Leaves: what the status of a stored leave tells *)

Section LeaveStatus.
Import Leave.

(** The status, the approver and the approval date [save] writes. *)
Lemma save_approval (clk : Clock) (db : list t) (d : Doc) (r' : t)
    (db' : list t) :
  save clk db d = Ok (r', db') ->
  status r' = status (paths d)
  /\ approvedBy r' = approvedBy (paths d)
  /\ approvedDate r'
     = (if statusModified d && status_eqb (status (paths d)) Approved
        then Some (now clk) else approvedDate (paths d))
  /\ db' = store _id r' db.
Proof.
  intros H. apply save_Ok_inv in H.
  destruct H as (r1 & _ & _ & -> & -> & ->).
  unfold stampApproved, computeTotalDays.
  destruct (startDate (paths d)), (endDate (paths d)); simpl;
    destruct (statusModified d && status_eqb (status (paths d)) Approved);
    repeat split.
Qed.

Lemma save_keeps_consistent (clk : Clock) (db : list t) (d : Doc)
    (r' : t) (db' : list t) :
  Forall approvalConsistent db ->
  save clk db d = Ok (r', db') ->
  status (paths d) <> Cancelled ->
  (status (paths d) = Approved ->
   approvedBy (paths d) <> None
   /\ (statusModified d = true \/ approvedDate (paths d) <> None)) ->
  (status (paths d) <> Approved ->
   approvedBy (paths d) = None /\ approvedDate (paths d) = None) ->
  Forall approvalConsistent db'.
Proof.
  intros Hdb Hs Hc Ha Hn.
  apply save_approval in Hs. destruct Hs as (Hst & Hby & Hdate & ->).
  apply store_Forall; [|exact Hdb].
  unfold approvalConsistent. rewrite Hst, Hby, Hdate.
  split; [exact Hc|]. split.
  - intros E. destruct (Ha E) as [H1 H2]. split; [exact H1|].
    rewrite E. simpl. rewrite andb_true_r.
    destruct (statusModified d); [discriminate|].
    destruct H2 as [H2|H2]; [discriminate|exact H2].
  - intros E. destruct (Hn E) as [H1 H2]. split; [exact H1|].
    replace (status_eqb (status (paths d)) Approved) with false.
    + now rewrite andb_false_r.
    + symmetry. destruct (status (paths d)); try reflexivity.
      now contradiction E.
Qed.

(** X29. The status of a stored leave tells whether it was approved:
    no stored leave is Cancelled, an Approved one carries its approver
    and its approval date, and any other carries neither.  If it is so
    for the stored leaves, it is still so after any request to the
    create, approve, reject, update or cancel route. *)
Theorem leave_routes_keep_approval_consistent
    (connected : bool) (clk : Clock) (actor : Actor) (id : Id)
    (c : option string) (cb : LeaveRoutes.CreateBody)
    (ub : LeaveRoutes.UpdateBody) (db : list t) :
  Forall approvalConsistent db ->
  Forall approvalConsistent
    (snd (LeaveRoutes.createRoute connected clk actor cb db))
  /\ Forall approvalConsistent
       (snd (LeaveRoutes.approveRoute connected clk actor id c db))
  /\ Forall approvalConsistent
       (snd (LeaveRoutes.rejectRoute connected clk actor id c db))
  /\ Forall approvalConsistent
       (snd (LeaveRoutes.updateRoute clk actor id ub db))
  /\ Forall approvalConsistent (snd (LeaveAccess.deleteRoute actor id db)).
Proof.
  intros Hdb.
  assert (Hstored : forall i l,
             findById _id i db = Some l -> approvalConsistent l).
  { intros i l Hf. destruct (findById_id _ _ _ _ Hf) as [Hin _].
    rewrite Forall_forall in Hdb. now apply Hdb. }
  repeat match goal with |- _ /\ _ => split end.
  - unfold LeaveRoutes.createRoute. cbv zeta.
    repeat break_match; simpl; try assumption.
    eapply save_keeps_consistent; [exact Hdb|eassumption| | |]; simpl.
    + discriminate.
    + discriminate.
    + now split.
  - unfold LeaveRoutes.approveRoute. cbv zeta.
    destruct (negb (LeaveRoutes.adminAuth actor)); [assumption|].
    destruct connected; [|assumption].
    destruct (findById _id id db) as [l|] eqn:Hf; [|assumption].
    destruct (negb _) eqn:Hp; [assumption|].
    apply negb_false_iff, status_eqb_eq in Hp. simpl in Hp.
    match goal with
    | |- context [save clk db ?x] =>
        destruct (save clk db x) as [[r' db']|] eqn:E
    end; simpl; [|assumption].
    eapply save_keeps_consistent; [exact Hdb|exact E| | |];
      destruct c; simpl; rewrite ?Hp; simpl;
      try discriminate; try (intros _; split; [discriminate|now left]);
      try (intros H; now contradiction H).
  - unfold LeaveRoutes.rejectRoute. cbv zeta.
    destruct (negb (LeaveRoutes.adminAuth actor)); [assumption|].
    destruct connected; [|assumption].
    destruct (findById _id id db) as [l|] eqn:Hf; [|assumption].
    destruct (negb _) eqn:Hp; [assumption|].
    apply negb_false_iff, status_eqb_eq in Hp. simpl in Hp.
    destruct (Hstored _ _ Hf) as (_ & _ & Hn).
    assert (Hl : approvedBy l = None /\ approvedDate l = None).
    { apply Hn. rewrite Hp. discriminate. }
    match goal with
    | |- context [save clk db ?x] =>
        destruct (save clk db x) as [[r' db']|] eqn:E
    end; simpl; [|assumption].
    eapply save_keeps_consistent; [exact Hdb|exact E| | |];
      destruct c; simpl; try discriminate; intros _; exact Hl.
  - unfold LeaveRoutes.updateRoute. cbv zeta.
    destruct (findById _id id db) as [l|] eqn:Hf; [|assumption].
    destruct (Hstored _ _ Hf) as (Hc & Ha & Hn).
    destruct (_ && _); [assumption|].
    destruct (_ && _); [assumption|].
    destruct (LeaveRoutes.u_startDate ub), (LeaveRoutes.u_endDate ub);
      try destruct (_ <? _); try assumption;
      match goal with
      | |- context [save clk db ?x] =>
          destruct (save clk db x) as [[r' db']|] eqn:E
      end; simpl; try assumption;
      (eapply save_keeps_consistent; [exact Hdb|exact E| | |]);
      destruct (LeaveRoutes.u_type ub), (LeaveRoutes.u_reason ub),
               (LeaveRoutes.u_halfDay ub); simpl;
      try exact Hc; try exact Hn;
      intros H; destruct (Ha H) as [H1 H2]; (split; [exact H1|now right]).
  - unfold LeaveAccess.deleteRoute.
    destruct (findById _id id db); [|assumption].
    destruct (_ && _); [assumption|].
    destruct (_ && _); [assumption|].
    simpl. now apply deleteOne_Forall.
Qed.

Lemma leave_routes_keep_approval_consistent_witness :
  Forall approvalConsistent
    (snd (LeaveRoutes.approveRoute true Examples.clock Examples.boss 2 None
            [Examples.request])).
Proof.
  apply (leave_routes_keep_approval_consistent true Examples.clock
           Examples.boss 2%nat None Scenarios.ask_march
           Examples.move_into_vacation [Examples.request]).
  constructor; [|constructor].
  split; [discriminate|]. split; [discriminate|]. intros _. now split.
Defined.

Lemma save_ignores_totalDays (clk : Clock) (db : list t) (d : Doc)
    (s e : Z) (q q' : Q) :
  startDate (paths d) = Some s -> endDate (paths d) = Some e ->
  save clk db (with_paths (set_totalDays (Some q)) d)
  = save clk db (with_paths (set_totalDays (Some q')) d).
Proof.
  intros Hs He. unfold save, bind, validate, computeTotalDays, with_paths.
  destruct d as [r m a b c0 h k]. simpl in *.
  destruct r. simpl in *. subst. simpl.
  destruct (String.length _ =? 0)%nat; [reflexivity|].
  destruct (500 <? String.length _)%nat; reflexivity.
Qed.

Lemma save_paths (clk : Clock) (db : list t) (d d' : Doc) :
  paths d = paths d' -> statusModified d = statusModified d' ->
  save clk db d = save clk db d'.
Proof. intros Hp Hm. unfold save. now rewrite Hp, Hm. Qed.

(** X30. The half-day flag of a request never reaches the stored
    leave: the routes put it in [halfDay], which the schema does not
    declare, and the total days they compute from it are replaced by
    the hook's, which reads the stored [isHalfDay].  So the create and
    the update route store the same, and answer with the same status
    and message, whatever the flag. *)
Theorem leave_half_day_flag_is_ignored
    (connected : bool) (clk : Clock) (actor : Actor) (id : Id)
    (type : option LeaveType) (startDate' endDate' : option Z)
    (reason' : option string) (flag flag' : bool)
    (half half' : option bool) (db : list t) :
  LeaveRoutes.createRoute connected clk actor
    (LeaveRoutes.mkCreateBody type startDate' endDate' reason' flag) db
  = LeaveRoutes.createRoute connected clk actor
      (LeaveRoutes.mkCreateBody type startDate' endDate' reason' flag') db
  /\ LeaveRoutes.updateRoute clk actor id
       (LeaveRoutes.mkUpdateBody type startDate' endDate' reason' half) db
     = LeaveRoutes.updateRoute clk actor id
         (LeaveRoutes.mkUpdateBody type startDate' endDate' reason' half')
         db.
Proof.
  split.
  - unfold LeaveRoutes.createRoute. cbv zeta. simpl.
    destruct type as [ty|], startDate' as [s|], endDate' as [e|],
             reason' as [why|]; try reflexivity.
    destruct (e <? s); [reflexivity|].
    destruct (s <? now clk); [reflexivity|].
    destruct connected; [|reflexivity].
    destruct (findOne _ db); [reflexivity|].
    match goal with
    | |- context [load (mk ?i ?em ?ty' ?st ?en (Some ?q) ?re ?stt ?a1 ?a2
                          ?a3 ?a4 ?hf ?up)] =>
        set (d := load (mk i em ty' st en None re stt a1 a2 a3 a4 hf up))
    end.
    change (match save clk db (with_paths (set_totalDays
                     (Some (if flag then (1 # 2)%Q else daysDiff s e))) d)
            with
            | Ok (_, db') =>
                (mkResponse 201 "Leave request submitted successfully", db')
            | Err _ =>
                (mkResponse 201 "Leave request submitted successfully", db)
            end
            = match save clk db (with_paths (set_totalDays
                     (Some (if flag' then (1 # 2)%Q else daysDiff s e))) d)
              with
              | Ok (_, db') =>
                  (mkResponse 201 "Leave request submitted successfully",
                   db')
              | Err _ =>
                  (mkResponse 201 "Leave request submitted successfully", db)
              end).
    now rewrite (save_ignores_totalDays clk db d s e _
                   (if flag' then (1 # 2)%Q else daysDiff s e)).
  - unfold LeaveRoutes.updateRoute. cbv zeta. simpl.
    destruct (findById _id id db) as [l|]; [|reflexivity].
    destruct (_ && _); [reflexivity|].
    destruct (_ && _); [reflexivity|].
    destruct startDate' as [s|], endDate' as [e|].
    + destruct (e <? s); [reflexivity|].
      match goal with
      | |- match save clk db ?x with _ => _ end
           = match save clk db ?y with _ => _ end =>
          assert (Hsame : save clk db x = save clk db y)
      end; [|now rewrite Hsame].
      match goal with
      | |- save clk db (with_paths (set_totalDays (Some ?q)) ?d)
           = save clk db (with_paths (set_totalDays (Some ?q')) _) =>
          rewrite (save_ignores_totalDays clk db d s e q q')
      end;
        try (apply save_paths);
        destruct type, reason', half, half'; reflexivity.
    + apply (f_equal (fun r => match r with
                               | Ok (_, db') => _
                               | Err _ => _
                               end)).
      apply save_paths; destruct type, reason', half, half'; reflexivity.
    + apply (f_equal (fun r => match r with
                               | Ok (_, db') => _
                               | Err _ => _
                               end)).
      apply save_paths; destruct type, reason', half, half'; reflexivity.
    + apply (f_equal (fun r => match r with
                               | Ok (_, db') => _
                               | Err _ => _
                               end)).
      apply save_paths; destruct type, reason', half, half'; reflexivity.
Qed.

End LeaveStatus.
